(** * Codebase index: skip policy, import resolution, indexing and search

    Shallow embedding of the indexing engine of the code explorer:
    - [code_explorer/utils.py]    : [should_skip_path]
    - [code_explorer/config.py]   : [EXTENSION_TO_LANGUAGE], [ENTITY_TYPES],
                                    [LANGUAGE_QUERIES]
    - [code_explorer/models.py]   : [CodeEntity]
    - [codebase_explorer/parsers.py] : [TreeSitterParser], [RegexFallbackParser]
    - [codebase_explorer/index.py]   : [CodebaseIndex]

    Python strings are modelled as [string] (case folding is the ASCII
    one), [pathlib] paths as their tuple of [parts] (POSIX flavour, suffix
    rule as before Python 3.14), the entity [dict] as an insertion-ordered
    association list, the [networkx] digraph as a pair of finite sets.
    Byte offsets of syntax nodes index the text as they do in the source.
    The file system, the grammar library, the regular expression engine,
    the Bloom filter and the digest function are outside the repository:
    they are fields of explicit environment records.  Progress output is
    left out; the lines printed for failed files are kept as a log. *)

From Stdlib Require Import String Ascii List Bool Arith Lia.
From stdpp Require Import base list strings gmap.

(* ================================================================== *)
(** * Python string operations *)
(* ================================================================== *)

Module PyStr.

(** [s.startswith(p)] *)
Definition startswith (s p : string) : bool := String.prefix p s.

(** [c in chars], for a character set written as a string. *)
Fixpoint char_in (c : ascii) (chars : string) : bool :=
  match chars with
  | EmptyString => false
  | String a rest => Ascii.eqb c a || char_in c rest
  end.

(** [s.lstrip(chars)]: drops the longest prefix made of characters of
    [chars] (a character set, not a prefix string). *)
Fixpoint lstrip (chars s : string) : string :=
  match s with
  | EmptyString => EmptyString
  | String c rest => if char_in c chars then lstrip chars rest else s
  end.

Fixpoint rev_onto (s acc : string) : string :=
  match s with
  | EmptyString => acc
  | String c rest => rev_onto rest (String c acc)
  end.

Definition rev (s : string) : string := rev_onto s EmptyString.

(** [s.rstrip(chars)] and [s.strip(chars)] *)
Definition rstrip (chars s : string) : string := rev (lstrip chars (rev s)).
Definition strip (chars s : string) : string := rstrip chars (lstrip chars s).

(** [s[n:]] *)
Fixpoint drop (n : nat) (s : string) : string :=
  match n, s with
  | O, _ => s
  | S _, EmptyString => EmptyString
  | S k, String _ rest => drop k rest
  end.

(** [s[:n]] *)
Fixpoint take (n : nat) (s : string) : string :=
  match n, s with
  | O, _ => EmptyString
  | S _, EmptyString => EmptyString
  | S k, String c rest => String c (take k rest)
  end.

(** [s[a:b]] for non-negative bounds. *)
Definition slice (a b : nat) (s : string) : string := take (b - a) (drop a s).

(** [s.replace(old, new)] for a non-empty [old]: leftmost,
    non-overlapping occurrences.  [skip] counts the characters of an
    occurrence already replaced that remain to be passed over. *)
Fixpoint replace_from (old new : string) (skip : nat) (s : string) : string :=
  match s with
  | EmptyString => EmptyString
  | String c rest =>
      match skip with
      | S k => replace_from old new k rest
      | O =>
          if String.prefix old s
          then new +:+ replace_from old new (String.length old - 1) rest
          else String c (replace_from old new 0 rest)
      end
  end.

Definition replace (old new s : string) : string := replace_from old new 0 s.

(** [s.split(sep)] for a one-character separator: never the empty list. *)
Fixpoint split (sep : ascii) (s : string) : list string :=
  match s with
  | EmptyString => [EmptyString]
  | String c rest =>
      if Ascii.eqb c sep then EmptyString :: split sep rest
      else match split sep rest with
           | [] => [String c EmptyString]
           | w :: ws => String c w :: ws
           end
  end.

(** [sep.join(parts)] *)
Fixpoint join (sep : string) (parts : list string) : string :=
  match parts with
  | [] => EmptyString
  | [w] => w
  | w :: ws => w +:+ sep +:+ join sep ws
  end.

(** [s.rfind(c)] for one character; [None] stands for [-1]. *)
Fixpoint rfind (c : ascii) (s : string) : option nat :=
  match s with
  | EmptyString => None
  | String a rest =>
      match rfind c rest with
      | Some i => Some (S i)
      | None => if Ascii.eqb a c then Some 0 else None
      end
  end.

(** [q in s] on strings: [q] occurs as a contiguous substring. *)
Fixpoint contains (q s : string) : bool :=
  String.prefix q s ||
  match s with
  | EmptyString => false
  | String _ rest => contains q rest
  end.

Definition lower_char (c : ascii) : ascii :=
  let n := nat_of_ascii c in
  if (65 <=? n) && (n <=? 90) then ascii_of_nat (n + 32) else c.

(** [s.lower()], on the ASCII letters. *)
Fixpoint lower (s : string) : string :=
  match s with
  | EmptyString => EmptyString
  | String c rest => String (lower_char c) (lower rest)
  end.

(** [x in xs] for a list, tuple, set or dict-key view of strings. *)
Definition mem (x : string) (xs : list string) : bool :=
  existsb (String.eqb x) xs.

(** [s.endswith(p)] *)
Definition endswith (s p : string) : bool := String.prefix (rev p) (rev s).

(** Truth value of a string: the empty string is falsy. *)
Definition truthy (s : string) : bool :=
  match s with EmptyString => false | _ => true end.

End PyStr.

(* ================================================================== *)
(** * [pathlib] pure paths (POSIX flavour) *)
(* ================================================================== *)

Module PurePath.

(** A path is its tuple of [parts]; an absolute path starts with the
    anchor part ["/"] (or ["//"] for exactly two leading slashes). *)
Definition Path : Type := list string.

Definition is_anchor (part : string) : bool :=
  String.eqb part "/" || String.eqb part "//".

Definition is_absolute (p : Path) : bool :=
  match p with
  | a :: _ => is_anchor a
  | [] => false
  end.

Fixpoint leading_slashes (s : string) : nat :=
  match s with
  | String "/"%char rest => S (leading_slashes rest)
  | _ => 0
  end.

Definition keep_segment (seg : string) : bool :=
  negb (String.eqb seg "") && negb (String.eqb seg ".").

(** [PurePosixPath(s).parts]: empty and ["."] segments are dropped,
    [".."] segments are kept. *)
Definition of_string (s : string) : Path :=
  let segs := List.filter keep_segment (PyStr.split "/"%char s) in
  match leading_slashes s with
  | 0 => segs
  | 2 => "//" :: segs
  | _ => "/" :: segs
  end.

(** [p / s]: an absolute right operand replaces the left one. *)
Definition joinpath (p : Path) (s : string) : Path :=
  let q := of_string s in
  if is_absolute q then q else p ++ q.

(** [p.parent]: lexical; the anchor and the empty path are their own
    parent. *)
Definition parent (p : Path) : Path :=
  match p with
  | [a] => if is_anchor a then p else []
  | _ => removelast p
  end.

(** [p.name] *)
Definition name (p : Path) : string :=
  match p with
  | [a] => if is_anchor a then "" else a
  | _ => List.last p ""
  end.

(** [p.suffix] (as before Python 3.14: a lone trailing dot is no suffix). *)
Definition suffix (p : Path) : string :=
  let n := name p in
  match PyStr.rfind "."%char n with
  | Some i =>
      if (0 <? i) && (i <? String.length n - 1) then PyStr.drop i n else ""
  | None => ""
  end.

(** [str(p)] *)
Definition to_string (p : Path) : string :=
  match p with
  | [] => "."
  | a :: rest => if is_anchor a then a +:+ PyStr.join "/" rest
                 else PyStr.join "/" p
  end.

Fixpoint strip_prefix (base p : Path) : option Path :=
  match base, p with
  | [], _ => Some p
  | b :: base', x :: p' => if String.eqb b x then strip_prefix base' p' else None
  | _ :: _, [] => None
  end.

End PurePath.

Abbreviation Path := PurePath.Path.

(* ================================================================== *)
(** * [utils.py]: the skip policy *)
(* ================================================================== *)

Definition default_skip : list string :=
  [ ".git"; ".svn"; ".hg";
    "node_modules"; "bower_components";
    "venv"; ".venv"; "env"; ".env"; "__pycache__";
    "target"; "build"; "dist"; "out";
    ".pytest_cache"; ".tox"; ".coverage";
    ".idea"; ".vscode"; ".settings";
    "vendor";
    ".DS_Store"; "Thumbs.db" ].

Definition skip_extensions : list string :=
  [ ".pyc"; ".pyo"; ".so"; ".dll"; ".dylib"; ".exe"; ".bin" ].

(** The test of one part in the loop of [should_skip_path]. *)
Definition skip_part (skip : list string) (part : string) : bool :=
  (PyStr.startswith part "." && negb (String.eqb part "."))
  || PyStr.mem part skip.

(** [should_skip_path(path, skip_patterns=None)] *)
Definition should_skip_path (path : Path) (skip_patterns : option (list string))
  : bool :=
  let skip :=
    match skip_patterns with
    | Some ((_ :: _) as extra) => default_skip ++ extra
    | _ => default_skip
    end in
  if existsb (skip_part skip) path then true
  else if PyStr.mem (PurePath.suffix path) skip_extensions then true
  else false.

(* ================================================================== *)
(** * Exceptions, dictionaries, entities, the digraph *)
(* ================================================================== *)

(** Outcome of a Python call that may raise; the exception is kept by
    its class name. *)
Inductive result (A : Type) : Type :=
| Ok (a : A)
| Raise (exn : string).

Arguments Ok {A} a.
Arguments Raise {A} exn.

(** [dict] with string keys: insertion-ordered, assignment to a present
    key replaces the value in place. *)
Module PyDict.

Definition t (V : Type) : Type := list (string * V).

Definition empty {V : Type} : t V := [].

(** [d[k] = v] *)
Fixpoint set {V : Type} (k : string) (v : V) (d : t V) : t V :=
  match d with
  | [] => [(k, v)]
  | (k', v') :: rest =>
      if String.eqb k k' then (k, v) :: rest else (k', v') :: set k v rest
  end.

(** [d.get(k)] *)
Fixpoint get {V : Type} (k : string) (d : t V) : option V :=
  match d with
  | [] => None
  | (k', v') :: rest => if String.eqb k k' then Some v' else get k rest
  end.

Definition items {V : Type} (d : t V) : list (string * V) := d.
Definition keys {V : Type} (d : t V) : list string := map fst d.
Definition values {V : Type} (d : t V) : list V := map snd d.

(** [k in d] *)
Definition mem {V : Type} (k : string) (d : t V) : bool :=
  match get k d with Some _ => true | None => false end.

(** [d.update(other)] *)
Definition update {V : Type} (d other : t V) : t V :=
  fold_left (fun acc kv => set (fst kv) (snd kv) acc) other d.

(** The dictionary built by a sequence of assignments to an empty one. *)
Definition of_assignments {V : Type} (kvs : list (string * V)) : t V :=
  update empty kvs.

End PyDict.

(** Values stored in the [metadata] dictionary. *)
Inductive PyVal : Type :=
| PyInt (n : nat)
| PyString (s : string).

(** [models.py]: [CodeEntity].  The [embedding] field is never set by the
    indexing engine and is left out. *)
Record CodeEntity : Type := mkCodeEntity {
  path : string;
  type : string;
  name : string;
  content : string;
  summary : option string;
  dependencies : list string;
  ast_hash : option string;
  metadata : PyDict.t PyVal;
}.

(** [networkx.DiGraph]: [add_edge] also adds both end points as nodes. *)
Record DiGraph : Type := mkDiGraph {
  nodes : gset string;
  edges : gset (string * string);
}.

Definition empty_graph : DiGraph := {| nodes := ∅; edges := ∅ |}.

Definition add_node (n : string) (g : DiGraph) : DiGraph :=
  {| nodes := {[ n ]} ∪ nodes g; edges := edges g |}.

Definition add_edge (u v : string) (g : DiGraph) : DiGraph :=
  {| nodes := {[ u; v ]} ∪ nodes g; edges := {[ (u, v) ]} ∪ edges g |}.

(* ================================================================== *)
(** * [config.py]: the language tables *)
(* ================================================================== *)

Definition EXTENSION_TO_LANGUAGE : PyDict.t string :=
  [ (".py", "python");
    (".js", "javascript"); (".jsx", "javascript");
    (".cjs", "javascript"); (".mjs", "javascript");
    (".ts", "typescript"); (".tsx", "typescript"); (".mts", "typescript");
    (".java", "java");
    (".go", "go");
    (".rs", "rust");
    (".c", "c");
    (".cpp", "cpp"); (".cc", "cpp"); (".cxx", "cpp");
    (".h", "c");
    (".hpp", "cpp");
    (".cs", "c_sharp");
    (".rb", "ruby");
    (".php", "php");
    (".swift", "swift");
    (".kt", "kotlin");
    (".scala", "scala");
    (".r", "r");
    (".m", "objc"); (".mm", "objc") ].

Definition ENTITY_TYPES : PyDict.t (PyDict.t string) :=
  [ ("python",
      [ ("class_definition", "class");
        ("function_definition", "function") ]);
    ("javascript",
      [ ("class_declaration", "class");
        ("function_declaration", "function");
        ("arrow_function", "function");
        ("method_definition", "method") ]);
    ("typescript",
      [ ("class_declaration", "class");
        ("interface_declaration", "interface");
        ("function_declaration", "function");
        ("method_signature", "method");
        ("type_alias_declaration", "type") ]);
    ("java",
      [ ("class_declaration", "class");
        ("interface_declaration", "interface");
        ("method_declaration", "method");
        ("constructor_declaration", "constructor") ]);
    ("go",
      [ ("type_declaration", "type");
        ("function_declaration", "function");
        ("method_declaration", "method") ]);
    ("rust",
      [ ("struct_item", "struct");
        ("enum_item", "enum");
        ("function_item", "function");
        ("impl_item", "impl");
        ("trait_item", "trait") ]) ].

(** The ['definitions'] entries of [LANGUAGE_QUERIES], the only ones the
    parser reads. *)
Definition LANGUAGE_QUERIES_definitions : PyDict.t string :=
  [ ("python", "
      (class_definition name: (identifier) @class.name) @class
      (function_definition name: (identifier) @function.name) @function
      (decorated_definition) @decorated
    ");
    ("javascript", "
      (class_declaration name: (identifier) @class.name) @class
      (function_declaration name: (identifier) @function.name) @function
      (method_definition name: (property_identifier) @method.name) @method
      (variable_declarator
        name: (identifier) @var.name
        value: (arrow_function)? @arrow) @variable
    ");
    ("typescript", "
      (class_declaration name: (type_identifier) @class.name) @class
      (interface_declaration name: (type_identifier) @interface.name) @interface
      (function_declaration name: (identifier) @function.name) @function
      (method_signature name: (property_identifier) @method.name) @method
      (type_alias_declaration name: (type_identifier) @type.name) @type
    ");
    ("java", "
      (class_declaration name: (identifier) @class.name) @class
      (interface_declaration name: (identifier) @interface.name) @interface
      (method_declaration name: (identifier) @method.name) @method
      (constructor_declaration name: (identifier) @constructor.name) @constructor
    ");
    ("go", "
      (type_declaration (type_spec name: (type_identifier) @type.name)) @type
      (function_declaration name: (identifier) @function.name) @function
      (method_declaration name: (field_identifier) @method.name) @method
    ");
    ("rust", "
      (struct_item name: (type_identifier) @struct.name) @struct
      (enum_item name: (type_identifier) @enum.name) @enum
      (function_item name: (identifier) @function.name) @function
      (impl_item type: (type_identifier) @impl.type) @impl
      (trait_item name: (type_identifier) @trait.name) @trait
    ");
    ("cpp", "
      (class_specifier name: (type_identifier) @class.name) @class
      (function_definition declarator: (function_declarator declarator: (identifier) @function.name)) @function
      (struct_specifier name: (type_identifier) @struct.name) @struct
    ") ].

(* ================================================================== *)
(** * [parsers.py]: the two parsing strategies *)
(* ================================================================== *)

(** The capability set shared by the two strategies. *)
Record Parser : Type := mkParser {
  parse_file : string -> string -> result (PyDict.t CodeEntity);
  extract_imports : string -> string -> result (list string);
}.

(** The double quote character, and the set of the two quote characters
    that [_resolve_import] strips. *)
Definition dquote : string := String (ascii_of_nat 34) EmptyString.
Definition quote_chars : string := "'" +:+ dquote.

(** ** Syntax trees of the grammar library *)

(** A syntax-tree node: [type], the field it fills in its parent (empty
    for none), byte span, rows of [start_point] and [end_point],
    children. *)
#[warnings="-register-all"]
Inductive Node : Type := mkNode {
  node_type : string;
  node_field : string;
  start_byte : nat;
  end_byte : nat;
  start_line : nat;
  end_line : nat;
  children : list Node;
}.

(** One element of [query.captures(root)]: the captured node, its
    [parent], and the capture id, an index into the capture names of the
    query (an id out of range names no capture). *)
Record Capture : Type := mkCapture {
  cap_node : Node;
  cap_parent : option Node;
  cap_id : nat;
}.

(** The grammar library and the interpreter as the parser sees them. *)
Record TreeSitter : Type := mkTreeSitter {
  TREE_SITTER_AVAILABLE : bool;
  TREE_SITTER_BASIC : bool;
  (** whether [get_language(lang)] and [get_parser(lang)] return *)
  get_language : string -> bool;
  get_parser : string -> bool;
  (** [parsers[lang].parse(bytes(content, 'utf-8')).root_node] *)
  ts_parse : string -> string -> result Node;
  (** [languages[lang].query(q).captures(root)] *)
  ts_captures : string -> string -> Node -> result (list Capture);
  (** the nested calls the interpreter still allows when a recursive
      closure [walk] is first called; a walk that needs more raises
      [RecursionError] *)
  recursion_budget : nat;
}.

Definition is_name_char (c : ascii) : bool :=
  let n := nat_of_ascii c in
  ((48 <=? n) && (n <=? 57)) || ((65 <=? n) && (n <=? 90))
  || ((97 <=? n) && (n <=? 122)) || PyStr.char_in c "_.-".

(** The capture names of a query, in order of occurrence: the words that
    follow an [@]. *)
Fixpoint capture_names_from (cur : option string) (q : string) : list string :=
  match q with
  | EmptyString => match cur with Some w => [w] | None => [] end
  | String c rest =>
      match cur with
      | Some w =>
          if is_name_char c
          then capture_names_from (Some (w +:+ String c EmptyString)) rest
          else w :: capture_names_from
                      (if Ascii.eqb c "@" then Some EmptyString else None) rest
      | None =>
          capture_names_from
            (if Ascii.eqb c "@" then Some EmptyString else None) rest
      end
  end.

Definition capture_names (q : string) : list string := capture_names_from None q.

Definition capture_name (q : string) (c : Capture) : string :=
  nth (cap_id c) (capture_names q) EmptyString.

(** [content[node.start_byte:node.end_byte]] *)
Definition node_text (src : string) (n : Node) : string :=
  PyStr.slice (start_byte n) (end_byte n) src.

(** ** [TreeSitterParser] *)

Record TreeSitterParser : Type := mkTreeSitterParser {
  parsers : list string;    (** keys of [self.parsers] *)
  languages : list string;  (** keys of [self.languages] *)
}.

(** [TreeSitterParser.__init__] *)
Definition TreeSitterParser_init (ts : TreeSitter) : TreeSitterParser :=
  if TREE_SITTER_AVAILABLE ts then
    let langs := PyDict.values EXTENSION_TO_LANGUAGE in
    {| parsers := List.filter (fun l => get_language ts l && get_parser ts l) langs;
       languages := List.filter (get_language ts) langs |}
  else {| parsers := []; languages := [] |}.

(** The assignment made for one capture in the loop of [parse_file]. *)
Definition capture_assignment (src file_path q : string) (c : Capture)
  : option (string * CodeEntity) :=
  let cname := capture_name q c in
  if PyStr.endswith cname ".name" then
    let entity_type := hd EmptyString (PyStr.split "." cname) in
    let entity_name := node_text src (cap_node c) in
    let entity_id := file_path +:+ "::" +:+ entity_name in
    match cap_parent c with
    | Some parent =>
        Some (entity_id,
              {| path := file_path;
                 type := entity_type;
                 name := entity_name;
                 content :=
                   PyStr.slice (start_byte parent)
                     (Nat.min (end_byte parent) (start_byte parent + 300)) src;
                 summary := None; dependencies := []; ast_hash := None;
                 metadata :=
                   [ ("start_line", PyInt (start_line parent));
                     ("end_line", PyInt (end_line parent));
                     ("start_byte", PyInt (start_byte parent));
                     ("end_byte", PyInt (end_byte parent)) ] |})
    | None => None
    end
  else None.

Definition name_node_types : list string :=
  [ "identifier"; "type_identifier"; "property_identifier"; "field_identifier" ].

(** [_find_name_node] *)
Definition _find_name_node (node : Node) (lang_name : string) : option Node :=
  match List.find (fun child => PyStr.mem (node_type child) name_node_types
                                || String.eqb (node_type child) "name")
                  (children node) with
  | Some child => Some child
  | None =>
      if String.eqb lang_name "python"
         && (String.eqb (node_type node) "class_definition"
             || String.eqb (node_type node) "function_definition")
      then List.find (fun child => String.eqb (node_type child) "identifier")
                     (children node)
      else None
  end.

(** The assignment [walk] makes at one node of [_walk_tree], if any. *)
Definition walk_assignment (src file_path lang_name : string)
    (lang_entity_types : PyDict.t string) (node : Node)
  : list (string * CodeEntity) :=
  match PyDict.get (node_type node) lang_entity_types with
  | Some entity_type =>
      match _find_name_node node lang_name with
      | Some name_node =>
          let entity_name := node_text src name_node in
          [ (file_path +:+ "::" +:+ entity_name,
             {| path := file_path;
                type := entity_type;
                name := entity_name;
                content :=
                  PyStr.slice (start_byte node)
                    (Nat.min (end_byte node) (start_byte node + 300)) src;
                summary := None; dependencies := []; ast_hash := None;
                metadata :=
                  [ ("start_line", PyInt (start_line node));
                    ("end_line", PyInt (end_line node));
                    ("node_type", PyString (node_type node)) ] |}) ]
      | None => []
      end
  | None => []
  end.

(** The recursive closure [walk]: the node first, then its children. *)
Fixpoint walk_tree_assignments (src file_path lang_name : string)
    (lang_entity_types : PyDict.t string) (node : Node)
  : list (string * CodeEntity) :=
  walk_assignment src file_path lang_name lang_entity_types node
  ++ List.flat_map
       (walk_tree_assignments src file_path lang_name lang_entity_types)
       (children node).

(** The nested calls a recursive closure [walk] needs on a tree: one for
    the visit of the node, under it one more when the visit makes a call
    of its own ([calls node]), and those of the child that needs most. *)
Fixpoint walk_frames (calls : Node -> bool) (node : Node) : nat :=
  S (fold_right Nat.max (if calls node then 1 else 0)
       (map (walk_frames calls) (children node))).

(** [_walk_tree].  The closure [walk] calls itself once per level of the
    tree, and at a node of an entity type it calls [_find_name_node] and
    the constructor of the entity; beyond the budget of the interpreter
    the walk raises, and the dictionary it was filling, local to
    [_walk_tree], is lost. *)
Definition _walk_tree (budget : nat) (node : Node) (src file_path lang_name : string)
  : result (PyDict.t CodeEntity) :=
  let lang_entity_types :=
    match PyDict.get lang_name ENTITY_TYPES with
    | Some tbl => tbl
    | None => PyDict.empty
    end in
  if walk_frames (fun n => PyDict.mem (node_type n) lang_entity_types) node <=? budget
  then Ok (PyDict.of_assignments
             (walk_tree_assignments src file_path lang_name lang_entity_types node))
  else Raise "RecursionError".

(** The language of a file, and whether a grammar is loaded for it: the
    guard shared by [parse_file] and [extract_imports]. *)
Definition parser_language (self : TreeSitterParser) (file_path : string)
  : option string :=
  let ext := PurePath.suffix (PurePath.of_string file_path) in
  match PyDict.get ext EXTENSION_TO_LANGUAGE with
  | Some lang_name =>
      if PyStr.truthy lang_name && PyStr.mem lang_name (parsers self)
      then Some lang_name else None
  | None => None
  end.

(** [TreeSitterParser.parse_file].  The [except] clause is reached when
    building the query or computing the captures raises; the walk made
    there, like the one of the [else] branch, is under no [try]. *)
Definition TreeSitterParser_parse_file (ts : TreeSitter) (self : TreeSitterParser)
    (src file_path : string) : result (PyDict.t CodeEntity) :=
  match parser_language self file_path with
  | None => Ok PyDict.empty
  | Some lang_name =>
      match ts_parse ts lang_name src with
      | Raise e => Raise e
      | Ok root_node =>
          let fallback :=
            match _walk_tree (recursion_budget ts) root_node src file_path
                    lang_name with
            | Ok walked => Ok (PyDict.update PyDict.empty walked)
            | Raise e => Raise e
            end in
          match PyDict.get lang_name LANGUAGE_QUERIES_definitions with
          | Some q =>
              if PyStr.mem lang_name (languages self) then
                match ts_captures ts lang_name q root_node with
                | Ok captures =>
                    Ok (PyDict.of_assignments
                          (omap (capture_assignment src file_path q) captures))
                | Raise _ => fallback
                end
              else fallback
          | None => fallback
          end
      end
  end.

(** ** Import extraction over the syntax tree *)

Section ImportWalkers.

Variable src : string.

(** [node.child_by_field_name(f)] *)
Definition child_by_field_name (node : Node) (f : string) : option Node :=
  List.find (fun child => String.eqb (node_field child) f) (children node).

(** Text of every child whose type is one of [tys], in order. *)
Definition texts_of_children (tys : list string) (node : Node) : list string :=
  map (node_text src)
      (List.filter (fun child => PyStr.mem (node_type child) tys) (children node)).

(** A string literal without its delimiters:
    [content[child.start_byte+1:child.end_byte-1]]. *)
Definition unquoted_text (child : Node) : string :=
  PyStr.slice (start_byte child + 1) (end_byte child - 1) src.

Definition unquoted_of_children (ty : string) (node : Node) : list string :=
  map unquoted_text
      (List.filter (fun child => String.eqb (node_type child) ty) (children node)).

Definition python_imports_at (node : Node) : list string :=
  if String.eqb (node_type node) "import_statement"
  then texts_of_children ["dotted_name"] node
  else if String.eqb (node_type node) "import_from_statement"
  then texts_of_children ["dotted_name"; "relative_import"] node
  else [].

Definition js_imports_at (node : Node) : list string :=
  if String.eqb (node_type node) "import_statement"
  then unquoted_of_children "string" node
  else if String.eqb (node_type node) "call_expression"
  then match child_by_field_name node "function" with
       | Some func_node =>
           if String.eqb (node_text src func_node) "require"
           then match child_by_field_name node "arguments" with
                | Some args_node => unquoted_of_children "string" args_node
                | None => []
                end
           else []
       | None => []
       end
  else [].

Definition java_imports_at (node : Node) : list string :=
  if String.eqb (node_type node) "import_declaration"
  then texts_of_children ["scoped_identifier"; "identifier"] node
  else [].

Definition go_imports_at (node : Node) : list string :=
  if String.eqb (node_type node) "import_declaration"
  then List.flat_map
         (fun child =>
            if String.eqb (node_type child) "import_spec_list"
            then List.flat_map
                   (fun spec =>
                      if String.eqb (node_type spec) "import_spec"
                      then unquoted_of_children "interpreted_string_literal" spec
                      else [])
                   (children child)
            else [])
         (children node)
  else [].

Definition rust_imports_at (node : Node) : list string :=
  if String.eqb (node_type node) "use_declaration"
  then texts_of_children ["use_clause"; "scoped_identifier"] node
  else [].

(** The closure [walk] of the five [_extract_*_imports]: what the node
    contributes, then the children, depth first. *)
Fixpoint walk_imports (at_node : Node -> list string) (node : Node) : list string :=
  at_node node ++ List.flat_map (walk_imports at_node) (children node).

End ImportWalkers.

(** One of the five [_extract_*_imports]: the closure [walk] calls
    itself once per level of the tree and makes no other call; beyond the
    budget of the interpreter it raises. *)
Definition _extract_imports (budget : nat) (at_node : Node -> list string)
    (node : Node) : result (list string) :=
  if walk_frames (fun _ => false) node <=? budget
  then Ok (walk_imports at_node node)
  else Raise "RecursionError".

(** [TreeSitterParser.extract_imports] *)
Definition TreeSitterParser_extract_imports (ts : TreeSitter) (self : TreeSitterParser)
    (src file_path : string) : result (list string) :=
  match parser_language self file_path with
  | None => Ok []
  | Some lang_name =>
      match ts_parse ts lang_name src with
      | Raise e => Raise e
      | Ok root_node =>
          if String.eqb lang_name "python"
          then _extract_imports (recursion_budget ts) (python_imports_at src) root_node
          else if PyStr.mem lang_name ["javascript"; "typescript"]
          then _extract_imports (recursion_budget ts) (js_imports_at src) root_node
          else if String.eqb lang_name "java"
          then _extract_imports (recursion_budget ts) (java_imports_at src) root_node
          else if String.eqb lang_name "go"
          then _extract_imports (recursion_budget ts) (go_imports_at src) root_node
          else if String.eqb lang_name "rust"
          then _extract_imports (recursion_budget ts) (rust_imports_at src) root_node
          else Ok []
      end
  end.

Definition TreeSitterParser_as_Parser (ts : TreeSitter) : Parser :=
  let self := TreeSitterParser_init ts in
  {| parse_file := TreeSitterParser_parse_file ts self;
     extract_imports := TreeSitterParser_extract_imports ts self |}.

(** ** [RegexFallbackParser] *)

(** The regular-expression engine: [re.finditer(p, s)] as the list of
    [(match.start(), match.group(1))], and [re.findall(p, s)] for a
    pattern with one group. *)
Record Regex : Type := mkRegex {
  finditer : string -> string -> list (nat * string);
  findall : string -> string -> list string;
}.

Definition definition_patterns : list (string * string) :=
  [ ("class\s+(\w+)", "class");
    ("struct\s+(\w+)", "struct");
    ("interface\s+(\w+)", "interface");
    ("(?:def|func|function|fn)\s+(\w+)", "function");
    ("type\s+(\w+)", "type");
    ("enum\s+(\w+)", "enum") ].

Definition import_patterns : list string :=
  [ "import\s+([^\s;]+)";
    "from\s+([^\s]+)\s+import";
    "require\s*\(\s*['" +:+ dquote +:+ "]([^'" +:+ dquote +:+ "]+)['"
       +:+ dquote +:+ "]\s*\)";
    "#include\s*[<" +:+ dquote +:+ "]([^>" +:+ dquote +:+ "]+)[>" +:+ dquote +:+ "]";
    "use\s+([^\s;]+)" ].

(** The assignment made for one match in [RegexFallbackParser.parse_file]. *)
Definition regex_assignment (src file_path entity_type : string)
    (m : nat * string) : string * CodeEntity :=
  let start := fst m in
  let name := snd m in
  (file_path +:+ "::" +:+ name,
   {| path := file_path;
      type := entity_type;
      name := name;
      content := PyStr.slice start (Nat.min (start + 300) (String.length src)) src;
      summary := None; dependencies := []; ast_hash := None;
      metadata := [ ("position", PyInt start) ] |}).

(** [RegexFallbackParser.parse_file] *)
Definition RegexFallbackParser_parse_file (re : Regex) (src file_path : string)
  : result (PyDict.t CodeEntity) :=
  Ok (PyDict.of_assignments
        (List.flat_map
           (fun pat => map (regex_assignment src file_path (snd pat))
                           (finditer re (fst pat) src))
           definition_patterns)).

(** [RegexFallbackParser.extract_imports] *)
Definition RegexFallbackParser_extract_imports (re : Regex) (src file_path : string)
  : result (list string) :=
  Ok (List.flat_map (fun pat => findall re pat src) import_patterns).

Definition RegexFallbackParser_as_Parser (re : Regex) : Parser :=
  {| parse_file := RegexFallbackParser_parse_file re;
     extract_imports := RegexFallbackParser_extract_imports re |}.

(** The choice made in [CodebaseIndex.__init__]. *)
Definition select_parser (ts : TreeSitter) (re : Regex) : Parser :=
  if TREE_SITTER_AVAILABLE ts || TREE_SITTER_BASIC ts
  then TreeSitterParser_as_Parser ts
  else RegexFallbackParser_as_Parser re.

(* ================================================================== *)
(** * [index.py]: [CodebaseIndex] *)
(* ================================================================== *)

(** What the index reads from outside the repository. *)
Record Env : Type := mkEnv {
  (** the entries of [root.rglob('*')], each relative to [root] *)
  fs_walk : Path -> list Path;
  (** [p.is_file()], [p.exists()], [p.read_text(encoding='utf-8')] *)
  fs_is_file : Path -> bool;
  fs_exists : Path -> bool;
  fs_read_text : Path -> result string;
  (** [hashlib.md5(s.encode()).hexdigest()] *)
  md5_hexdigest : string -> string;
  (** whether [bloom_filter.add(k)] returns, given the keys added so far
      (it raises once the filter is over capacity) *)
  bloom_accepts : list string -> string -> bool;
  (** the [OSError] that [p.exists()] raises instead of answering, if
      any: [exists] answers [False] when [stat] fails with ENOENT,
      ENOTDIR, EBADF or ELOOP and lets every other error through, such as
      ENAMETOOLONG for a name longer than the file system allows; the
      resolver asks for paths made from the import strings of the
      indexed text *)
  fs_exists_error : Path -> option string;
}.

(** [p.exists()] *)
Definition path_exists (env : Env) (p : Path) : result bool :=
  match fs_exists_error env p with
  | Some e => Raise e
  | None => Ok (fs_exists env p)
  end.

(** The mutable attributes of a [CodebaseIndex], and the lines it prints
    for files that failed. *)
Record CodebaseIndex : Type := mkCodebaseIndex {
  entities : PyDict.t CodeEntity;
  dependency_graph : DiGraph;
  bloom_filter : list string;
  error_log : list (Path * string);
}.

(** [CodebaseIndex.__init__]: an empty index. *)
Definition CodebaseIndex_init : CodebaseIndex :=
  {| entities := PyDict.empty;
     dependency_graph := empty_graph;
     bloom_filter := [];
     error_log := [] |}.

(** Statements of a method: they update the index and return or raise;
    updates made before an exception is raised stay. *)
Definition M (A : Type) : Type := CodebaseIndex -> result A * CodebaseIndex.

#[global] Instance M_ret : MRet M := fun A a self => (Ok a, self).

#[global] Instance M_bind : MBind M := fun A B k m self =>
  match m self with
  | (Ok a, self') => k a self'
  | (Raise e, self') => (Raise e, self')
  end.

Definition lift {A : Type} (r : result A) : M A := fun self => (r, self).

Definition modify (f : CodebaseIndex -> CodebaseIndex) : M unit :=
  fun self => (Ok tt, f self).

(** [for x in xs: body(x)] *)
Fixpoint for_each {A : Type} (xs : list A) (body : A -> M unit) : M unit :=
  match xs with
  | [] => mret tt
  | x :: rest => body x ;; for_each rest body
  end.

(** [self.entities[k] = e] *)
Definition set_entity (k : string) (e : CodeEntity) : M unit :=
  modify (fun self =>
    {| entities := PyDict.set k e (entities self);
       dependency_graph := dependency_graph self;
       bloom_filter := bloom_filter self;
       error_log := error_log self |}).

Definition update_graph (f : DiGraph -> DiGraph) : M unit :=
  modify (fun self =>
    {| entities := entities self;
       dependency_graph := f (dependency_graph self);
       bloom_filter := bloom_filter self;
       error_log := error_log self |}).

Definition log_error (file_path : Path) (e : string) (self : CodebaseIndex)
  : CodebaseIndex :=
  {| entities := entities self;
     dependency_graph := dependency_graph self;
     bloom_filter := bloom_filter self;
     error_log := error_log self ++ [(file_path, e)] |}.

(** [p.relative_to(base)] as a string; [ValueError] when [base] is not a
    leading part of [p]. *)
Definition relative_to (p base : Path) : result string :=
  match PurePath.strip_prefix base p with
  | Some rel => Ok (PurePath.to_string rel)
  | None => Raise "ValueError"
  end.

(** The loop [while import_name.startswith('../')]. *)
Fixpoint navigate_up (base_dir : Path) (import_name : string) : Path * string :=
  match import_name with
  | String "." (String "." (String "/" rest)) =>
      navigate_up (PurePath.parent base_dir) rest
  | _ => (base_dir, import_name)
  end.

Section Index.

Variable env : Env.
Variable parser : Parser.
Variable root_path : Path.

(** [self.bloom_filter.add(k)] *)
Definition bloom_add (k : string) : M unit := fun self =>
  if bloom_accepts env (bloom_filter self) k
  then (Ok tt,
        {| entities := entities self;
           dependency_graph := dependency_graph self;
           bloom_filter := bloom_filter self ++ [k];
           error_log := error_log self |})
  else (Raise "IndexError", self).

(** The three candidates built for one extension. *)
Definition candidates (base : Path) (import_name ext : string) : list Path :=
  [ PurePath.joinpath base (import_name +:+ ext);
    PurePath.joinpath (PurePath.joinpath base import_name) ("index" +:+ ext);
    PurePath.joinpath (PurePath.joinpath base import_name) ("__init__" +:+ ext) ].

(** [for candidate in candidates: if candidate.exists(): return ...] *)
Fixpoint first_existing (cands : list Path) : result (option Path) :=
  match cands with
  | [] => Ok None
  | candidate :: rest =>
      match path_exists env candidate with
      | Raise e => Raise e
      | Ok true => Ok (Some candidate)
      | Ok false => first_existing rest
      end
  end.

(** [for ext in EXTENSION_TO_LANGUAGE.keys(): ...] with its early return. *)
Fixpoint search_extensions (base : Path) (import_name : string)
    (exts : list string) : result (option Path) :=
  match exts with
  | [] => Ok None
  | ext :: rest =>
      match first_existing (candidates base import_name ext) with
      | Raise e => Raise e
      | Ok (Some candidate) => Ok (Some candidate)
      | Ok None => search_extensions base import_name rest
      end
  end.

(** The outcome of the search: the exception of [exists()] passed on,
    the value returned once a candidate is found, or [None]. *)
Definition resolved_of (found : result (option Path)) : result (option string) :=
  match found with
  | Raise e => Raise e
  | Ok (Some candidate) =>
      match relative_to candidate root_path with
      | Ok s => Ok (Some s)
      | Raise e => Raise e
      end
  | Ok None => Ok None
  end.

(** [_resolve_import] *)
Definition _resolve_import (import_name : string) (from_file : Path)
  : result (option string) :=
  let import_name := PyStr.strip quote_chars import_name in
  if PyStr.startswith import_name "." then
    let '(base_dir, import_name) :=
      navigate_up (PurePath.parent from_file) import_name in
    let import_name := PyStr.lstrip "./" import_name in
    resolved_of (search_extensions base_dir import_name
                   (PyDict.keys EXTENSION_TO_LANGUAGE))
  else
    let parts :=
      PyStr.split "/" (PyStr.replace "::" "/" (PyStr.replace "." "/" import_name)) in
    resolved_of (search_extensions root_path (PyStr.join "/" parts)
                   (PyDict.keys EXTENSION_TO_LANGUAGE)).

(** The edge recorded for one import of the file at [relative_path]. *)
Definition add_import_edge (file_path : Path) (relative_path imp : string) : M unit :=
  resolved ← lift (_resolve_import imp file_path);
  match resolved with
  | Some target =>
      if PyStr.truthy target
      then update_graph (add_edge relative_path target)
      else update_graph (add_edge relative_path ("external:" +:+ imp))
  | None => update_graph (add_edge relative_path ("external:" +:+ imp))
  end.

(** The [try] block of [_index_file]. *)
Definition _index_file_try (file_path : Path) : M unit :=
  src ← lift (fs_read_text env file_path);
  relative_path ← lift (relative_to file_path root_path);
  bloom_add relative_path ;;
  let file_entity :=
    {| path := relative_path;
       type := "file";
       name := PurePath.name file_path;
       content := PyStr.take 500 src;
       summary := None; dependencies := [];
       ast_hash := Some (md5_hexdigest env src);
       metadata := PyDict.empty |} in
  set_entity relative_path file_entity ;;
  update_graph (add_node relative_path) ;;
  parsed ← lift (parse_file parser src relative_path);
  for_each (PyDict.items parsed) (fun kv =>
    set_entity (fst kv) (snd kv) ;;
    update_graph (add_node (fst kv)) ;;
    update_graph (add_edge (fst kv) relative_path)) ;;
  imports ← lift (extract_imports parser src relative_path);
  for_each imports (add_import_edge file_path relative_path).

(** The state in which [_index_file] starts to parse: the path is in
    the filter, the file entity and its node are in place. *)
Definition with_file_entity (file_path : Path) (src relative_path : string)
    (self : CodebaseIndex) : CodebaseIndex :=
  {| entities :=
       PyDict.set relative_path
         {| path := relative_path;
            type := "file";
            name := PurePath.name file_path;
            content := PyStr.take 500 src;
            summary := None; dependencies := [];
            ast_hash := Some (md5_hexdigest env src);
            metadata := PyDict.empty |}
         (entities self);
     dependency_graph := add_node relative_path (dependency_graph self);
     bloom_filter := bloom_filter self ++ [relative_path];
     error_log := error_log self |}.

(** The rest of the [try] block from there: parse, link, resolve. *)
Definition parse_and_link (file_path : Path) (src relative_path : string) : M unit :=
  parsed ← lift (parse_file parser src relative_path);
  for_each (PyDict.items parsed) (fun kv =>
    set_entity (fst kv) (snd kv) ;;
    update_graph (add_node (fst kv)) ;;
    update_graph (add_edge (fst kv) relative_path)) ;;
  imports ← lift (extract_imports parser src relative_path);
  for_each imports (add_import_edge file_path relative_path).

(** [_index_file]: any exception is printed and swallowed. *)
Definition _index_file (file_path : Path) (self : CodebaseIndex) : CodebaseIndex :=
  match _index_file_try file_path self with
  | (Ok _, self') => self'
  | (Raise e, self') => log_error file_path e self'
  end.

(** [root_path.rglob('*')] *)
Definition rglob : list Path :=
  map (fun rel => root_path ++ rel) (fs_walk env root_path).

(** The counters and the index after one iteration of the loop of
    [build_index]. *)
Definition build_step (extensions : list string)
    (st : nat * nat * CodebaseIndex) (file_path : Path) : nat * nat * CodebaseIndex :=
  let '(file_count, skipped_count, self) := st in
  if fs_is_file env file_path && PyStr.mem (PurePath.suffix file_path) extensions then
    if should_skip_path file_path None
    then (file_count, S skipped_count, self)
    else (S file_count, skipped_count, _index_file file_path self)
  else st.

(** [build_index]: returns [file_count], [skipped_count] and the index. *)
Definition build_index (extensions : option (list string)) (self : CodebaseIndex)
  : nat * nat * CodebaseIndex :=
  let extensions :=
    match extensions with
    | None => PyDict.keys EXTENSION_TO_LANGUAGE
    | Some exts => exts
    end in
  fold_left (build_step extensions) rglob (0, 0, self).

End Index.

(** [get_entity] *)
Definition get_entity (self : CodebaseIndex) (entity_id : string) : option CodeEntity :=
  PyDict.get entity_id (entities self).

(** The test of the loop of [search_entities] on one entity. *)
Definition search_match (query_lower : string) (entity_type : option string)
    (entity : CodeEntity) : bool :=
  let filtered_out :=
    match entity_type with
    | Some t => PyStr.truthy t && negb (String.eqb (type entity) t)
    | None => false
    end in
  if filtered_out then false
  else PyStr.contains query_lower (PyStr.lower (name entity))
       || PyStr.contains query_lower (PyStr.lower (path entity)).

(** [search_entities] *)
Definition search_entities (self : CodebaseIndex) (query : string)
    (entity_type : option string) : list CodeEntity :=
  let query_lower := PyStr.lower query in
  map snd (List.filter (fun kv => search_match query_lower entity_type (snd kv))
                       (PyDict.items (entities self))).

(** [get_file_entities] *)
Definition get_file_entities (self : CodebaseIndex) (file_path : string)
  : list CodeEntity :=
  map snd (List.filter
             (fun kv => String.eqb (path (snd kv)) file_path
                        || PyStr.startswith (fst kv) (file_path +:+ "::"))
             (PyDict.items (entities self))).

(* ================================================================== *)
(** * Concrete environments for worked examples *)
(* ================================================================== *)

Module Fixture.

Fixpoint path_eqb (p q : Path) : bool :=
  match p, q with
  | [], [] => true
  | a :: p', b :: q' => String.eqb a b && path_eqb p' q'
  | _, _ => false
  end.

Fixpoint path_prefixb (p q : Path) : bool :=
  match p, q with
  | [], _ => true
  | a :: p', b :: q' => String.eqb a b && path_prefixb p' q'
  | _ :: _, [] => false
  end.

(** What the operating system makes of [".."] parts when every
    directory on the way exists. *)
Definition normalize (p : Path) : Path :=
  fold_left
    (fun acc part =>
       if String.eqb part ".."
       then match acc with
            | [a] => if PurePath.is_anchor a then acc else []
            | _ => removelast acc
            end
       else acc ++ [part])
    p [].

(** A tree given by its regular files, as absolute or relative paths
    with their text (or the exception reading them raises).  Every
    leading part of a file is an existing directory. *)
Definition tree : Type := list (Path * result string).

Definition tree_exists (t : tree) (p : Path) : bool :=
  existsb (fun f => path_prefixb (normalize p) (fst f)) t.

Definition tree_is_file (t : tree) (p : Path) : bool :=
  existsb (fun f => path_eqb p (fst f)) t.

Definition tree_read_text (t : tree) (p : Path) : result string :=
  match List.find (fun f => path_eqb p (fst f)) t with
  | Some f => snd f
  | None => Raise "FileNotFoundError"
  end.

Definition tree_walk (t : tree) (root : Path) : list Path :=
  omap (fun f => PurePath.strip_prefix root (fst f)) t.

(** The file system refuses a path with a part of more than 255
    characters. *)
Definition tree_exists_error (p : Path) : option string :=
  if existsb (fun part => 255 <? String.length part) p
  then Some "OSError" else None.

(** An environment over a tree; the digest is a stand-in, the filter
    accepts keys up to its capacity of 10000. *)
#[warnings="-abstract-large-number"]
Definition env_of (t : tree) : Env :=
  {| fs_walk := tree_walk t;
     fs_is_file := tree_is_file t;
     fs_exists := tree_exists t;
     fs_read_text := tree_read_text t;
     md5_hexdigest := fun s => "md5:" +:+ s;
     bloom_accepts := fun keys _ => length keys <=? 10000;
     fs_exists_error := tree_exists_error |}.

(** A regular-expression engine given by the table of its matches. *)
Definition regex_of (tbl : list (string * string * list (nat * string))) : Regex :=
  let matches p s :=
    match List.find
            (fun r => String.eqb (fst (fst r)) p && String.eqb (snd (fst r)) s)
            tbl with
    | Some r => snd r
    | None => []
    end in
  {| finditer := matches;
     findall := fun p s => map snd (matches p s) |}.

(** No grammar library installed: the index falls back to the regular
    expressions. *)
Definition no_tree_sitter : TreeSitter :=
  {| TREE_SITTER_AVAILABLE := false;
     TREE_SITTER_BASIC := false;
     get_language := fun _ => false;
     get_parser := fun _ => false;
     ts_parse := fun _ _ => Raise "ImportError";
     ts_captures := fun _ _ _ => Raise "ImportError";
     recursion_budget := 990 |}.

(** A grammar library with every grammar loaded, given by its parse
    and capture tables, under an interpreter that leaves 990 nested calls
    to a walk. *)
Definition tree_sitter_of (parse : string -> string -> result Node)
    (captures : string -> string -> Node -> result (list Capture)) : TreeSitter :=
  {| TREE_SITTER_AVAILABLE := true;
     TREE_SITTER_BASIC := false;
     get_language := fun _ => true;
     get_parser := fun _ => true;
     ts_parse := parse;
     ts_captures := captures;
     recursion_budget := 990 |}.

End Fixture.

(* ================================================================== *)
(** * The skip policy as the specification words it *)
(* ================================================================== *)

(** The directory names the specification lists. *)
Definition listed_skip_names : list string :=
  [ ".git"; ".svn"; ".hg"; "node_modules"; "bower_components"; "venv";
    ".venv"; "env"; "__pycache__"; "target"; "build"; "dist"; "out";
    ".pytest_cache"; ".tox"; ".coverage"; ".idea"; ".vscode"; ".settings";
    "vendor" ].

(** A part that starts with a dot and is not the lone dot. *)
Definition hidden_part (part : string) : bool :=
  PyStr.startswith part "." && negb (String.eqb part ".").

(** The skip predicate in the words of the specification: a hidden part,
    a part among the listed names, or a listed extension. *)
Definition should_skip_spec (p : Path) : bool :=
  existsb (fun part => hidden_part part || PyStr.mem part listed_skip_names) p
  || PyStr.mem (PurePath.suffix p) skip_extensions.

(* ================================================================== *)
(** * Search as the specification words it *)
(* ================================================================== *)

(** [q] occurs in [s] as a contiguous substring. *)
Definition is_substring (q s : string) : Prop :=
  exists pre post, s = pre +:+ q +:+ post.

(** An entity passes a kind filter when its kind is the given one. *)
Definition passes_kind_filter (entity_type : option string) (e : CodeEntity) : Prop :=
  match entity_type with
  | Some t => type e = t
  | None => True
  end.

(** The lowercased query occurs in the lowercased name or path. *)
Definition matches_query (query : string) (e : CodeEntity) : Prop :=
  is_substring (PyStr.lower query) (PyStr.lower (name e))
  \/ is_substring (PyStr.lower query) (PyStr.lower (path e)).

(** The entities of one kind, in map iteration order. *)
Definition entities_of_kind (self : CodebaseIndex) (t : string) : list CodeEntity :=
  List.filter (fun e => String.eqb (type e) t) (PyDict.values (entities self)).

(* ================================================================== *)
(** * Worked examples *)
(* ================================================================== *)

Module Examples.
Import Fixture.

Definition proj : Path := ["/"; "proj"].

(** The end-to-end scenario: main.py imports utils, utils.py defines
    helper; no grammar library, so the regular expressions are used. *)
Definition scenario_tree : tree :=
  [ (proj ++ ["main.py"], Ok "import utils");
    (proj ++ ["utils.py"], Ok "def helper(): pass") ].

Definition scenario_regex : Regex :=
  regex_of
    [ ("import\s+([^\s;]+)", "import utils", [(0, "utils")]);
      ("(?:def|func|function|fn)\s+(\w+)", "def helper(): pass", [(0, "helper")]) ].


Definition scenario_index : CodebaseIndex :=
  snd (build_index (env_of scenario_tree)
         (select_parser no_tree_sitter scenario_regex) proj None
         CodebaseIndex_init).

(** A grammar library whose parser raises on every file. *)
Definition failing_tree_sitter : TreeSitter :=
  tree_sitter_of (fun _ _ => Raise "ValueError") (fun _ _ _ => Ok []).

(** a.py is readable but its parse raises, b.py cannot be decoded,
    c.py comes after both. *)
Definition faulty_tree : tree :=
  [ (proj ++ ["a.py"], Ok "x = 1");
    (proj ++ ["b.py"], Raise "UnicodeDecodeError");
    (proj ++ ["c.py"], Ok "y = 2") ].


(** A tree with one text file, whose extension is in no table. *)
Definition notes_tree : tree := [ (proj ++ ["notes.txt"], Ok "hello") ].

(** A grammar library with every grammar loaded and an empty tree for
    every file. *)
Definition blank_tree_sitter : TreeSitter :=
  tree_sitter_of
    (fun _ _ => Ok (mkNode "module" "" 0 0 0 0 []))
    (fun _ _ _ => Ok []).

Definition notes_build : nat * nat * CodebaseIndex :=
  build_index (env_of notes_tree)
    (select_parser blank_tree_sitter (regex_of [])) proj None
    CodebaseIndex_init.

(** The syntax tree of utils.py, and the one capture of its definitions
    query that names a definition: capture 2 of the Python query is
    function.name. *)
Definition helper_name_node : Node := mkNode "identifier" "name" 4 10 0 0 [].

Definition helper_def_node : Node :=
  mkNode "function_definition" "" 0 18 0 0
    [ mkNode "def" "" 0 3 0 0 [];
      helper_name_node;
      mkNode "parameters" "parameters" 10 12 0 0 [];
      mkNode ":" "" 12 13 0 0 [];
      mkNode "block" "body" 14 18 0 0 [] ].

Definition helper_module_node : Node := mkNode "module" "" 0 18 0 0 [ helper_def_node ].

Definition scenario_tree_sitter : TreeSitter :=
  tree_sitter_of
    (fun _ src =>
       if String.eqb src "def helper(): pass" then Ok helper_module_node
       else Ok (mkNode "module" "" 0 0 0 0 []))
    (fun _ _ root =>
       if String.eqb (node_type root) "module" && negb (Nat.eqb (end_byte root) 0)
       then Ok [ mkCapture helper_def_node (Some helper_module_node) 3;
                 mkCapture helper_name_node (Some helper_def_node) 2 ]
       else Ok []).

(** The same library with a query engine that raises, so that the tree
    is walked by hand. *)
Definition scenario_tree_sitter_no_query : TreeSitter :=
  tree_sitter_of (ts_parse scenario_tree_sitter) (fun _ _ _ => Raise "QueryError").

Definition helper_entity : CodeEntity :=
  {| path := "utils.py"; type := "function"; name := "helper";
     content := "def helper(): pass";
     summary := None; dependencies := []; ast_hash := None;
     metadata := [ ("position", PyInt 0) ] |}.

(** The relative import of the specification: a/b/c.py imports from
    the parent package; a/d.py is on disk. *)
Definition dotted_tree : tree :=
  [ (proj ++ ["a"; "b"; "c.py"], Ok "from ..d import e");
    (proj ++ ["a"; "d.py"], Ok "e = 1") ].

Definition dotted_regex : Regex :=
  regex_of
    [ ("import\s+([^\s;]+)", "from ..d import e", [(9, "e")]);
      ("from\s+([^\s]+)\s+import", "from ..d import e", [(0, "..d")]) ].

Definition dotted_index : CodebaseIndex :=
  snd (build_index (env_of dotted_tree)
         (select_parser no_tree_sitter dotted_regex) proj None
         CodebaseIndex_init).

(** A crate whose main.rs names the module m from the crate root; m.rs
    is on disk, directly under the root. *)
Definition crate_tree : tree :=
  [ (proj ++ ["main.rs"], Ok "use ::m;");
    (proj ++ ["m.rs"], Ok "pub fn f() {}") ].

Definition crate_regex : Regex :=
  regex_of [ ("use\s+([^\s;]+)", "use ::m;", [(0, "::m")]) ].

Definition crate_index : CodebaseIndex :=
  snd (build_index (env_of crate_tree)
         (select_parser no_tree_sitter crate_regex) proj None
         CodebaseIndex_init).

(** The same crate on a machine that also has a file m.rs in the root
    directory of the file system. *)
Definition crate_tree_with_outside_file : tree :=
  (["/"; "m.rs"], Ok "") :: crate_tree.

(** main.py imports a module that lives in a vendor directory, which
    the skip policy keeps out of the index. *)
Definition vendor_tree : tree :=
  [ (proj ++ ["main.py"], Ok "import vendor.lib");
    (proj ++ ["vendor"; "lib.py"], Ok "x = 1") ].

Definition vendor_regex : Regex :=
  regex_of [ ("import\s+([^\s;]+)", "import vendor.lib", [(0, "vendor.lib")]) ].

Definition vendor_index : CodebaseIndex :=
  snd (build_index (env_of vendor_tree)
         (select_parser no_tree_sitter vendor_regex) proj None
         CodebaseIndex_init).

(** A project checked out below a directory named build. *)
Definition nested_root : string := "/home/build/proj".

Definition nested_tree : tree :=
  [ (PurePath.of_string "/home/build/proj/src/main.py", Ok "x = 1") ].

End Examples.

(* ================================================================== *)
(** * Predicates of the statements *)
(* ================================================================== *)

(** [m] keeps [I]: if [I] holds before, it holds after, whether [m]
    returns or raises. *)
Definition preserves (I : CodebaseIndex -> Prop) {A : Type} (m : M A) : Prop :=
  forall self, I self -> I (snd (m self)).

(** The files the loop of build looks at: regular files with one of
    the extensions. *)
Definition is_candidate (env : Env) (extensions : list string) (file_path : Path)
  : bool :=
  fs_is_file env file_path && PyStr.mem (PurePath.suffix file_path) extensions.

(** What the target of an edge can be: a key of the mapping, an
    external node, or the root-relative path of a candidate that exists
    on disk. *)
Definition target_ok (env : Env) (root_path : Path) (self : CodebaseIndex)
    (v : string) : Prop :=
  PyDict.mem v (entities self) = true
  \/ PyStr.startswith v "external:" = true
  \/ exists candidate,
       fs_exists env candidate = true /\ relative_to candidate root_path = Ok v.

Definition graph_inv (env : Env) (root_path : Path) (self : CodebaseIndex) : Prop :=
  forall u v, (u, v) ∈ edges (dependency_graph self) ->
              PyDict.mem u (entities self) = true /\ target_ok env root_path self v.

(** A key is the path of a file entity, or path, two colons and name of
    an entity of another kind. *)
Definition key_derivation (k : string) (e : CodeEntity) : Prop :=
  (type e = "file" /\ k = path e)
  \/ (type e <> "file" /\ k = path e +:+ "::" +:+ name e).

Definition key_inv (self : CodebaseIndex) : Prop :=
  forall k e, In (k, e) (PyDict.items (entities self)) -> key_derivation k e.

(** What both strategies return for a file: entities of that file, of a
    kind other than file, under the derived key. *)
Definition definition_entry (file_path : string) (kv : string * CodeEntity) : Prop :=
  type (snd kv) <> "file"
  /\ path (snd kv) = file_path
  /\ fst kv = file_path +:+ "::" +:+ name (snd kv).

Definition parser_keys_ok (parser : Parser) : Prop :=
  forall src file_path d kv,
    parse_file parser src file_path = Ok d ->
    In kv (PyDict.items d) -> definition_entry file_path kv.

(** [k] parents up, and [k] leading dot-dot-slash segments before [rest]:
    what the climbing loop of the resolver undoes. *)
Fixpoint climb (k : nat) (base_dir : Path) : Path :=
  match k with
  | O => base_dir
  | S k' => climb k' (PurePath.parent base_dir)
  end.

Fixpoint dotdots (k : nat) (rest : string) : string :=
  match k with
  | O => rest
  | S k' => "../" +:+ dotdots k' rest
  end.

(** The slash-separated form of a root-relative import. *)
Definition slashed (import_name : string) : string :=
  PyStr.replace "::" "/" (PyStr.replace "." "/" import_name).

(** The three candidates of one extension, relative to their base. *)
Definition relative_candidates (import_name ext : string) : list Path :=
  [ PurePath.of_string (import_name +:+ ext);
    PurePath.of_string import_name ++ PurePath.of_string ("index" +:+ ext);
    PurePath.of_string import_name ++ PurePath.of_string ("__init__" +:+ ext) ].

(** [exists()] asked in turn about the relative paths [rels] taken
    under [base]: the first that exists, or the exception met on the
    way. *)
Fixpoint first_existing_under (env : Env) (base : Path) (rels : list Path)
  : result (option Path) :=
  match rels with
  | [] => Ok None
  | rel :: rest =>
      match path_exists env (base ++ rel) with
      | Raise e => Raise e
      | Ok true => Ok (Some rel)
      | Ok false => first_existing_under env base rest
      end
  end.

(* ================================================================== *)
(** * [utils.py]: counting and project detection *)
(* ================================================================== *)

(** [count_files_to_index] *)
Definition count_files_to_index (env : Env) (root_path : Path)
    (extensions : list string) : nat :=
  fold_left
    (fun count file_path =>
       if fs_is_file env file_path
          && PyStr.mem (PurePath.suffix file_path) extensions
       then if negb (should_skip_path file_path None) then S count else count
       else count)
    (rglob env root_path) 0.

(** The table [indicators] of [get_project_type]. *)
Definition indicators : PyDict.t (list string) :=
  [ ("python", ["pyproject.toml"; "setup.py"; "requirements.txt"; "Pipfile"]);
    ("javascript", ["package.json"; "yarn.lock"; "npm-shrinkwrap.json"; "pnpmfile.yaml"]);
    ("typescript", ["tsconfig.json"]);
    ("java", ["pom.xml"; "build.gradle"; "build.gradle.kts"]);
    ("rust", ["Cargo.toml"]);
    ("go", ["go.mod"]);
    ("ruby", ["Gemfile"]);
    ("php", ["composer.json"]);
    ("csharp", [".csproj"; ".sln"]);
    ("swift", ["Package.swift"]) ].

(** The inner loop of [get_project_type] with its [break]: whether one
    of the files exists under the root.  The names asked about are the
    constants of the table, directly under the root, and [exists()] is
    taken to answer. *)
Fixpoint has_indicator (env : Env) (root_path : Path) (files : list string) : bool :=
  match files with
  | [] => false
  | file :: rest =>
      if fs_exists env (PurePath.joinpath root_path file) then true
      else has_indicator env root_path rest
  end.

(** The list [detected] after the outer loop, over a table [tbl]. *)
Definition detected_in (env : Env) (root_path : Path) (tbl : PyDict.t (list string))
  : list string :=
  List.flat_map
    (fun entry => if has_indicator env root_path (snd entry) then [fst entry] else [])
    (PyDict.items tbl).

(** [get_project_type] *)
Definition get_project_type (env : Env) (root_path : Path) : string :=
  match detected_in env root_path indicators with
  | [] => "unknown"
  | [lang] => lang
  | detected => "mixed (" +:+ PyStr.join ", " detected +:+ ")"
  end.

(* ================================================================== *)
(** * Further predicates of the statements *)
(* ================================================================== *)

(** The excerpt of an entity is bounded: 500 characters for a file, 300
    for a definition. *)
Definition excerpt_bounded (e : CodeEntity) : Prop :=
  if String.eqb (type e) "file" then String.length (content e) <= 500
  else String.length (content e) <= 300.

(** Every stored entity satisfies [Q]. *)
Definition entities_all (Q : string -> CodeEntity -> Prop) (self : CodebaseIndex) : Prop :=
  forall k e, In (k, e) (PyDict.items (entities self)) -> Q k e.

(** The assignments of [RegexFallbackParser.parse_file], in the order in
    which the loops make them. *)
Definition regex_assignments (re : Regex) (src file_path : string)
  : list (string * CodeEntity) :=
  List.flat_map
    (fun pat => map (regex_assignment src file_path (snd pat))
                    (finditer re (fst pat) src))
    definition_patterns.

(** The file entity that [_index_file] stores. *)
Definition file_entity_of (env : Env) (file_path : Path) (src relative_path : string)
  : CodeEntity :=
  {| path := relative_path;
     type := "file";
     name := PurePath.name file_path;
     content := PyStr.take 500 src;
     summary := None; dependencies := [];
     ast_hash := Some (md5_hexdigest env src);
     metadata := PyDict.empty |}.

(** The languages for which [extract_imports] of the precise strategy
    has an extractor. *)
Definition import_languages : list string :=
  [ "python"; "javascript"; "typescript"; "java"; "go"; "rust" ].

(** The index after the three statements made for one parsed entity:
    the entity under its key, its node, its edge to the file. *)
Definition with_definition (k : string) (e : CodeEntity) (relative_path : string)
    (self : CodebaseIndex) : CodebaseIndex :=
  {| entities := PyDict.set k e (entities self);
     dependency_graph :=
       add_edge k relative_path (add_node k (dependency_graph self));
     bloom_filter := bloom_filter self;
     error_log := error_log self |}.

(** The index after one more edge. *)
Definition with_edge (u v : string) (self : CodebaseIndex) : CodebaseIndex :=
  {| entities := entities self;
     dependency_graph := add_edge u v (dependency_graph self);
     bloom_filter := bloom_filter self;
     error_log := error_log self |}.





(** [b] holds everything [a] holds: keys, nodes, edges, filter keys and
    log lines. *)
Definition index_le (a b : CodebaseIndex) : Prop :=
  (forall k, PyDict.mem k (entities a) = true -> PyDict.mem k (entities b) = true)
  /\ nodes (dependency_graph a) ⊆ nodes (dependency_graph b)
  /\ edges (dependency_graph a) ⊆ edges (dependency_graph b)
  /\ (forall k, In k (bloom_filter a) -> In k (bloom_filter b))
  /\ (forall l, In l (error_log a) -> In l (error_log b)).

(** An index of files alone: every entity is a file entity and the
    graph has no edge. *)
Definition files_only (self : CodebaseIndex) : Prop :=
  (forall k e, In (k, e) (PyDict.items (entities self)) -> type e = "file")
  /\ edges (dependency_graph self) = ∅.

(** Further worked examples. *)
Module MoreExamples.
Import Fixture.

(** A text in which two patterns match the same name: the class
    pattern at offset 0 and the struct pattern at offset 10. *)
Definition twice_src : string := "class Foo struct Foo".

Definition twice_regex : Regex :=
  regex_of
    [ ("class\s+(\w+)", twice_src, [(0, "Foo")]);
      ("struct\s+(\w+)", twice_src, [(10, "Foo")]) ].

(** A tree holding a manifest of one language only. *)
Definition cargo_tree : tree :=
  [ (Examples.proj ++ ["Cargo.toml"], Ok "[package]");
    (Examples.proj ++ ["src"; "main.rs"], Ok "fn main() {}") ].

(** A chain of [n] nested blocks around a leaf, and a grammar library
    that returns a chain of 1000 blocks for every text, deeper than the
    990 nested calls left to a walk. *)
Fixpoint chain (n : nat) : Node :=
  match n with
  | 0 => mkNode "leaf" "" 0 0 0 0 []
  | S n' => mkNode "block" "" 0 0 0 0 [chain n']
  end.

Definition deep_tree_sitter : TreeSitter :=
  tree_sitter_of (fun _ _ => Ok (chain 1000)) (fun _ _ _ => Raise "QueryError").

(** An import name of 300 characters, longer than a file name may
    be. *)
Fixpoint repeat_char (c : ascii) (n : nat) : string :=
  match n with
  | 0 => EmptyString
  | S n' => String c (repeat_char c n')
  end.

Definition long_name : string := repeat_char "a" 300.




(** Only the bare binding is installed: the library would parse, but no
    grammar is ever loaded. *)
Definition basic_tree_sitter : TreeSitter :=
  {| TREE_SITTER_AVAILABLE := false;
     TREE_SITTER_BASIC := true;
     get_language := fun _ => true;
     get_parser := fun _ => true;
     ts_parse := ts_parse Examples.scenario_tree_sitter;
     ts_captures := ts_captures Examples.scenario_tree_sitter;
     recursion_budget := 990 |}.

End MoreExamples.

(* ================================================================== *)
(** * [utils.py]: the memory estimate *)
(* ================================================================== *)

(** Number formatting is the interpreter's: [str_int n] is the text of
    [f"{n}"] and [fmt_1f a b] the text of [f"{a / b:.1f}"], for integers
    [n], [a] and [b]. *)
Record Formats : Type := {
  str_int : Z -> string;
  fmt_1f : Z -> Z -> string
}.

(** [estimate_memory_usage]; [None] stands for the default of
    [avg_file_size]. *)
Definition estimate_memory_usage (F : Formats) (file_count : Z)
    (avg_file_size : option Z) : string :=
  let avg_file_size := match avg_file_size with Some a => a | None => 5000%Z end in
  let kbSize := 1024%Z in
  let base_overhead := 100%Z in
  let entity_overhead := 500%Z in
  let avg_entities_per_file := 10%Z in
  let total_bytes :=
    (file_count
     * (avg_file_size + base_overhead + entity_overhead * avg_entities_per_file))%Z in
  if (total_bytes <? kbSize)%Z then str_int F total_bytes +:+ " B"
  else if (total_bytes <? kbSize * kbSize)%Z
  then fmt_1f F total_bytes kbSize +:+ " KB"
  else if (total_bytes <? kbSize * kbSize * kbSize)%Z
  then fmt_1f F total_bytes (kbSize * kbSize) +:+ " MB"
  else fmt_1f F total_bytes (kbSize * kbSize * kbSize) +:+ " GB".

(** A stand-in for the interpreter's formatting, for worked examples:
    decimal digits, and quotients cut after one decimal. *)
Module Formatting.

Definition digit (n : nat) : string :=
  String (ascii_of_nat (48 + n)) EmptyString.

(** Decimal text of a natural number; [fuel] bounds the number of
    digits. *)
Fixpoint decimal (fuel n : nat) : string :=
  match fuel with
  | 0 => digit (n mod 10)
  | S fuel' =>
      if n <? 10 then digit n
      else decimal fuel' (n / 10) +:+ digit (n mod 10)
  end.

Definition decimal_Z (n : Z) : string :=
  if (n <? 0)%Z then "-" +:+ decimal (Z.to_nat (- n)) (Z.to_nat (- n))
  else decimal (Z.to_nat n) (Z.to_nat n).

Definition truncating_formats : Formats :=
  {| str_int := decimal_Z;
     fmt_1f := fun a b =>
       decimal_Z (a / b) +:+ "." +:+ decimal_Z ((a * 10 / b) mod 10) |}.

End Formatting.

(* ================================================================== *)
(** * Lemmas on strings and dictionaries *)
(* ================================================================== *)

Lemma mem_In (x : string) (xs : list string) :
  PyStr.mem x xs = true <-> In x xs.
Proof.
  unfold PyStr.mem. rewrite existsb_exists. split.
  - intros [y [Hy Heq]]. apply String.eqb_eq in Heq. now subst.
  - intros H. exists x. split; [assumption | apply String.eqb_refl].
Qed.

Lemma prefix_app (p s : string) :
  String.prefix p s = true <-> exists post, s = p +:+ post.
Proof.
  revert s. induction p as [|c p IH]; intros s; simpl.
  - split; [intros _; now exists s | intros _; destruct s; reflexivity].
  - destruct s as [|d s]; simpl.
    + split; [discriminate | intros [post H]; discriminate].
    + destruct (Ascii.ascii_dec c d) as [->|Hne].
      * rewrite IH. split; intros [post H]; exists post.
        -- now rewrite H.
        -- now injection H.
      * split; [discriminate |].
        intros [post H]. injection H as H1 H2. congruence.
Qed.

Lemma startswith_app (p post : string) : PyStr.startswith (p +:+ post) p = true.
Proof. unfold PyStr.startswith. apply prefix_app. now exists post. Qed.

(** [q in s] holds exactly when [s] is [pre + q + post]. *)
Lemma contains_spec (q s : string) :
  PyStr.contains q s = true <-> exists pre post, s = pre +:+ q +:+ post.
Proof.
  induction s as [|c s IH]; cbn [PyStr.contains].
  - rewrite orb_false_r, prefix_app. split.
    + intros [post H]. now exists EmptyString, post.
    + intros [pre [post H]]. destruct pre; simpl in H; [now exists post | discriminate].
  - rewrite orb_true_iff, prefix_app, IH. split.
    + intros [[post H] | [pre [post H]]].
      * now exists EmptyString, post.
      * exists (String c pre), post. simpl. now rewrite H.
    + intros [pre [post H]]. destruct pre as [|d pre]; simpl in H.
      * left. now exists post.
      * right. injection H as H1 H2. now exists pre, post.
Qed.

Lemma contains_empty (s : string) : PyStr.contains EmptyString s = true.
Proof. destruct s; reflexivity. Qed.

Module PyDictFacts.

Lemma get_set {V : Type} (k k' : string) (v : V) (d : PyDict.t V) :
  PyDict.get k' (PyDict.set k v d)
  = if String.eqb k' k then Some v else PyDict.get k' d.
Proof.
  induction d as [|[k0 v0] d IH]; simpl.
  - reflexivity.
  - destruct (String.eqb k k0) eqn:E; simpl.
    + apply String.eqb_eq in E. subst k0.
      destruct (String.eqb k' k); reflexivity.
    + rewrite IH. destruct (String.eqb k' k0) eqn:E0; [|reflexivity].
      apply String.eqb_eq in E0. subst k0.
      rewrite String.eqb_sym, E. reflexivity.
Qed.

(** Assignment to a present key overwrites: the last value wins. *)
Lemma get_set_same {V : Type} (k : string) (v : V) (d : PyDict.t V) :
  PyDict.get k (PyDict.set k v d) = Some v.
Proof. rewrite get_set, String.eqb_refl. reflexivity. Qed.

Lemma mem_set {V : Type} (k k' : string) (v : V) (d : PyDict.t V) :
  PyDict.mem k' (PyDict.set k v d) = String.eqb k' k || PyDict.mem k' d.
Proof.
  unfold PyDict.mem. rewrite get_set. destruct (String.eqb k' k); reflexivity.
Qed.

Lemma get_In {V : Type} (k : string) (v : V) (d : PyDict.t V) :
  PyDict.get k d = Some v -> In (k, v) (PyDict.items d).
Proof.
  unfold PyDict.items. induction d as [|[k0 v0] d IH]; simpl; [discriminate|].
  destruct (String.eqb k k0) eqn:E.
  - apply String.eqb_eq in E. intros [= ->]. left. now subst.
  - intros H. right. now apply IH.
Qed.

Lemma In_set {V : Type} (k k' : string) (v v' : V) (d : PyDict.t V) :
  In (k', v') (PyDict.set k v d) -> (k', v') = (k, v) \/ In (k', v') d.
Proof.
  induction d as [|[k0 v0] d IH]; simpl.
  - intros [H | []]. left. now symmetry.
  - destruct (String.eqb k k0); simpl.
    + intros [H | H]; [left; now symmetry | right; now right].
    + intros [H | H]; [right; now left |].
      destruct (IH H) as [? | ?]; [now left | right; now right].
Qed.

Lemma In_update {V : Type} (d kvs : PyDict.t V) (k : string) (v : V) :
  In (k, v) (PyDict.update d kvs) -> In (k, v) d \/ In (k, v) kvs.
Proof.
  unfold PyDict.update. revert d.
  induction kvs as [|[k0 v0] kvs IH]; intros d; simpl.
  - now left.
  - intros H. destruct (IH _ H) as [H1 | H1].
    + destruct (In_set _ _ _ _ _ H1) as [-> | H2]; [right; now left | now left].
    + right. now right.
Qed.

Lemma In_of_assignments {V : Type} (kvs : list (string * V)) (k : string) (v : V) :
  In (k, v) (PyDict.items (PyDict.of_assignments kvs)) -> In (k, v) kvs.
Proof.
  unfold PyDict.of_assignments, PyDict.items. intros H.
  destruct (In_update _ _ _ _ H) as [[] | H1]. exact H1.
Qed.

End PyDictFacts.

(* ================================================================== *)
(** * The skip policy *)
(* ================================================================== *)

Lemma hidden_part_spec (part : string) :
  hidden_part part = true <-> PyStr.startswith part "." = true /\ part <> ".".
Proof.
  unfold hidden_part. rewrite andb_true_iff, negb_true_iff.
  split; intros [H1 H2]; split; try assumption.
  - intros ->. discriminate.
  - destruct (String.eqb part ".") eqn:E; [|reflexivity].
    apply String.eqb_eq in E. contradiction.
Qed.

(** Beyond the hidden parts, the set of the code adds exactly one name to
    the listed ones. *)
Lemma skip_part_default (part : string) :
  skip_part default_skip part = true
  <-> hidden_part part = true \/ In part (listed_skip_names ++ ["Thumbs.db"]).
Proof.
  unfold skip_part. fold (hidden_part part).
  rewrite orb_true_iff, mem_In. split.
  - intros [H | H]; [now left |].
    simpl in H.
    repeat (destruct H as [<- | H];
            [first [ left; reflexivity | right; simpl; tauto ] |]).
    destruct H.
  - intros [H | H]; [now left |]. right.
    simpl in H. simpl. tauto.
Qed.

(** C6, as amended: [should_skip_path] holds exactly for a hidden part, a
    part among the listed names or equal to Thumbs.db, or a listed
    extension; it holds for .git/config, project/.venv/lib and
    node_modules/pkg/index.js and fails for src/main.py. *)
Theorem should_skip_path_policy :
  (forall p : Path,
      should_skip_path p None = true
      <-> (exists part, In part p /\
             ((PyStr.startswith part "." = true /\ part <> ".")
              \/ In part (listed_skip_names ++ ["Thumbs.db"])))
          \/ In (PurePath.suffix p) skip_extensions)
  /\ should_skip_path (PurePath.of_string ".git/config") None = true
  /\ should_skip_path (PurePath.of_string "project/.venv/lib") None = true
  /\ should_skip_path (PurePath.of_string "node_modules/pkg/index.js") None = true
  /\ should_skip_path (PurePath.of_string "src/main.py") None = false.
Proof.
  split; [| repeat split; reflexivity].
  intros p. unfold should_skip_path.
  destruct (existsb (skip_part default_skip) p) eqn:E.
  - split; [intros _ | reflexivity]. left.
    apply existsb_exists in E. destruct E as [part [Hin Hs]].
    exists part. split; [assumption |].
    apply skip_part_default in Hs. rewrite hidden_part_spec in Hs. exact Hs.
  - destruct (PyStr.mem (PurePath.suffix p) skip_extensions) eqn:Es.
    + split; [intros _ | reflexivity]. right. now apply mem_In.
    + split; [discriminate |]. intros [[part [Hin Hs]] | Hs].
      * rewrite <- hidden_part_spec, <- skip_part_default in Hs.
        assert (existsb (skip_part default_skip) p = true) as Hc
            by (apply existsb_exists; eauto).
        congruence.
      * apply mem_In in Hs. congruence.
Qed.

(** C6, as stated, fails on a Thumbs.db part: the code skips it, the
    listed policy does not. *)
Lemma should_skip_thumbs_db :
  should_skip_path (PurePath.of_string "docs/Thumbs.db") None = true
  /\ should_skip_spec (PurePath.of_string "docs/Thumbs.db") = false.
Proof. split; reflexivity. Qed.

(* ================================================================== *)
(** * Search *)
(* ================================================================== *)

Lemma filter_sublist {A : Type} (f : A -> bool) (l : list A) :
  sublist (List.filter f l) l.
Proof.
  induction l as [|x l IH]; simpl.
  - constructor.
  - destruct (f x); now constructor.
Qed.

(** [search_entities] filters the values of the dictionary in place. *)
Lemma search_entities_filter (self : CodebaseIndex) (query : string)
    (entity_type : option string) :
  search_entities self query entity_type
  = List.filter (search_match (PyStr.lower query) entity_type)
      (PyDict.values (entities self)).
Proof.
  unfold search_entities, PyDict.values, PyDict.items.
  induction (entities self) as [|[k e] d IH]; simpl; [reflexivity |].
  destruct (search_match (PyStr.lower query) entity_type e); simpl; now rewrite IH.
Qed.

Lemma search_match_spec (query : string) (entity_type : option string)
    (e : CodeEntity) :
  search_match (PyStr.lower query) entity_type e = true
  <-> (entity_type <> Some EmptyString -> passes_kind_filter entity_type e)
      /\ matches_query query e.
Proof.
  unfold search_match, matches_query, is_substring.
  rewrite <- !contains_spec, <- orb_true_iff.
  destruct entity_type as [t|]; simpl.
  - destruct t as [|c t]; simpl.
    + tauto.
    + destruct (String.eqb (type e) (String c t)) eqn:E; simpl.
      * apply String.eqb_eq in E. tauto.
      * split; [discriminate |]. intros [H _].
        assert (type e = String c t) as Ht by (apply H; discriminate).
        apply String.eqb_eq in Ht. congruence.
  - tauto.
Qed.

(** C7, as amended: an entity is in the result exactly when it is stored
    in the index, passes the kind filter when a non-empty kind is given
    (an empty kind filters nothing), and the lowercased query occurs in
    its lowercased name or path; the result is a subsequence of the
    values in map iteration order. *)
Theorem search_entities_spec (self : CodebaseIndex) (query : string)
    (entity_type : option string) :
  (forall e : CodeEntity,
      In e (search_entities self query entity_type)
      <-> In e (PyDict.values (entities self))
          /\ (entity_type <> Some EmptyString -> passes_kind_filter entity_type e)
          /\ matches_query query e)
  /\ sublist (search_entities self query entity_type)
             (PyDict.values (entities self)).
Proof.
  rewrite search_entities_filter. split.
  - intros e. rewrite List.filter_In, search_match_spec. reflexivity.
  - apply filter_sublist.
Qed.

(** C7, as stated, fails for an empty kind filter: the file entity of
    main.py is returned although its kind is not the given one. *)
Lemma search_empty_kind_not_filtered :
  exists e : CodeEntity,
    In e (search_entities Examples.scenario_index "main" (Some EmptyString))
    /\ ~ passes_kind_filter (Some EmptyString) e.
Proof.
  exists {| path := "main.py"; type := "file"; name := "main.py";
            content := "import utils"; summary := None; dependencies := [];
            ast_hash := Some "md5:import utils"; metadata := [] |}.
  split.
  - vm_compute. left. reflexivity.
  - simpl. discriminate.
Qed.

Lemma lower_empty : PyStr.lower EmptyString = EmptyString.
Proof. reflexivity. Qed.

Lemma filter_true {A : Type} (f : A -> bool) (l : list A) :
  (forall x, f x = true) -> List.filter f l = l.
Proof.
  intros H. induction l as [|x l IH]; simpl; [reflexivity |].
  now rewrite H, IH.
Qed.

(** C10, as amended: for the empty query the result is every entity when
    no kind or the empty kind is given, and exactly the entities of the
    given kind when a non-empty kind is given. *)
Theorem search_empty_query (self : CodebaseIndex) :
  search_entities self EmptyString None = PyDict.values (entities self)
  /\ search_entities self EmptyString (Some EmptyString)
     = PyDict.values (entities self)
  /\ (forall (c : ascii) (t : string),
         search_entities self EmptyString (Some (String c t))
         = entities_of_kind self (String c t)).
Proof.
  rewrite !search_entities_filter, lower_empty.
  split; [| split].
  - apply filter_true. intros e. unfold search_match.
    now rewrite contains_empty.
  - apply filter_true. intros e. unfold search_match. simpl.
    now rewrite contains_empty.
  - intros c t. rewrite search_entities_filter, lower_empty.
    unfold entities_of_kind. apply List.filter_ext. intros e.
    unfold search_match. rewrite contains_empty. simpl.
    destruct (String.eqb (type e) (String c t)); reflexivity.
Qed.

(** C10, as stated, fails for an empty kind filter: the empty query then
    returns all three entities of the scenario, none of which has the
    empty kind. *)
Lemma search_empty_query_empty_kind :
  length (search_entities Examples.scenario_index EmptyString (Some EmptyString)) = 3
  /\ entities_of_kind Examples.scenario_index EmptyString = [].
Proof. split; vm_compute; reflexivity. Qed.

(* ================================================================== *)
(** * Reasoning about the statements of a method *)
(* ================================================================== *)

Lemma preserves_ret (I : CodebaseIndex -> Prop) {A : Type} (a : A) :
  preserves I (mret a : M A).
Proof. intros self H. exact H. Qed.

Lemma preserves_lift (I : CodebaseIndex -> Prop) {A : Type} (r : result A) :
  preserves I (lift r).
Proof. intros self H. exact H. Qed.

Lemma preserves_bind (I : CodebaseIndex -> Prop) {A B : Type}
    (m : M A) (k : A -> M B) :
  preserves I m -> (forall a, preserves I (k a)) -> preserves I (m ≫= k).
Proof.
  intros Hm Hk self H. unfold mbind, M_bind.
  specialize (Hm self H). destruct (m self) as [[a | e] self']; simpl in *.
  - now apply Hk.
  - exact Hm.
Qed.

Lemma preserves_bind_lift (I : CodebaseIndex -> Prop) {A B : Type}
    (r : result A) (k : A -> M B) :
  (forall a, r = Ok a -> preserves I (k a)) -> preserves I (lift r ≫= k).
Proof.
  intros Hk self H. unfold mbind, M_bind, lift.
  destruct r as [a | e]; [now apply Hk | exact H].
Qed.

Lemma preserves_for_each (I : CodebaseIndex -> Prop) {A : Type}
    (xs : list A) (body : A -> M unit) :
  (forall x, In x xs -> preserves I (body x)) -> preserves I (for_each xs body).
Proof.
  induction xs as [|x xs IH]; intros H; simpl.
  - apply preserves_ret.
  - apply preserves_bind.
    + apply H. now left.
    + intros _. apply IH. intros y Hy. apply H. now right.
Qed.

Section IndexFacts.

Variable env : Env.
Variable parser : Parser.
Variable root_path : Path.

(** The [try] block, step by step up to the point where parsing starts. *)
Lemma _index_file_try_unfold (file_path : Path) (self : CodebaseIndex) :
  _index_file_try env parser root_path file_path self
  = match fs_read_text env file_path with
    | Raise e => (Raise e, self)
    | Ok src =>
        match relative_to file_path root_path with
        | Raise e => (Raise e, self)
        | Ok relative_path =>
            if bloom_accepts env (bloom_filter self) relative_path
            then parse_and_link env parser root_path file_path src relative_path
                   (with_file_entity env file_path src relative_path self)
            else (Raise "IndexError", self)
        end
    end.
Proof.
  unfold _index_file_try, mbind, M_bind, lift, bloom_add.
  destruct (fs_read_text env file_path) as [src | e]; [| reflexivity].
  destruct (relative_to file_path root_path) as [rel | e]; [| reflexivity].
  destruct (bloom_accepts env (bloom_filter self) rel); reflexivity.
Qed.

(** A failure before the file entity is stored leaves the entities and
    the graph as they were. *)
Lemma _index_file_read_error (file_path : Path) (self : CodebaseIndex) (e : string) :
  fs_read_text env file_path = Raise e ->
  _index_file env parser root_path file_path self = log_error file_path e self.
Proof.
  intros H. unfold _index_file. rewrite _index_file_try_unfold, H. reflexivity.
Qed.


End IndexFacts.

(* ================================================================== *)
(** * Failures while a file is indexed *)
(* ================================================================== *)

Section Failures.

Variable env : Env.
Variable parser : Parser.
Variable root_path : Path.

Lemma parse_and_link_parse_error (file_path : Path) (src relative_path e : string)
    (self : CodebaseIndex) :
  parse_file parser src relative_path = Raise e ->
  parse_and_link env parser root_path file_path src relative_path self
  = (Raise e, self).
Proof.
  intros H. unfold parse_and_link, mbind, M_bind, lift. rewrite H. reflexivity.
Qed.


End Failures.


(* ================================================================== *)
(** * Files of no supported language *)
(* ================================================================== *)

Lemma get_None_not_key {V : Type} (k : string) (d : PyDict.t V) :
  PyDict.get k d = None -> PyStr.mem k (PyDict.keys d) = false.
Proof.
  unfold PyDict.keys, PyStr.mem.
  induction d as [|[k0 v0] d IH]; simpl; [reflexivity |].
  destruct (String.eqb k k0); [discriminate | exact IH].
Qed.

Section Unsupported.

Variable env : Env.
Variable ts : TreeSitter.
Variable root_path : Path.

Lemma parser_language_no_language (self : TreeSitterParser) (file_path : string) :
  PyDict.get (PurePath.suffix (PurePath.of_string file_path)) EXTENSION_TO_LANGUAGE
  = None ->
  parser_language self file_path = None.
Proof. intros H. unfold parser_language. now rewrite H. Qed.

(** Without a language or a loaded grammar there is nothing to parse
    and nothing to link. *)
Lemma parse_and_link_no_grammar (file_path : Path) (src relative_path : string)
    (self : CodebaseIndex) :
  parser_language (TreeSitterParser_init ts) relative_path = None ->
  parse_and_link env (TreeSitterParser_as_Parser ts) root_path file_path src
    relative_path self
  = (Ok tt, self).
Proof.
  intros H. unfold parse_and_link, mbind, M_bind, lift. simpl.
  unfold TreeSitterParser_parse_file, TreeSitterParser_extract_imports.
  rewrite H. reflexivity.
Qed.

(** C5, as amended.  With the default extension list a file whose
    extension maps to no language is passed over by the loop of build:
    no entity, no error, no count.  A file that does reach the precise
    parser without a language or a loaded grammar is indexed as its file
    entity alone: nothing is parsed, no definition entity, no edge, no
    error. *)
Theorem unsupported_language_file (file_path : Path) :
  (forall (parser : Parser) (st : nat * nat * CodebaseIndex),
      PyDict.get (PurePath.suffix file_path) EXTENSION_TO_LANGUAGE = None ->
      build_step env parser root_path (PyDict.keys EXTENSION_TO_LANGUAGE) st file_path
      = st)
  /\ (forall (self : CodebaseIndex) (src relative_path : string),
        fs_read_text env file_path = Ok src ->
        relative_to file_path root_path = Ok relative_path ->
        bloom_accepts env (bloom_filter self) relative_path = true ->
        parser_language (TreeSitterParser_init ts) relative_path = None ->
        parse_file (TreeSitterParser_as_Parser ts) src relative_path
        = Ok PyDict.empty
        /\ _index_file env (TreeSitterParser_as_Parser ts) root_path file_path self
           = with_file_entity env file_path src relative_path self).
Proof.
  split.
  - intros parser [[file_count skipped_count] self] H. unfold build_step.
    rewrite (get_None_not_key _ _ H), andb_false_r. reflexivity.
  - intros self src rel Hread Hrel Hbloom Hlang. split.
    + simpl. unfold TreeSitterParser_parse_file. now rewrite Hlang.
    + unfold _index_file.
      rewrite _index_file_try_unfold, Hread, Hrel, Hbloom.
      now rewrite parse_and_link_no_grammar.
Qed.

End Unsupported.

(** The theorem at work on notes.txt: the default loop passes it over;
    handed to the precise parser it would give its file entity alone. *)
Lemma unsupported_language_file_witness :
  build_step (Fixture.env_of Examples.notes_tree)
    (select_parser Examples.blank_tree_sitter (Fixture.regex_of []))
    Examples.proj (PyDict.keys EXTENSION_TO_LANGUAGE)
    (0, 0, CodebaseIndex_init) (Examples.proj ++ ["notes.txt"])
  = (0, 0, CodebaseIndex_init)
  /\ PyDict.keys
       (entities
          (_index_file (Fixture.env_of Examples.notes_tree)
             (TreeSitterParser_as_Parser Examples.blank_tree_sitter)
             Examples.proj (Examples.proj ++ ["notes.txt"]) CodebaseIndex_init))
     = ["notes.txt"].
Proof.
  pose proof (unsupported_language_file (Fixture.env_of Examples.notes_tree)
                Examples.blank_tree_sitter Examples.proj
                (Examples.proj ++ ["notes.txt"])) as [Hskip Hfile].
  split.
  - apply Hskip. reflexivity.
  - destruct (Hfile CodebaseIndex_init "hello" "notes.txt"
                eq_refl eq_refl eq_refl eq_refl) as [_ ->].
    reflexivity.
Defined.

(** C5, as stated, fails under the default extension list: notes.txt is
    a regular file of no supported language, and after build it is not in
    the entity mapping (nor counted, nor logged). *)
Lemma unsupported_file_not_indexed :
  fs_is_file (Fixture.env_of Examples.notes_tree) (Examples.proj ++ ["notes.txt"]) = true
  /\ PyDict.get ".txt" EXTENSION_TO_LANGUAGE = None
  /\ get_entity (snd Examples.notes_build) "notes.txt" = None
  /\ entities (snd Examples.notes_build) = PyDict.empty
  /\ fst Examples.notes_build = (0, 0)
  /\ error_log (snd Examples.notes_build) = [].
Proof. repeat split; vm_compute; reflexivity. Qed.

(* ================================================================== *)
(** * A root below a skipped directory *)
(* ================================================================== *)

Lemma of_string_no_dot (s part : string) :
  In part (PurePath.of_string s) -> part <> ".".
Proof.
  unfold PurePath.of_string. intros H ->.
  assert (In "." (List.filter PurePath.keep_segment (PyStr.split "/" s)) -> False) as Hf.
  { intros Hin. apply List.filter_In in Hin. destruct Hin as [_ Hk]. discriminate. }
  destruct (PurePath.leading_slashes s) as [|[|[|n]]]; simpl in H;
    try (destruct H as [H | H]; [discriminate |]); auto.
Qed.

Lemma should_skip_path_under (root rel : Path) (part : string) :
  In part root -> skip_part default_skip part = true ->
  should_skip_path (root ++ rel) None = true.
Proof.
  intros Hin Hs. unfold should_skip_path.
  assert (existsb (skip_part default_skip) (root ++ rel) = true) as ->.
  { apply existsb_exists. exists part. split; [| assumption].
    apply in_or_app. now left. }
  reflexivity.
Qed.

Section SkippedRoot.

Variable env : Env.
Variable parser : Parser.

Lemma build_loop_all_skipped (root_path : Path) (extensions : list string)
    (files : list Path) (file_count skipped_count : nat) (self : CodebaseIndex) :
  (forall f, In f files -> should_skip_path f None = true) ->
  fold_left (build_step env parser root_path extensions) files
    (file_count, skipped_count, self)
  = (file_count,
     skipped_count + length (List.filter (is_candidate env extensions) files),
     self).
Proof.
  revert skipped_count.
  induction files as [|f files IH]; intros skipped_count Hall; simpl.
  - now rewrite Nat.add_0_r.
  - unfold is_candidate at 1.
    destruct (fs_is_file env f && PyStr.mem (PurePath.suffix f) extensions).
    + rewrite (Hall f (or_introl eq_refl)).
      rewrite IH by (intros g Hg; apply Hall; now right).
      simpl. f_equal. f_equal. lia.
    + apply IH. intros g Hg. apply Hall. now right.
Qed.

(** C9.  The skip check sees the parts of the root too: when the root
    has a part that starts with a dot or is a name of the skip set,
    build indexes no file, counts every candidate file as skipped and
    leaves the index as it was. *)
Theorem build_index_skipped_root (root : string) (part : string)
    (extensions : option (list string)) (self : CodebaseIndex) :
  In part (PurePath.of_string root) ->
  PyStr.startswith part "." = true \/ In part default_skip ->
  build_index env parser (PurePath.of_string root) extensions self
  = (0,
     length (List.filter
               (is_candidate env
                  (match extensions with
                   | Some exts => exts
                   | None => PyDict.keys EXTENSION_TO_LANGUAGE
                   end))
               (rglob env (PurePath.of_string root))),
     self).
Proof.
  intros Hin Hpart. unfold build_index.
  assert (skip_part default_skip part = true) as Hskip.
  { unfold skip_part. apply orb_true_iff. destruct Hpart as [Hdot | Hname].
    - left. rewrite Hdot. simpl. apply negb_true_iff.
      destruct (String.eqb part ".") eqn:E; [| reflexivity].
      apply String.eqb_eq in E. now apply of_string_no_dot in Hin.
    - right. now apply mem_In. }
  destruct extensions as [exts |];
    rewrite build_loop_all_skipped; try reflexivity;
    intros f Hf; unfold rglob in Hf; apply in_map_iff in Hf;
    destruct Hf as [rel [<- _]];
    now apply (should_skip_path_under _ _ part).
Qed.

End SkippedRoot.

(** The theorem at work: a project below /home/build.  Its only file is
    src/main.py, which the policy does not skip relative to the root;
    build indexes nothing and counts it as skipped. *)
Lemma build_index_skipped_root_witness :
  should_skip_path (PurePath.of_string "src/main.py") None = false
  /\ build_index (Fixture.env_of Examples.nested_tree)
       (select_parser Fixture.no_tree_sitter (Fixture.regex_of []))
       (PurePath.of_string Examples.nested_root) None CodebaseIndex_init
     = (0, 1, CodebaseIndex_init).
Proof.
  split; [reflexivity |].
  rewrite (build_index_skipped_root (Fixture.env_of Examples.nested_tree)
             (select_parser Fixture.no_tree_sitter (Fixture.regex_of []))
             Examples.nested_root "build" None CodebaseIndex_init).
  - reflexivity.
  - simpl. tauto.
  - right. simpl. tauto.
Defined.

(* ================================================================== *)
(** * End points of the edges *)
(* ================================================================== *)

Section GraphIntegrity.

Variable env : Env.
Variable parser : Parser.
Variable root_path : Path.

Lemma path_exists_true (c : Path) :
  path_exists env c = Ok true ->
  fs_exists env c = true /\ fs_exists_error env c = None.
Proof.
  unfold path_exists. destruct (fs_exists_error env c); [discriminate |].
  intros [= ->]. now split.
Qed.

Lemma first_existing_exists (cands : list Path) (c : Path) :
  first_existing env cands = Ok (Some c) -> fs_exists env c = true.
Proof.
  induction cands as [|x cands IH]; simpl; [discriminate |].
  destruct (path_exists env x) as [[] | e] eqn:E; [| exact IH | discriminate].
  intros [= <-]. now apply path_exists_true in E.
Qed.

Lemma search_extensions_exists (base : Path) (import_name : string)
    (exts : list string) (c : Path) :
  search_extensions env base import_name exts = Ok (Some c) -> fs_exists env c = true.
Proof.
  induction exts as [|ext exts IH]; cbn [search_extensions]; [discriminate |].
  destruct (first_existing env (candidates base import_name ext)) as [[c' |] | e] eqn:E.
  - intros [= <-]. now apply first_existing_exists in E.
  - exact IH.
  - discriminate.
Qed.

Lemma resolved_of_exists (found : result (option Path)) (v : string) :
  (forall c, found = Ok (Some c) -> fs_exists env c = true) ->
  resolved_of root_path found = Ok (Some v) ->
  exists candidate,
    fs_exists env candidate = true /\ relative_to candidate root_path = Ok v.
Proof.
  intros Hex. unfold resolved_of. destruct found as [[c |] | e]; try discriminate.
  destruct (relative_to c root_path) as [s | e] eqn:E; [| discriminate].
  intros [= <-]. exists c. split; [now apply Hex | exact E].
Qed.

(** A resolved import is the root-relative path of an existing
    candidate. *)
Lemma _resolve_import_exists (imp : string) (from_file : Path) (v : string) :
  _resolve_import env root_path imp from_file = Ok (Some v) ->
  exists candidate,
    fs_exists env candidate = true /\ relative_to candidate root_path = Ok v.
Proof.
  unfold _resolve_import.
  destruct (PyStr.startswith (PyStr.strip quote_chars imp) ".").
  - destruct (navigate_up (PurePath.parent from_file) (PyStr.strip quote_chars imp))
      as [base_dir import_name].
    apply resolved_of_exists. intros c. apply search_extensions_exists.
  - apply resolved_of_exists. intros c. apply search_extensions_exists.
Qed.

Lemma target_ok_set (k : string) (e : CodeEntity) (self self' : CodebaseIndex)
    (v : string) :
  entities self' = PyDict.set k e (entities self) ->
  target_ok env root_path self v -> target_ok env root_path self' v.
Proof.
  intros He [H | H]; [left | right; exact H].
  rewrite He, PyDictFacts.mem_set, H. apply orb_true_r.
Qed.

(** Storing an entity keeps the end points valid; it adds no edge. *)
Lemma graph_inv_set_entity (k : string) (e : CodeEntity) :
  preserves (graph_inv env root_path) (set_entity k e).
Proof.
  intros self H u v Huv. simpl in *. destruct (H u v Huv) as [Hu Hv]. split.
  - rewrite PyDictFacts.mem_set, Hu. apply orb_true_r.
  - eapply target_ok_set; [| exact Hv]. reflexivity.
Qed.

Lemma graph_inv_add_node (n : string) :
  preserves (graph_inv env root_path) (update_graph (add_node n)).
Proof. intros self H u v Huv. simpl in *. now apply H. Qed.

Lemma graph_inv_add_edge (a b : string) (self : CodebaseIndex) :
  graph_inv env root_path self ->
  PyDict.mem a (entities self) = true -> target_ok env root_path self b ->
  graph_inv env root_path (snd (update_graph (add_edge a b) self)).
Proof.
  intros H Ha Hb u v Huv. simpl in *.
  apply elem_of_union in Huv. destruct Huv as [Huv | Huv].
  - apply elem_of_singleton in Huv. injection Huv as -> ->. now split.
  - now apply H.
Qed.

(** While a file is parsed and linked, the end points stay valid and
    the key of the file stays in the mapping. *)
Lemma parse_and_link_graph_inv (file_path : Path) (src relative_path : string) :
  preserves
    (fun self => graph_inv env root_path self
                 /\ PyDict.mem relative_path (entities self) = true)
    (parse_and_link env parser root_path file_path src relative_path).
Proof.
  unfold parse_and_link.
  apply preserves_bind; [apply preserves_lift | intros parsed].
  apply preserves_bind.
  - apply preserves_for_each. intros [k e] _ self [Hg Hrel]. simpl.
    assert (PyDict.mem relative_path (PyDict.set k e (entities self)) = true) as Hrel'
        by (rewrite PyDictFacts.mem_set, Hrel; apply orb_true_r).
    split; [| exact Hrel'].
    apply (graph_inv_add_edge k relative_path
             (snd (update_graph (add_node k) (snd (set_entity k e self))))).
    + apply graph_inv_add_node, graph_inv_set_entity, Hg.
    + simpl. rewrite PyDictFacts.mem_set, String.eqb_refl. reflexivity.
    + left. exact Hrel'.
  - intros _. apply preserves_bind; [apply preserves_lift | intros imports].
    apply preserves_for_each. intros imp _ self [Hg Hrel].
    unfold add_import_edge, mbind, M_bind, lift.
    destruct (_resolve_import env root_path imp file_path) as [[target |] | e] eqn:E;
      [destruct (PyStr.truthy target) | |].
    + split; [| exact Hrel]. apply graph_inv_add_edge; try assumption.
      right. right. now apply (_resolve_import_exists imp file_path).
    + split; [| exact Hrel]. apply graph_inv_add_edge; try assumption.
      right. left. apply startswith_app.
    + split; [| exact Hrel]. apply graph_inv_add_edge; try assumption.
      right. left. apply startswith_app.
    + split; assumption.
Qed.

Lemma graph_inv_with_file_entity (file_path : Path) (src relative_path : string)
    (self : CodebaseIndex) :
  graph_inv env root_path self ->
  graph_inv env root_path (with_file_entity env file_path src relative_path self).
Proof.
  intros H u v Huv. simpl in *. destruct (H u v Huv) as [Hu Hv]. split.
  - rewrite PyDictFacts.mem_set, Hu. apply orb_true_r.
  - eapply target_ok_set; [| exact Hv]. reflexivity.
Qed.

Lemma graph_inv__index_file (file_path : Path) (self : CodebaseIndex) :
  graph_inv env root_path self ->
  graph_inv env root_path (_index_file env parser root_path file_path self).
Proof.
  intros H. unfold _index_file. rewrite _index_file_try_unfold.
  destruct (fs_read_text env file_path) as [src | e]; [| exact H].
  destruct (relative_to file_path root_path) as [rel | e]; [| exact H].
  destruct (bloom_accepts env (bloom_filter self) rel); [| exact H].
  pose proof (parse_and_link_graph_inv file_path src rel
                (with_file_entity env file_path src rel self)) as Hp.
  simpl in Hp. rewrite PyDictFacts.mem_set, String.eqb_refl in Hp.
  specialize (Hp (conj (graph_inv_with_file_entity file_path src rel self H) eq_refl)).
  destruct (parse_and_link env parser root_path file_path src rel
              (with_file_entity env file_path src rel self))
    as [[[] | e] self']; simpl in Hp; apply Hp.
Qed.

Lemma graph_inv_build_loop (extensions : list string) (files : list Path)
    (st : nat * nat * CodebaseIndex) :
  graph_inv env root_path (snd st) ->
  graph_inv env root_path
    (snd (fold_left (build_step env parser root_path extensions) files st)).
Proof.
  revert st. induction files as [|f files IH]; intros st H; simpl; [exact H |].
  apply IH. destruct st as [[file_count skipped_count] self]. unfold build_step.
  destruct (fs_is_file env f && PyStr.mem (PurePath.suffix f) extensions); [| exact H].
  destruct (should_skip_path f None); [exact H |].
  simpl. now apply graph_inv__index_file.
Qed.

(** C4, as amended.  After build every edge starts at a key of the
    entity mapping, and ends at a key of the entity mapping, at an
    external node, or at the root-relative path of a candidate file that
    exists on disk (which need not have been indexed). *)
Theorem build_index_edges (extensions : option (list string)) (u v : string) :
  (u, v) ∈ edges (dependency_graph
                    (snd (build_index env parser root_path extensions
                            CodebaseIndex_init))) ->
  PyDict.mem u
    (entities (snd (build_index env parser root_path extensions CodebaseIndex_init)))
  = true
  /\ (PyDict.mem v
        (entities (snd (build_index env parser root_path extensions
                          CodebaseIndex_init))) = true
      \/ PyStr.startswith v "external:" = true
      \/ exists candidate,
           fs_exists env candidate = true
           /\ relative_to candidate root_path = Ok v).
Proof.
  intros H. unfold build_index in *.
  eapply (graph_inv_build_loop _ _ (0, 0, CodebaseIndex_init)); [| exact H].
  intros a b Hab. simpl in Hab. now apply not_elem_of_empty in Hab.
Qed.

End GraphIntegrity.

(** The theorem at work on the edge from main.py to utils.py of the
    scenario. *)
Lemma build_index_edges_witness :
  PyDict.mem "main.py" (entities Examples.scenario_index) = true
  /\ (PyDict.mem "utils.py" (entities Examples.scenario_index) = true
      \/ PyStr.startswith "utils.py" "external:" = true
      \/ exists candidate,
           fs_exists (Fixture.env_of Examples.scenario_tree) candidate = true
           /\ relative_to candidate Examples.proj = Ok "utils.py").
Proof.
  apply (build_index_edges (Fixture.env_of Examples.scenario_tree)
           (select_parser Fixture.no_tree_sitter Examples.scenario_regex)
           Examples.proj None "main.py" "utils.py").
  apply elem_of_elements. vm_compute. repeat constructor.
Defined.

(** C4, as stated, fails when an import resolves to a file that is on
    disk but not in the index: the edge from main.py ends at
    vendor/lib.py, which is neither a key of the mapping nor an external
    node. *)
Lemma edge_to_unindexed_file :
  ("main.py", "vendor/lib.py") ∈ edges (dependency_graph Examples.vendor_index)
  /\ PyDict.mem "vendor/lib.py" (entities Examples.vendor_index) = false
  /\ PyStr.startswith "vendor/lib.py" "external:" = false.
Proof.
  split; [| split].
  - apply elem_of_elements. vm_compute. repeat constructor.
  - vm_compute. reflexivity.
  - reflexivity.
Qed.

(* ================================================================== *)
(** * Derivation of the keys *)
(* ================================================================== *)

(** Induction on syntax trees, with the children as a list. *)
Lemma Node_tree_ind (P : Node -> Prop) :
  (forall n, Forall P (children n) -> P n) -> forall n, P n.
Proof.
  intros H. fix IH 1. intros [ty fld sb eb sl el ch]. apply H. simpl.
  induction ch as [|c ch IHch]; constructor; [apply IH | apply IHch].
Qed.

Lemma walk_tree_assignments_In (src file_path lang_name : string)
    (tbl : PyDict.t string) (kv : string * CodeEntity) (node : Node) :
  In kv (walk_tree_assignments src file_path lang_name tbl node) ->
  exists n, In kv (walk_assignment src file_path lang_name tbl n).
Proof.
  induction node as [node IH] using Node_tree_ind.
  destruct node as [ty fld sb eb sl el ch]. simpl in *.
  intros H. apply in_app_or in H. destruct H as [H | H]; [eauto |].
  apply in_flat_map in H. destruct H as [c [Hc Hin]].
  rewrite List.Forall_forall in IH. now apply (IH c Hc).
Qed.

(** No kind of the entity tables is the file kind. *)
Lemma ENTITY_TYPES_not_file (lang_name node_ty entity_type : string)
    (tbl : PyDict.t string) :
  PyDict.get lang_name ENTITY_TYPES = Some tbl ->
  PyDict.get node_ty tbl = Some entity_type ->
  entity_type <> "file".
Proof.
  intros Hl Ht.
  assert (forallb (fun t => forallb (fun kv => negb (String.eqb (snd kv) "file")) (snd t))
            ENTITY_TYPES = true) as Hall by reflexivity.
  rewrite forallb_forall in Hall.
  specialize (Hall _ (PyDictFacts.get_In _ _ _ Hl)). simpl in Hall.
  rewrite forallb_forall in Hall.
  specialize (Hall _ (PyDictFacts.get_In _ _ _ Ht)). simpl in Hall.
  intros ->. discriminate.
Qed.

(** No capture of a definitions query names the file kind. *)
Lemma capture_kind_not_file (lang_name q cname : string) :
  PyDict.get lang_name LANGUAGE_QUERIES_definitions = Some q ->
  In cname (capture_names q) ->
  PyStr.endswith cname ".name" = true ->
  hd EmptyString (PyStr.split "." cname) <> "file".
Proof.
  intros Hq Hin Hend.
  assert (forallb
            (fun t => forallb
                        (fun n => negb (PyStr.endswith n ".name")
                                  || negb (String.eqb
                                             (hd EmptyString (PyStr.split "." n)) "file"))
                        (capture_names (snd t)))
            LANGUAGE_QUERIES_definitions = true) as Hall by (vm_compute; reflexivity).
  rewrite forallb_forall in Hall.
  specialize (Hall _ (PyDictFacts.get_In _ _ _ Hq)). simpl in Hall.
  rewrite forallb_forall in Hall. specialize (Hall _ Hin).
  rewrite Hend in Hall. simpl in Hall.
  intros Hfile. rewrite Hfile in Hall. discriminate.
Qed.

Lemma walk_assignment_entry (src file_path lang_name : string)
    (kv : string * CodeEntity) (node : Node) :
  In kv (walk_assignment src file_path lang_name
           (match PyDict.get lang_name ENTITY_TYPES with
            | Some tbl => tbl
            | None => PyDict.empty
            end) node) ->
  definition_entry file_path kv.
Proof.
  unfold walk_assignment.
  destruct (PyDict.get lang_name ENTITY_TYPES) as [tbl |] eqn:El; [| intros []].
  destruct (PyDict.get (node_type node) tbl) as [entity_type |] eqn:Et; [| intros []].
  destruct (_find_name_node node lang_name) as [name_node |]; [| intros []].
  intros [<- | []]. repeat split; simpl.
  now apply (ENTITY_TYPES_not_file lang_name (node_type node) entity_type tbl).
Qed.

Lemma _walk_tree_entry (budget : nat) (node : Node) (src file_path lang_name : string)
    (d : PyDict.t CodeEntity) (kv : string * CodeEntity) :
  match _walk_tree budget node src file_path lang_name with
  | Ok walked => Ok (PyDict.update PyDict.empty walked)
  | Raise e => Raise e
  end = Ok d ->
  In kv (PyDict.items d) ->
  definition_entry file_path kv.
Proof.
  unfold _walk_tree. destruct (walk_frames _ node <=? budget); [| discriminate].
  intros [= <-] H. destruct kv as [k e].
  apply PyDictFacts.In_update in H. destruct H as [[] | H].
  apply PyDictFacts.In_of_assignments in H.
  apply walk_tree_assignments_In in H. destruct H as [n H].
  now apply walk_assignment_entry in H.
Qed.

Lemma capture_assignment_entry (lang_name src file_path q : string) (c : Capture)
    (kv : string * CodeEntity) :
  PyDict.get lang_name LANGUAGE_QUERIES_definitions = Some q ->
  capture_assignment src file_path q c = Some kv ->
  definition_entry file_path kv.
Proof.
  intros Hq. unfold capture_assignment.
  destruct (PyStr.endswith (capture_name q c) ".name") eqn:Hend; [| discriminate].
  destruct (cap_parent c) as [parent |]; [| discriminate].
  intros [= <-]. repeat split; simpl.
  apply (capture_kind_not_file lang_name q); try assumption.
  unfold capture_name in *.
  destruct (nth_in_or_default (cap_id c) (capture_names q) EmptyString) as [Hin | Hd];
    [exact Hin |].
  rewrite Hd in Hend. discriminate.
Qed.

(** The precise strategy, whatever the grammar library answers. *)
Lemma TreeSitterParser_keys_ok (ts : TreeSitter) :
  parser_keys_ok (TreeSitterParser_as_Parser ts).
Proof.
  intros src file_path d kv. simpl. unfold TreeSitterParser_parse_file.
  destruct (parser_language (TreeSitterParser_init ts) file_path) as [lang_name |];
    [| intros [= <-] []].
  destruct (ts_parse ts lang_name src) as [root_node | e]; [| discriminate].
  cbv zeta.
  destruct (PyDict.get lang_name LANGUAGE_QUERIES_definitions) as [q |] eqn:Hq;
    [| apply _walk_tree_entry].
  destruct (PyStr.mem lang_name (languages (TreeSitterParser_init ts)));
    [| apply _walk_tree_entry].
  destruct (ts_captures ts lang_name q root_node) as [captures | e];
    [| apply _walk_tree_entry].
  intros [= <-] H. destruct kv as [k e].
  apply PyDictFacts.In_of_assignments in H.
  apply list_elem_of_In, list_elem_of_omap in H. destruct H as [c [_ Hc]].
  now apply (capture_assignment_entry lang_name src file_path q c).
Qed.

Lemma regex_assignments_entry (re : Regex) (src file_path : string)
    (pats : list (string * string)) (kv : string * CodeEntity) :
  (forall pat, In pat pats -> snd pat <> "file") ->
  In kv (List.flat_map
           (fun pat => map (regex_assignment src file_path (snd pat))
                           (finditer re (fst pat) src)) pats) ->
  definition_entry file_path kv.
Proof.
  intros Hpats H. apply in_flat_map in H. destruct H as [pat [Hpat H]].
  apply in_map_iff in H. destruct H as [m [<- _]].
  repeat split; simpl. now apply Hpats.
Qed.

(** The fallback strategy, whatever the expressions match. *)
Lemma RegexFallbackParser_keys_ok (re : Regex) :
  parser_keys_ok (RegexFallbackParser_as_Parser re).
Proof.
  intros src file_path d [k e].
  unfold RegexFallbackParser_as_Parser, RegexFallbackParser_parse_file.
  cbn [parse_file]. intros [= <-] H.
  apply PyDictFacts.In_of_assignments in H.
  apply (regex_assignments_entry re src file_path definition_patterns); [| exact H].
  intros pat Hpat. simpl in Hpat.
  repeat (destruct Hpat as [<- | Hpat]; [simpl; discriminate |]).
  destruct Hpat.
Qed.

Lemma select_parser_keys_ok (ts : TreeSitter) (re : Regex) :
  parser_keys_ok (select_parser ts re).
Proof.
  unfold select_parser. destruct (TREE_SITTER_AVAILABLE ts || TREE_SITTER_BASIC ts).
  - apply TreeSitterParser_keys_ok.
  - apply RegexFallbackParser_keys_ok.
Qed.

Section KeyDerivation.

Variable env : Env.
Variable parser : Parser.
Variable root_path : Path.
Hypothesis parser_ok : parser_keys_ok parser.

(** An assignment under a derived key keeps the invariant, also when
    it overwrites. *)
Lemma key_inv_set (k : string) (e : CodeEntity) (self self' : CodebaseIndex) :
  entities self' = PyDict.set k e (entities self) ->
  key_derivation k e -> key_inv self -> key_inv self'.
Proof.
  intros He Hk H k' e' Hin. rewrite He in Hin.
  apply PyDictFacts.In_set in Hin. destruct Hin as [[= -> ->] | Hin]; [exact Hk |].
  now apply H.
Qed.

Lemma definition_entry_key (file_path : string) (kv : string * CodeEntity) :
  definition_entry file_path kv -> key_derivation (fst kv) (snd kv).
Proof. intros (Ht & Hp & Hk). right. split; [exact Ht |]. now rewrite Hp. Qed.

Lemma parse_and_link_key_inv (file_path : Path) (src relative_path : string) :
  preserves key_inv (parse_and_link env parser root_path file_path src relative_path).
Proof.
  unfold parse_and_link. apply preserves_bind_lift. intros parsed Hparse.
  apply preserves_bind.
  - apply preserves_for_each. intros kv Hkv self H. simpl.
    apply (key_inv_set (fst kv) (snd kv) self); [reflexivity | | exact H].
    apply (definition_entry_key relative_path).
    now apply (parser_ok src relative_path parsed).
  - intros _. apply preserves_bind; [apply preserves_lift | intros imports].
    apply preserves_for_each. intros imp _. unfold add_import_edge.
    apply preserves_bind; [apply preserves_lift | intros resolved].
    destruct resolved as [target |]; [destruct (PyStr.truthy target) |];
      intros self H; exact H.
Qed.

Lemma key_inv__index_file (file_path : Path) (self : CodebaseIndex) :
  key_inv self -> key_inv (_index_file env parser root_path file_path self).
Proof.
  intros H. unfold _index_file. rewrite _index_file_try_unfold.
  destruct (fs_read_text env file_path) as [src | e]; [| exact H].
  destruct (relative_to file_path root_path) as [rel | e]; [| exact H].
  destruct (bloom_accepts env (bloom_filter self) rel); [| exact H].
  assert (key_inv (with_file_entity env file_path src rel self)) as H1.
  { eapply key_inv_set; [reflexivity | | exact H]. left. now split. }
  pose proof (parse_and_link_key_inv file_path src rel _ H1) as Hp.
  destruct (parse_and_link env parser root_path file_path src rel
              (with_file_entity env file_path src rel self))
    as [[[] | e] self']; exact Hp.
Qed.

Lemma key_inv_build_loop (extensions : list string) (files : list Path)
    (st : nat * nat * CodebaseIndex) :
  key_inv (snd st) ->
  key_inv (snd (fold_left (build_step env parser root_path extensions) files st)).
Proof.
  revert st. induction files as [|f files IH]; intros st H; simpl; [exact H |].
  apply IH. destruct st as [[file_count skipped_count] self]. unfold build_step.
  destruct (fs_is_file env f && PyStr.mem (PurePath.suffix f) extensions); [| exact H].
  destruct (should_skip_path f None); [exact H |].
  simpl. now apply key_inv__index_file.
Qed.

Lemma key_inv_build_index (extensions : option (list string)) :
  key_inv (snd (build_index env parser root_path extensions CodebaseIndex_init)).
Proof.
  unfold build_index. apply key_inv_build_loop. intros k e [].
Qed.

End KeyDerivation.

(** C8.  After every build, with either strategy, an entity stored under
    key [k] is a file entity with [k] its path, or an entity of another
    kind with [k] its path, two colons and its name.  Every assignment of
    the indexing keeps this ([key_inv_set]), an assignment to a present
    key overwriting the value ([PyDictFacts.get_set_same]). *)
Theorem build_index_keys (env : Env) (ts : TreeSitter) (re : Regex)
    (root_path : Path) (extensions : option (list string))
    (k : string) (e : CodeEntity) :
  PyDict.get k
    (entities (snd (build_index env (select_parser ts re) root_path extensions
                      CodebaseIndex_init))) = Some e ->
  (type e = "file" /\ k = path e)
  \/ (type e <> "file" /\ k = path e +:+ "::" +:+ name e).
Proof.
  intros H. apply PyDictFacts.get_In in H.
  exact (key_inv_build_index env (select_parser ts re) root_path
           (select_parser_keys_ok ts re) extensions k e H).
Qed.

(** The theorem at work on the helper function of the scenario, stored by
    the fallback strategy. *)
Lemma build_index_keys_witness :
  (type Examples.helper_entity = "file" /\ "utils.py::helper" = path Examples.helper_entity)
  \/ (type Examples.helper_entity <> "file"
      /\ "utils.py::helper"
         = path Examples.helper_entity +:+ "::" +:+ name Examples.helper_entity).
Proof.
  apply (build_index_keys (Fixture.env_of Examples.scenario_tree)
           Fixture.no_tree_sitter Examples.scenario_regex Examples.proj None
           "utils.py::helper" Examples.helper_entity).
  vm_compute. reflexivity.
Defined.

(* ================================================================== *)
(** * Import resolution *)
(* ================================================================== *)

Lemma join_split (s : string) : PyStr.join "/" (PyStr.split "/" s) = s.
Proof.
  induction s as [|c s IH]; [reflexivity |].
  cbn [PyStr.split]. destruct (Ascii.eqb c "/") eqn:E.
  - apply Ascii.eqb_eq in E. subst c.
    destruct (PyStr.split "/" s) as [|w ws] eqn:Es.
    + simpl in IH. now subst s.
    + change (PyStr.join "/" ("" :: w :: ws)) with ("/" +:+ PyStr.join "/" (w :: ws)).
      now rewrite IH.
  - destruct (PyStr.split "/" s) as [|w ws] eqn:Es.
    + simpl in IH. now subst s.
    + destruct ws as [|w' ws].
      * simpl in *. now subst.
      * change (PyStr.join "/" (String c w :: w' :: ws))
          with (String c (w +:+ "/" +:+ PyStr.join "/" (w' :: ws))).
        change (PyStr.join "/" (w :: w' :: ws))
          with (w +:+ "/" +:+ PyStr.join "/" (w' :: ws)) in IH.
        now rewrite IH.
Qed.

(** The nested loops with their early return find the first existing
    candidate, extensions in table order, three candidates each. *)
Lemma first_existing_app (env : Env) (cands rest : list Path) :
  first_existing env (cands ++ rest)
  = match first_existing env cands with
    | Raise e => Raise e
    | Ok (Some c) => Ok (Some c)
    | Ok None => first_existing env rest
    end.
Proof.
  induction cands as [|c cands IH]; simpl; [reflexivity |].
  destruct (path_exists env c) as [[] | e]; [reflexivity | apply IH | reflexivity].
Qed.

Lemma search_extensions_find (env : Env) (base : Path) (import_name : string)
    (exts : list string) :
  search_extensions env base import_name exts
  = first_existing env (List.flat_map (candidates base import_name) exts).
Proof.
  induction exts as [|ext exts IH]; cbn [search_extensions List.flat_map];
    [reflexivity |].
  rewrite first_existing_app, IH. reflexivity.
Qed.

(** When [exists()] answers for every candidate, the search is a plain
    search for the first existing one. *)
Lemma first_existing_answers (env : Env) (cands : list Path) :
  (forall c, In c cands -> fs_exists_error env c = None) ->
  first_existing env cands = Ok (List.find (fs_exists env) cands).
Proof.
  induction cands as [|c cands IH]; intros H; simpl; [reflexivity |].
  unfold path_exists. rewrite (H c (or_introl eq_refl)).
  destruct (fs_exists env c); [reflexivity |].
  apply IH. intros c' Hc'. apply H. now right.
Qed.

Lemma first_existing_map (env : Env) (base : Path) (rels : list Path) :
  first_existing env (map (app base) rels)
  = match first_existing_under env base rels with
    | Raise e => Raise e
    | Ok found => Ok (option_map (app base) found)
    end.
Proof.
  induction rels as [|rel rels IH]; simpl; [reflexivity |].
  destruct (path_exists env (base ++ rel)) as [[] | e];
    [reflexivity | exact IH | reflexivity].
Qed.

Ltac other_char c H :=
  destruct c as [[] [] [] [] [] [] [] []];
  try reflexivity; exfalso; apply H; reflexivity.

(** One turn of the loop. *)
Lemma navigate_up_unfold (base_dir : Path) (s : string) :
  navigate_up base_dir s
  = if PyStr.startswith s "../"
    then navigate_up (PurePath.parent base_dir) (PyStr.drop 3 s)
    else (base_dir, s).
Proof.
  unfold PyStr.startswith.
  destruct s as [|c1 s1]; [reflexivity |].
  destruct (Ascii.ascii_dec c1 ".") as [-> | H1]; [| other_char c1 H1].
  destruct s1 as [|c2 s2]; [reflexivity |].
  destruct (Ascii.ascii_dec c2 ".") as [-> | H2]; [| other_char c2 H2].
  destruct s2 as [|c3 s3]; [reflexivity |].
  destruct (Ascii.ascii_dec c3 "/") as [-> | H3]; [| other_char c3 H3].
  destruct s3; reflexivity.
Qed.

Lemma navigate_up_spec (k : nat) (base_dir : Path) (rest : string) :
  PyStr.startswith rest "../" = false ->
  navigate_up base_dir (dotdots k rest) = (climb k base_dir, rest).
Proof.
  intros Hrest. revert base_dir. induction k as [|k IH]; intros base_dir.
  - rewrite navigate_up_unfold. cbn [dotdots climb]. now rewrite Hrest.
  - cbn [dotdots climb].
    change ("../" +:+ dotdots k rest)
      with (String "." (String "." (String "/" (dotdots k rest)))).
    cbn [navigate_up]. apply IH.
Qed.

Lemma leading_slashes_cons (c : ascii) (s : string) :
  PurePath.leading_slashes (String c s)
  = if Ascii.eqb c "/" then S (PurePath.leading_slashes s) else 0.
Proof.
  destruct (Ascii.ascii_dec c "/") as [-> | H]; [reflexivity | other_char c H].
Qed.

Lemma leading_slashes_app (a b : string) :
  PurePath.leading_slashes a = 0 -> PurePath.leading_slashes b = 0 ->
  PurePath.leading_slashes (a +:+ b) = 0.
Proof.
  destruct a as [|c a]; [intros _ H; exact H |].
  intros H _. change (String c a +:+ b) with (String c (a +:+ b)).
  rewrite leading_slashes_cons in *. destruct (Ascii.eqb c "/"); [discriminate | reflexivity].
Qed.

(** A segment between slashes is never an anchor. *)
Lemma split_no_anchor (s seg : string) :
  In seg (PyStr.split "/" s) -> PurePath.is_anchor seg = false.
Proof.
  revert seg. induction s as [|c s IH]; intros seg; cbn [PyStr.split].
  - intros [<- | []]. reflexivity.
  - destruct (Ascii.eqb c "/") eqn:E.
    + intros [<- | H]; [reflexivity | now apply IH].
    + assert (forall w, PurePath.is_anchor (String c w) = false) as Hc.
      { intros w. unfold PurePath.is_anchor. simpl. rewrite E. reflexivity. }
      destruct (PyStr.split "/" s) as [|w ws].
      * intros [<- | []]. apply Hc.
      * intros [<- | H]; [apply Hc | apply IH; now right].
Qed.

(** A string without a leading slash denotes a relative path, which the
    join operator appends. *)
Lemma of_string_relative (s : string) :
  PurePath.leading_slashes s = 0 ->
  PurePath.is_absolute (PurePath.of_string s) = false.
Proof.
  intros H. unfold PurePath.of_string. rewrite H. unfold PurePath.is_absolute.
  destruct (List.filter PurePath.keep_segment (PyStr.split "/" s)) as [|seg segs] eqn:E;
    [reflexivity |].
  apply (split_no_anchor s).
  assert (In seg (List.filter PurePath.keep_segment (PyStr.split "/" s))) as Hin
      by (rewrite E; now left).
  now apply List.filter_In in Hin.
Qed.

Lemma joinpath_relative (p : Path) (s : string) :
  PurePath.leading_slashes s = 0 ->
  PurePath.joinpath p s = p ++ PurePath.of_string s.
Proof.
  intros H. unfold PurePath.joinpath. now rewrite of_string_relative.
Qed.

Lemma strip_prefix_app (base q : Path) : PurePath.strip_prefix base (base ++ q) = Some q.
Proof.
  induction base as [|b base IH]; simpl; [reflexivity |].
  now rewrite String.eqb_refl.
Qed.

Lemma relative_to_app (base q : Path) :
  relative_to (base ++ q) base = Ok (PurePath.to_string q).
Proof. unfold relative_to. now rewrite strip_prefix_app. Qed.

Lemma find_map {A B : Type} (f : B -> bool) (g : A -> B) (l : list A) :
  List.find f (map g l) = option_map g (List.find (fun x => f (g x)) l).
Proof.
  induction l as [|x l IH]; simpl; [reflexivity |].
  destruct (f (g x)); [reflexivity | exact IH].
Qed.

Section Resolution.

Variable env : Env.
Variable root_path : Path.

(** A relative import: climb once per leading dot-dot-slash from the
    directory of the importing file, strip the remaining leading dots
    and slashes, take the first existing candidate from there. *)
Lemma _resolve_import_relative (k : nat) (rest : string) (from_file : Path) :
  PyStr.strip quote_chars (dotdots k rest) = dotdots k rest ->
  PyStr.startswith (dotdots k rest) "." = true ->
  PyStr.startswith rest "../" = false ->
  _resolve_import env root_path (dotdots k rest) from_file
  = resolved_of root_path
      (first_existing env
         (List.flat_map
            (candidates (climb k (PurePath.parent from_file)) (PyStr.lstrip "./" rest))
            (PyDict.keys EXTENSION_TO_LANGUAGE))).
Proof.
  intros Hq Hdot Hrest. unfold _resolve_import.
  rewrite Hq, Hdot, navigate_up_spec by assumption.
  now rewrite search_extensions_find.
Qed.

(** A root-relative import: the first existing candidate, extensions
    in table order, three candidates each, joined to the root. *)
Lemma _resolve_import_from_root (imp : string) (from_file : Path) :
  PyStr.startswith (PyStr.strip quote_chars imp) "." = false ->
  _resolve_import env root_path imp from_file
  = resolved_of root_path
      (first_existing env
         (List.flat_map
            (candidates root_path (slashed (PyStr.strip quote_chars imp)))
            (PyDict.keys EXTENSION_TO_LANGUAGE))).
Proof.
  intros Hdot. unfold _resolve_import. rewrite Hdot, join_split.
  now rewrite search_extensions_find.
Qed.

Lemma candidates_under (base : Path) (import_name ext : string) :
  PurePath.leading_slashes import_name = 0 ->
  PurePath.leading_slashes ext = 0 ->
  candidates base import_name ext
  = map (app base) (relative_candidates import_name ext).
Proof.
  intros Hn He. unfold candidates, relative_candidates. simpl map.
  rewrite !joinpath_relative, <- !app_assoc;
    try assumption; try reflexivity.
  now apply leading_slashes_app.
Qed.

Lemma flat_map_candidates_under (base : Path) (import_name : string)
    (exts : list string) :
  PurePath.leading_slashes import_name = 0 ->
  Forall (fun ext => PurePath.leading_slashes ext = 0) exts ->
  List.flat_map (candidates base import_name) exts
  = map (app base) (List.flat_map (relative_candidates import_name) exts).
Proof.
  intros Hn Hexts. induction Hexts as [|ext exts He _ IH]; [reflexivity |].
  cbn [List.flat_map]. rewrite map_app, IH, candidates_under by assumption.
  reflexivity.
Qed.

(** When the slash-separated form does not start with a slash, every
    candidate lies under the root, and the first that exists is
    returned as its root-relative path; none existing gives [None], and
    an exception of [exists()] is passed on. *)
Lemma _resolve_import_under_root (imp : string) (from_file : Path) :
  PyStr.startswith (PyStr.strip quote_chars imp) "." = false ->
  PurePath.leading_slashes (slashed (PyStr.strip quote_chars imp)) = 0 ->
  _resolve_import env root_path imp from_file
  = match first_existing_under env root_path
            (List.flat_map
               (relative_candidates (slashed (PyStr.strip quote_chars imp)))
               (PyDict.keys EXTENSION_TO_LANGUAGE)) with
    | Raise e => Raise e
    | Ok found => Ok (option_map PurePath.to_string found)
    end.
Proof.
  intros Hdot Hslash. rewrite _resolve_import_from_root by assumption.
  rewrite flat_map_candidates_under; [| assumption |].
  - rewrite first_existing_map.
    destruct (first_existing_under _ _ _) as [[rel |] | e]; simpl; try reflexivity.
    now rewrite relative_to_app.
  - repeat constructor.
Qed.

End Resolution.

Lemma parent_app3 (root : Path) (a b c : string) :
  PurePath.parent (root ++ [a; b; c]) = root ++ [a; b].
Proof.
  unfold PurePath.parent.
  destruct root as [|x [|y root]]; try reflexivity.
  change ((x :: y :: root) ++ [a; b; c]) with (x :: y :: (root ++ [a; b; c])).
  cbv iota.
  change (x :: y :: (root ++ [a; b; c])) with ((x :: y :: root) ++ [a; b] ++ [c]).
  now rewrite app_assoc, removelast_last.
Qed.

(** C1, on the code.  The import dot-dot-d from a/b/c.py is searched
    from a/b, the directory of the importing file, with no ascent: the
    dots are stripped as characters.  With a/d.py on disk the candidate
    list does not hold it, resolution returns [None], and build records
    an external edge. *)
Theorem resolve_import_dotted_parent :
  (forall (env : Env) (root_path : Path),
      _resolve_import env root_path "..d" (root_path ++ ["a"; "b"; "c.py"])
      = resolved_of root_path
          (first_existing env
             (List.flat_map (candidates (root_path ++ ["a"; "b"]) "d")
                (PyDict.keys EXTENSION_TO_LANGUAGE))))
  /\ fs_exists (Fixture.env_of Examples.dotted_tree) (Examples.proj ++ ["a"; "d.py"])
     = true
  /\ ~ In (Examples.proj ++ ["a"; "d.py"])
          (List.flat_map (candidates (Examples.proj ++ ["a"; "b"]) "d")
             (PyDict.keys EXTENSION_TO_LANGUAGE))
  /\ _resolve_import (Fixture.env_of Examples.dotted_tree) Examples.proj "..d"
       (Examples.proj ++ ["a"; "b"; "c.py"]) = Ok None
  /\ ("a/b/c.py", "external:..d") ∈ edges (dependency_graph Examples.dotted_index)
  /\ (("a/b/c.py", "a/d.py") ∉ edges (dependency_graph Examples.dotted_index)).
Proof.
  split; [| split; [| split; [| split; [| split]]]].
  - intros env root_path.
    rewrite (_resolve_import_relative env root_path 0 "..d") by reflexivity.
    cbn [climb]. now rewrite parent_app3.
  - reflexivity.
  - intros H. vm_compute in H.
    repeat (destruct H as [H | H]; [discriminate H |]). exact H.
  - vm_compute. reflexivity.
  - vm_compute. reflexivity.
  - vm_compute. discriminate.
Qed.

(** C2, on the code.  For the import colon-colon-m the slash-separated
    form starts with a slash, so the join with the root yields
    candidates in the root directory of the file system: with m.rs under
    the root of the project on disk, resolution returns [None] and build
    records an external edge; with a file m.rs in the root directory of
    the file system it raises.  The import m does resolve to m.rs. *)
Theorem resolve_import_leading_separator :
  fs_exists (Fixture.env_of Examples.crate_tree) (Examples.proj ++ ["m.rs"]) = true
  /\ candidates Examples.proj (slashed "::m") ".rs"
     = [ ["/"; "m.rs"]; ["/"; "m"; "index.rs"]; ["/"; "m"; "__init__.rs"] ]
  /\ _resolve_import (Fixture.env_of Examples.crate_tree) Examples.proj "::m"
       (Examples.proj ++ ["main.rs"]) = Ok None
  /\ ("main.rs", "external:::m") ∈ edges (dependency_graph Examples.crate_index)
  /\ (("main.rs", "m.rs") ∉ edges (dependency_graph Examples.crate_index))
  /\ _resolve_import (Fixture.env_of Examples.crate_tree_with_outside_file)
       Examples.proj "::m" (Examples.proj ++ ["main.rs"]) = Raise "ValueError"
  /\ _resolve_import (Fixture.env_of Examples.crate_tree) Examples.proj "m"
       (Examples.proj ++ ["main.rs"]) = Ok (Some "m.rs").
Proof.
  split; [| split; [| split; [| split; [| split; [| split]]]]];
    try (vm_compute; reflexivity).
  vm_compute. discriminate.
Qed.

Lemma of_string_segments (s seg : string) :
  In seg (PurePath.of_string s) -> seg <> EmptyString.
Proof.
  unfold PurePath.of_string. intros H ->.
  assert (In EmptyString (List.filter PurePath.keep_segment (PyStr.split "/" s)) -> False)
    as Hf.
  { intros Hin. apply List.filter_In in Hin. destruct Hin as [_ Hk]. discriminate. }
  destruct (PurePath.leading_slashes s) as [|[|[|n]]]; simpl in H;
    try (destruct H as [H | H]; [discriminate |]); auto.
Qed.

Lemma to_string_truthy (q : Path) :
  (forall seg, In seg q -> seg <> EmptyString) ->
  PyStr.truthy (PurePath.to_string q) = true.
Proof.
  intros H. destruct q as [|a rest]; [reflexivity |].
  assert (a <> EmptyString) as Ha by (apply H; now left).
  destruct a as [|c a]; [contradiction |].
  unfold PurePath.to_string. destruct (PurePath.is_anchor (String c a)); [reflexivity |].
  destruct rest; reflexivity.
Qed.

Section ImportEdges.

Variable env : Env.
Variable root_path : Path.

Lemma relative_candidates_segments (import_name : string) (exts : list string)
    (q : Path) (seg : string) :
  In q (List.flat_map (relative_candidates import_name) exts) ->
  In seg q -> seg <> EmptyString.
Proof.
  intros Hq Hseg. apply in_flat_map in Hq. destruct Hq as [ext [_ Hq]].
  unfold relative_candidates in Hq. simpl in Hq.
  destruct Hq as [<- | [<- | [<- | []]]];
    repeat (apply in_app_or in Hseg; destruct Hseg as [Hseg | Hseg]);
    now apply of_string_segments in Hseg.
Qed.

Lemma first_existing_under_In (base : Path) (rels : list Path) (rel : Path) :
  first_existing_under env base rels = Ok (Some rel) -> In rel rels.
Proof.
  induction rels as [|r rels IH]; simpl; [discriminate |].
  destruct (path_exists env (base ++ r)) as [[] | e]; [| | discriminate].
  - intros [= <-]. now left.
  - intros H. right. now apply IH.
Qed.

(** The edge the caller records for a root-relative import whose
    slash-separated form does not start with a slash: to the first
    existing candidate, or to the external node of the raw import; no
    edge when [exists()] raises. *)
Lemma add_import_edge_under_root (file_path : Path) (relative_path imp : string)
    (self : CodebaseIndex) :
  PyStr.startswith (PyStr.strip quote_chars imp) "." = false ->
  PurePath.leading_slashes (slashed (PyStr.strip quote_chars imp)) = 0 ->
  add_import_edge env root_path file_path relative_path imp self
  = match first_existing_under env root_path
            (List.flat_map
               (relative_candidates (slashed (PyStr.strip quote_chars imp)))
               (PyDict.keys EXTENSION_TO_LANGUAGE)) with
    | Raise e => (Raise e, self)
    | Ok found =>
        update_graph
          (add_edge relative_path
             (match found with
              | Some rel => PurePath.to_string rel
              | None => "external:" +:+ imp
              end))
          self
    end.
Proof.
  intros Hdot Hslash. unfold add_import_edge, mbind, M_bind, lift.
  rewrite _resolve_import_under_root by assumption.
  destruct (first_existing_under _ _ _) as [[rel |] | e] eqn:E; simpl;
    try reflexivity.
  rewrite to_string_truthy; [reflexivity |].
  intros seg. apply first_existing_under_In in E.
  exact (relative_candidates_segments _ _ rel seg E).
Qed.

End ImportEdges.

(* ================================================================== *)
(** * The end-to-end scenario *)
(* ================================================================== *)

(** With the fallback strategy: three entities, the import edge and the
    containment edge. *)
Example scenario_fallback :
  PyDict.keys (entities Examples.scenario_index)
  = ["main.py"; "utils.py"; "utils.py::helper"]
  /\ elements (edges (dependency_graph Examples.scenario_index))
     ≡ₚ [("main.py", "utils.py"); ("utils.py::helper", "utils.py")].
Proof.
  split; [vm_compute; reflexivity |].
  vm_compute. first [reflexivity | apply Permutation_swap].
Qed.

(** With the precise strategy the helper function is found by the
    definitions query, with the span of its definition node. *)
Example scenario_precise :
  parse_file (TreeSitterParser_as_Parser Examples.scenario_tree_sitter)
    "def helper(): pass" "utils.py"
  = Ok [ ("utils.py::helper",
          {| path := "utils.py"; type := "function"; name := "helper";
             content := "def helper(): pass";
             summary := None; dependencies := []; ast_hash := None;
             metadata := [ ("start_line", PyInt 0); ("end_line", PyInt 0);
                           ("start_byte", PyInt 0); ("end_byte", PyInt 18) ] |}) ].
Proof. vm_compute. reflexivity. Qed.

(** When the query raises, the tree is walked by hand and the same
    entity is found through the entity-type table. *)
Example scenario_precise_walk :
  parse_file (TreeSitterParser_as_Parser Examples.scenario_tree_sitter_no_query)
    "def helper(): pass" "utils.py"
  = Ok [ ("utils.py::helper",
          {| path := "utils.py"; type := "function"; name := "helper";
             content := "def helper(): pass";
             summary := None; dependencies := []; ast_hash := None;
             metadata := [ ("start_line", PyInt 0); ("end_line", PyInt 0);
                           ("node_type", PyString "function_definition") ] |}) ].
Proof. vm_compute. reflexivity. Qed.

(* ================================================================== *)
(** * More on the skip policy *)
(* ================================================================== *)

Lemma existsb_orb {A : Type} (f g : A -> bool) (l : list A) :
  existsb (fun x => f x || g x) l = existsb f l || existsb g l.
Proof.
  induction l as [|x l IH]; simpl; [reflexivity |].
  rewrite IH. destruct (f x), (g x), (existsb f l), (existsb g l); reflexivity.
Qed.

Lemma mem_app (x : string) (xs ys : list string) :
  PyStr.mem x (xs ++ ys) = PyStr.mem x xs || PyStr.mem x ys.
Proof. unfold PyStr.mem. apply existsb_app. Qed.

Lemma existsb_pointwise {A : Type} (f g : A -> bool) (l : list A) :
  (forall x, f x = g x) -> existsb f l = existsb g l.
Proof.
  intros H. induction l as [|x l IH]; simpl; [reflexivity |]. now rewrite H, IH.
Qed.

(** X1.  Extra skip patterns only add to the policy: a path is skipped
    with extra patterns exactly when it is skipped without them or one of
    its parts is an extra pattern; an empty set of patterns changes
    nothing. *)
Theorem should_skip_path_extra_patterns (p : Path) (extra : list string) :
  should_skip_path p (Some extra)
  = should_skip_path p None || existsb (fun part => PyStr.mem part extra) p.
Proof.
  unfold should_skip_path. destruct extra as [|x extra].
  - assert (existsb (fun part => PyStr.mem part []) p = false) as ->
        by (induction p; simpl; auto).
    now rewrite orb_false_r.
  - assert (existsb (skip_part (default_skip ++ x :: extra)) p
            = existsb (skip_part default_skip) p
              || existsb (fun part => PyStr.mem part (x :: extra)) p) as ->.
    { rewrite <- existsb_orb. apply existsb_pointwise. intros part.
      unfold skip_part. rewrite mem_app. now rewrite orb_assoc. }
    destruct (existsb (skip_part default_skip) p),
             (existsb (fun part => PyStr.mem part (x :: extra)) p),
             (PyStr.mem (PurePath.suffix p) skip_extensions); reflexivity.
Qed.

Lemma skip_part_more (extra : list string) (part : string) :
  skip_part default_skip part = true ->
  skip_part (default_skip ++ extra) part = true.
Proof.
  unfold skip_part. rewrite mem_app. intros H.
  apply orb_true_iff in H. destruct H as [-> | ->]; [reflexivity |].
  now rewrite orb_true_r.
Qed.

(** X2.  A skipped directory part is inherited: when a path has a hidden
    part or a part of the skip set, every path below it is skipped too,
    whatever the extra patterns. *)
Theorem should_skip_path_descendants (dir rel : Path) (part : string)
    (skip_patterns : option (list string)) :
  In part dir ->
  skip_part default_skip part = true ->
  should_skip_path (dir ++ rel) skip_patterns = true.
Proof.
  intros Hin Hs. unfold should_skip_path.
  assert (forall skip, skip_part skip part = true ->
                       existsb (skip_part skip) (dir ++ rel) = true) as Hex.
  { intros skip H. apply existsb_exists. exists part. split; [| exact H].
    apply in_or_app. now left. }
  destruct skip_patterns as [[|x extra] |]; try now rewrite Hex.
  rewrite Hex; [reflexivity | now apply skip_part_more].
Qed.

(** The theorem at work below a node_modules directory. *)
Lemma should_skip_path_descendants_witness :
  should_skip_path (["web"; "node_modules"] ++ ["pkg"; "index.js"]) (Some ["tmp"])
  = true.
Proof.
  apply (should_skip_path_descendants ["web"; "node_modules"] ["pkg"; "index.js"]
           "node_modules" (Some ["tmp"])).
  - simpl. tauto.
  - reflexivity.
Defined.

(* ================================================================== *)
(** * Invariants of the indexing loop *)
(* ================================================================== *)

Section LoopInvariants.

Variable env : Env.
Variable parser : Parser.
Variable root_path : Path.

Lemma link_block (k : string) (e : CodeEntity) (relative_path : string)
    (self : CodebaseIndex) :
  (set_entity k e ;;
   update_graph (add_node k) ;;
   update_graph (add_edge k relative_path)) self
  = (Ok tt, with_definition k e relative_path self).
Proof. reflexivity. Qed.

Lemma add_import_edge_cases (file_path : Path) (relative_path imp : string)
    (self : CodebaseIndex) :
  (exists e, _resolve_import env root_path imp file_path = Raise e
             /\ add_import_edge env root_path file_path relative_path imp self
                = (Raise e, self))
  \/ (exists target,
         (_resolve_import env root_path imp file_path = Ok (Some target)
          \/ target = "external:" +:+ imp)
         /\ add_import_edge env root_path file_path relative_path imp self
            = (Ok tt, with_edge relative_path target self)).
Proof.
  unfold add_import_edge, mbind, M_bind, lift.
  destruct (_resolve_import env root_path imp file_path) as [[target |] | e] eqn:E.
  - right. destruct (PyStr.truthy target).
    + exists target. split; [now left | reflexivity].
    + exists ("external:" +:+ imp). split; [now right | reflexivity].
  - right. exists ("external:" +:+ imp). split; [now right | reflexivity].
  - left. exists e. split; reflexivity.
Qed.

(** To keep [I] through parsing and linking it is enough that the block
    made for a parsed entity and the edge of an import keep it. *)
Lemma parse_and_link_blocks (I : CodebaseIndex -> Prop) (file_path : Path)
    (src relative_path : string) :
  (forall parsed kv self,
      parse_file parser src relative_path = Ok parsed ->
      In kv (PyDict.items parsed) ->
      I self -> I (with_definition (fst kv) (snd kv) relative_path self)) ->
  (forall target self, I self -> I (with_edge relative_path target self)) ->
  preserves I (parse_and_link env parser root_path file_path src relative_path).
Proof.
  intros Hdef Hedge. unfold parse_and_link.
  apply preserves_bind_lift. intros parsed Hparse.
  apply preserves_bind.
  - apply preserves_for_each. intros kv Hkv self H.
    rewrite link_block. simpl. now apply (Hdef parsed).
  - intros _. apply preserves_bind; [apply preserves_lift | intros imports].
    apply preserves_for_each. intros imp _ self H.
    destruct (add_import_edge_cases file_path relative_path imp self)
      as [[e [_ ->]] | [target [_ ->]]]; simpl; [exact H | now apply Hedge].
Qed.

Lemma _index_file_keeps (I : CodebaseIndex -> Prop) (file_path : Path) :
  (forall e self, I self -> I (log_error file_path e self)) ->
  (forall src relative_path self,
      fs_read_text env file_path = Ok src ->
      relative_to file_path root_path = Ok relative_path ->
      I self -> I (with_file_entity env file_path src relative_path self)) ->
  (forall src relative_path,
      fs_read_text env file_path = Ok src ->
      relative_to file_path root_path = Ok relative_path ->
      preserves I (parse_and_link env parser root_path file_path src relative_path)) ->
  forall self, I self -> I (_index_file env parser root_path file_path self).
Proof.
  intros Hlog Hfile Hlink self H. unfold _index_file.
  rewrite _index_file_try_unfold.
  destruct (fs_read_text env file_path) as [src | e] eqn:Hread; [| now apply Hlog].
  destruct (relative_to file_path root_path) as [rel | e] eqn:Hrel; [| now apply Hlog].
  destruct (bloom_accepts env (bloom_filter self) rel); [| now apply Hlog].
  pose proof (Hlink src rel eq_refl eq_refl _ (Hfile src rel self eq_refl eq_refl H)) as Hp.
  destruct (parse_and_link env parser root_path file_path src rel
              (with_file_entity env file_path src rel self))
    as [[[] | e] self']; simpl in *; [exact Hp | now apply Hlog].
Qed.

Lemma build_loop_keeps (I : CodebaseIndex -> Prop) (extensions : list string) :
  (forall f self, I self -> I (_index_file env parser root_path f self)) ->
  forall files st,
    I (snd st) ->
    I (snd (fold_left (build_step env parser root_path extensions) files st)).
Proof.
  intros Hstep files. induction files as [|f files IH]; intros st H; simpl; [exact H |].
  apply IH. destruct st as [[file_count skipped_count] self]. unfold build_step.
  destruct (fs_is_file env f && PyStr.mem (PurePath.suffix f) extensions); [| exact H].
  destruct (should_skip_path f None); [exact H |]. simpl. now apply Hstep.
Qed.

Lemma build_index_keeps (I : CodebaseIndex -> Prop) (extensions : option (list string))
    (self : CodebaseIndex) :
  (forall f self, I self -> I (_index_file env parser root_path f self)) ->
  I self -> I (snd (build_index env parser root_path extensions self)).
Proof.
  intros Hstep H. unfold build_index.
  now apply (build_loop_keeps I _ Hstep _ (0, 0, self)).
Qed.

Lemma index_le_refl (a : CodebaseIndex) : index_le a a.
Proof. repeat split; auto. Qed.

Lemma index_le_trans (a b c : CodebaseIndex) :
  index_le a b -> index_le b c -> index_le a c.
Proof.
  intros (H1 & H2 & H3 & H4 & H5) (G1 & G2 & G3 & G4 & G5).
  repeat split; try (intros; auto); set_solver.
Qed.

Lemma index_le_with_definition (k : string) (e : CodeEntity) (rel : string)
    (self : CodebaseIndex) :
  index_le self (with_definition k e rel self).
Proof.
  repeat split; simpl; auto; try set_solver.
  intros k' H. rewrite PyDictFacts.mem_set, H. apply orb_true_r.
Qed.

Lemma index_le_with_edge (u v : string) (self : CodebaseIndex) :
  index_le self (with_edge u v self).
Proof. repeat split; simpl; auto; set_solver. Qed.

Lemma index_le_with_file_entity (file_path : Path) (src rel : string)
    (self : CodebaseIndex) :
  index_le self (with_file_entity env file_path src rel self).
Proof.
  repeat split; simpl; auto; try set_solver.
  - intros k' H. rewrite PyDictFacts.mem_set, H. apply orb_true_r.
  - intros k' H. apply in_or_app. now left.
Qed.

Lemma index_le_log_error (file_path : Path) (e : string) (self : CodebaseIndex) :
  index_le self (log_error file_path e self).
Proof.
  repeat split; simpl; auto. intros l H. apply in_or_app. now left.
Qed.

Lemma index_le__index_file (a : CodebaseIndex) (file_path : Path) (self : CodebaseIndex) :
  index_le a self -> index_le a (_index_file env parser root_path file_path self).
Proof.
  apply (_index_file_keeps (index_le a)).
  - intros e s H. eapply index_le_trans; [exact H | apply index_le_log_error].
  - intros src rel s _ _ H.
    eapply index_le_trans; [exact H | apply index_le_with_file_entity].
  - intros src rel _ _. apply parse_and_link_blocks.
    + intros parsed kv s _ _ H.
      eapply index_le_trans; [exact H | apply index_le_with_definition].
    + intros target s H. eapply index_le_trans; [exact H | apply index_le_with_edge].
Qed.

(** X3.  Indexing only adds: whatever the files and the parser do, the
    index after [build_index] holds every key, node, edge, filter key and
    log line it held before.  A second build on the same index merges
    into it; nothing is cleared. *)
Theorem build_index_only_adds (extensions : option (list string))
    (self : CodebaseIndex) :
  index_le self (snd (build_index env parser root_path extensions self)).
Proof.
  apply (build_index_keeps (index_le self)).
  - intros f s. apply index_le__index_file.
  - apply index_le_refl.
Qed.

End LoopInvariants.

(* ================================================================== *)
(** * Entities, nodes and containment edges *)
(* ================================================================== *)

Ltac index_simpl :=
  cbn [entities dependency_graph bloom_filter error_log nodes edges
       with_file_entity with_definition with_edge log_error add_node add_edge
       fst snd] in *.

Ltac graph_set :=
  repeat first [ rewrite elem_of_union | rewrite elem_of_singleton ];
  subst; tauto.

Section NodesAndEdges.

Variable env : Env.
Variable root_path : Path.

Lemma graph_closed__index_file (parser : Parser) (f : Path) (self : CodebaseIndex) :
  ((forall k, PyDict.mem k (entities self) = true ->
              k ∈ nodes (dependency_graph self))
   /\ (forall u v, (u, v) ∈ edges (dependency_graph self) ->
                   u ∈ nodes (dependency_graph self)
                   /\ v ∈ nodes (dependency_graph self))) ->
  let self' := _index_file env parser root_path f self in
  (forall k, PyDict.mem k (entities self') = true ->
             k ∈ nodes (dependency_graph self'))
  /\ (forall u v, (u, v) ∈ edges (dependency_graph self') ->
                  u ∈ nodes (dependency_graph self')
                  /\ v ∈ nodes (dependency_graph self')).
Proof.
  cbv zeta.
  apply (_index_file_keeps env parser root_path
           (fun s => (forall k, PyDict.mem k (entities s) = true ->
                                k ∈ nodes (dependency_graph s))
                     /\ (forall u v, (u, v) ∈ edges (dependency_graph s) ->
                                     u ∈ nodes (dependency_graph s)
                                     /\ v ∈ nodes (dependency_graph s)))).
  - intros e s H. exact H.
  - intros src rel s _ _ [Hn He]. split; index_simpl.
    + intros k Hk. rewrite PyDictFacts.mem_set in Hk.
      apply orb_true_iff in Hk. destruct Hk as [Hk | Hk].
      * apply String.eqb_eq in Hk. graph_set.
      * specialize (Hn k Hk). graph_set.
    + intros u v Huv. destruct (He u v Huv). graph_set.
  - intros src rel _ _. apply parse_and_link_blocks.
    + intros parsed kv s _ _ [Hn He]. split; index_simpl.
      * intros k Hk. rewrite PyDictFacts.mem_set in Hk.
        apply orb_true_iff in Hk. destruct Hk as [Hk | Hk].
        -- apply String.eqb_eq in Hk. graph_set.
        -- specialize (Hn k Hk). graph_set.
      * intros u v Huv. apply elem_of_union in Huv. destruct Huv as [Huv | Huv].
        -- apply elem_of_singleton in Huv. injection Huv as -> ->. graph_set.
        -- destruct (He u v Huv). graph_set.
    + intros target s [Hn He]. split; index_simpl.
      * intros k Hk. specialize (Hn k Hk). graph_set.
      * intros u v Huv. apply elem_of_union in Huv. destruct Huv as [Huv | Huv].
        -- apply elem_of_singleton in Huv. injection Huv as -> ->. graph_set.
        -- destruct (He u v Huv). graph_set.
Qed.

(** X4.  After a build of a fresh index every key of the entity mapping
    is a node of the dependency graph, and both end points of every edge
    are nodes, also for files whose indexing failed half way. *)
Theorem build_index_graph_closed (parser : Parser)
    (extensions : option (list string)) :
  (forall k,
      PyDict.mem k
        (entities (snd (build_index env parser root_path extensions
                          CodebaseIndex_init))) = true ->
      k ∈ nodes (dependency_graph
                   (snd (build_index env parser root_path extensions
                           CodebaseIndex_init))))
  /\ (forall u v,
         (u, v) ∈ edges (dependency_graph
                           (snd (build_index env parser root_path extensions
                                   CodebaseIndex_init))) ->
         u ∈ nodes (dependency_graph
                      (snd (build_index env parser root_path extensions
                              CodebaseIndex_init)))
         /\ v ∈ nodes (dependency_graph
                         (snd (build_index env parser root_path extensions
                                 CodebaseIndex_init)))).
Proof.
  apply (build_index_keeps env parser root_path
           (fun s => (forall k, PyDict.mem k (entities s) = true ->
                                k ∈ nodes (dependency_graph s))
                     /\ (forall u v, (u, v) ∈ edges (dependency_graph s) ->
                                     u ∈ nodes (dependency_graph s)
                                     /\ v ∈ nodes (dependency_graph s)))).
  - intros f s. apply graph_closed__index_file.
  - split; index_simpl.
    + intros k Hk. discriminate.
    + intros u v Huv. now apply not_elem_of_empty in Huv.
Qed.

Lemma containment__index_file (parser : Parser) (f : Path) (self : CodebaseIndex) :
  parser_keys_ok parser ->
  entities_all (fun k e => type e <> "file" ->
                           (k, path e) ∈ edges (dependency_graph self)) self ->
  let self' := _index_file env parser root_path f self in
  entities_all (fun k e => type e <> "file" ->
                           (k, path e) ∈ edges (dependency_graph self')) self'.
Proof.
  intros Hok. cbv zeta.
  apply (_index_file_keeps env parser root_path
           (fun s => entities_all
                       (fun k e => type e <> "file" ->
                                   (k, path e) ∈ edges (dependency_graph s)) s)).
  - intros e s H. exact H.
  - intros src rel s _ _ H k e Hin Hty. index_simpl.
    apply PyDictFacts.In_set in Hin. destruct Hin as [Heq | Hin].
    + injection Heq as -> ->. now contradiction Hty.
    + now apply H.
  - intros src rel _ _. apply parse_and_link_blocks.
    + intros parsed kv s Hparse Hkv H k e Hin Hty. index_simpl.
      apply PyDictFacts.In_set in Hin. destruct Hin as [[= -> ->] | Hin].
      * destruct (Hok src rel parsed kv Hparse Hkv) as (_ & Hp & _).
        rewrite Hp. graph_set.
      * specialize (H k e Hin Hty). graph_set.
    + intros target s H k e Hin Hty. index_simpl.
      specialize (H k e Hin Hty). graph_set.
Qed.

(** X5.  After a build of a fresh index, with either strategy, every
    stored entity that is not a file entity has its containment edge: an
    edge from its key to its path. *)
Theorem build_index_containment (ts : TreeSitter) (re : Regex)
    (extensions : option (list string)) (k : string) (e : CodeEntity) :
  PyDict.get k
    (entities (snd (build_index env (select_parser ts re) root_path extensions
                      CodebaseIndex_init))) = Some e ->
  type e <> "file" ->
  (k, path e) ∈ edges (dependency_graph
                         (snd (build_index env (select_parser ts re) root_path
                                 extensions CodebaseIndex_init))).
Proof.
  intros Hget. apply PyDictFacts.get_In in Hget. revert k e Hget.
  apply (build_index_keeps env (select_parser ts re) root_path
           (fun s => entities_all
                       (fun k e => type e <> "file" ->
                                   (k, path e) ∈ edges (dependency_graph s)) s)).
  - intros f s. apply containment__index_file. apply select_parser_keys_ok.
  - intros k e [].
Qed.

Lemma bloom__index_file (parser : Parser) (f : Path) (self : CodebaseIndex) :
  (forall k, In k (bloom_filter self) -> PyDict.mem k (entities self) = true) ->
  forall k, In k (bloom_filter (_index_file env parser root_path f self)) ->
            PyDict.mem k (entities (_index_file env parser root_path f self)) = true.
Proof.
  apply (_index_file_keeps env parser root_path
           (fun s => forall k, In k (bloom_filter s) ->
                               PyDict.mem k (entities s) = true)).
  - intros e s H. exact H.
  - intros src rel s _ _ H k Hk. index_simpl. rewrite PyDictFacts.mem_set.
    apply in_app_or in Hk. destruct Hk as [Hk | [<- | []]].
    + rewrite (H k Hk). apply orb_true_r.
    + now rewrite String.eqb_refl.
  - intros src rel _ _. apply parse_and_link_blocks.
    + intros parsed kv s _ _ H k Hk. index_simpl.
      rewrite PyDictFacts.mem_set, (H k Hk). apply orb_true_r.
    + intros target s H. exact H.
Qed.

Lemma file_keys__index_file (parser : Parser) (f : Path) (self : CodebaseIndex) :
  parser_keys_ok parser ->
  entities_all (fun k e => type e = "file" -> In k (bloom_filter self)) self ->
  let self' := _index_file env parser root_path f self in
  entities_all (fun k e => type e = "file" -> In k (bloom_filter self')) self'.
Proof.
  intros Hok. cbv zeta.
  apply (_index_file_keeps env parser root_path
           (fun s => entities_all
                       (fun k e => type e = "file" -> In k (bloom_filter s)) s)).
  - intros e s H. exact H.
  - intros src rel s _ _ H k e Hin Hty. index_simpl. apply in_or_app.
    apply PyDictFacts.In_set in Hin. destruct Hin as [Heq | Hin].
    + injection Heq as -> _. right. now left.
    + left. exact (H k e Hin Hty).
  - intros src rel _ _. apply parse_and_link_blocks.
    + intros parsed kv s Hparse Hkv H k e Hin Hty. index_simpl.
      apply PyDictFacts.In_set in Hin. destruct Hin as [[= -> ->] | Hin].
      * destruct (Hok src rel parsed kv Hparse Hkv) as (Hnf & _). contradiction.
      * exact (H k e Hin Hty).
    + intros target s H. exact H.
Qed.

(** X6.  After a build of a fresh index the Bloom filter and the entity
    mapping agree on the files: every key added to the filter is a key of
    the mapping, and, with either strategy, the key of every file entity
    was added to the filter. *)
Theorem build_index_bloom_filter (ts : TreeSitter) (re : Regex)
    (extensions : option (list string)) :
  (forall k,
      In k (bloom_filter (snd (build_index env (select_parser ts re) root_path
                                 extensions CodebaseIndex_init))) ->
      PyDict.mem k
        (entities (snd (build_index env (select_parser ts re) root_path extensions
                          CodebaseIndex_init))) = true)
  /\ (forall k e,
         PyDict.get k
           (entities (snd (build_index env (select_parser ts re) root_path
                             extensions CodebaseIndex_init))) = Some e ->
         type e = "file" ->
         In k (bloom_filter (snd (build_index env (select_parser ts re) root_path
                                    extensions CodebaseIndex_init)))).
Proof.
  split.
  - apply (build_index_keeps env (select_parser ts re) root_path
             (fun s => forall k, In k (bloom_filter s) ->
                                 PyDict.mem k (entities s) = true)).
    + intros f s. apply bloom__index_file.
    + intros k [].
  - intros k e Hget. apply PyDictFacts.get_In in Hget. revert k e Hget.
    apply (build_index_keeps env (select_parser ts re) root_path
             (fun s => entities_all
                         (fun k e => type e = "file" -> In k (bloom_filter s)) s)).
    + intros f s. apply file_keys__index_file. apply select_parser_keys_ok.
    + intros k e [].
Qed.

End NodesAndEdges.

(** The theorem at work on the scenario: the key of the helper function
    is a node, and so are the ends of the import edge. *)
Lemma build_index_graph_closed_witness :
  "utils.py::helper" ∈ nodes (dependency_graph Examples.scenario_index)
  /\ "main.py" ∈ nodes (dependency_graph Examples.scenario_index)
  /\ "utils.py" ∈ nodes (dependency_graph Examples.scenario_index).
Proof.
  pose proof (build_index_graph_closed (Fixture.env_of Examples.scenario_tree)
                Examples.proj
                (select_parser Fixture.no_tree_sitter Examples.scenario_regex) None)
    as [Hkeys Hedges].
  split.
  - apply (Hkeys "utils.py::helper"). vm_compute. reflexivity.
  - apply (Hedges "main.py" "utils.py"). vm_compute. reflexivity.
Defined.

(** The theorem at work on the helper function of the scenario. *)
Lemma build_index_containment_witness :
  ("utils.py::helper", path Examples.helper_entity)
    ∈ edges (dependency_graph Examples.scenario_index).
Proof.
  apply (build_index_containment (Fixture.env_of Examples.scenario_tree)
           Examples.proj Fixture.no_tree_sitter Examples.scenario_regex None
           "utils.py::helper" Examples.helper_entity).
  - vm_compute. reflexivity.
  - simpl. discriminate.
Defined.

(** The theorem at work on the scenario: utils.py is in the filter and in
    the mapping. *)
Lemma build_index_bloom_filter_witness :
  PyDict.mem "utils.py" (entities Examples.scenario_index) = true
  /\ In "main.py" (bloom_filter Examples.scenario_index).
Proof.
  pose proof (build_index_bloom_filter (Fixture.env_of Examples.scenario_tree)
                Examples.proj Fixture.no_tree_sitter Examples.scenario_regex None)
    as [Hin Hfile].
  split.
  - apply (Hin "utils.py"). vm_compute. tauto.
  - apply (Hfile "main.py"
             {| path := "main.py"; type := "file"; name := "main.py";
                content := "import utils"; summary := None; dependencies := [];
                ast_hash := Some "md5:import utils"; metadata := [] |}).
    + vm_compute. reflexivity.
    + reflexivity.
Defined.

(* ================================================================== *)
(** * Bounded excerpts *)
(* ================================================================== *)

Lemma length_take (n : nat) (s : string) : String.length (PyStr.take n s) <= n.
Proof.
  revert s. induction n as [|n IH]; intros [|c s]; simpl; try lia.
  specialize (IH s). lia.
Qed.

Lemma length_slice (a b : nat) (s : string) :
  String.length (PyStr.slice a b s) <= b - a.
Proof. unfold PyStr.slice. apply length_take. Qed.

Lemma length_slice_300 (a b : nat) (s : string) :
  String.length (PyStr.slice a (Nat.min b (a + 300)) s) <= 300.
Proof. pose proof (length_slice a (Nat.min b (a + 300)) s). lia. Qed.

Lemma length_slice_300' (a n : nat) (s : string) :
  String.length (PyStr.slice a (Nat.min (a + 300) n) s) <= 300.
Proof. pose proof (length_slice a (Nat.min (a + 300) n) s). lia. Qed.

Lemma walk_assignment_excerpt (src file_path lang_name : string)
    (tbl : PyDict.t string) (kv : string * CodeEntity) (node : Node) :
  In kv (walk_assignment src file_path lang_name tbl node) ->
  String.length (content (snd kv)) <= 300.
Proof.
  unfold walk_assignment.
  destruct (PyDict.get (node_type node) tbl) as [entity_type |]; [| intros []].
  destruct (_find_name_node node lang_name) as [name_node |]; [| intros []].
  intros [<- | []]. cbn [snd content]. apply length_slice_300.
Qed.

Lemma _walk_tree_excerpt (budget : nat) (node : Node)
    (src file_path lang_name : string) (d : PyDict.t CodeEntity)
    (kv : string * CodeEntity) :
  match _walk_tree budget node src file_path lang_name with
  | Ok walked => Ok (PyDict.update PyDict.empty walked)
  | Raise e => Raise e
  end = Ok d ->
  In kv (PyDict.items d) ->
  String.length (content (snd kv)) <= 300.
Proof.
  unfold _walk_tree. destruct (walk_frames _ node <=? budget); [| discriminate].
  intros [= <-] H. destruct kv as [k e].
  apply PyDictFacts.In_update in H. destruct H as [[] | H].
  apply PyDictFacts.In_of_assignments in H.
  apply walk_tree_assignments_In in H. destruct H as [n H].
  now apply walk_assignment_excerpt in H.
Qed.

Lemma regex_assignments_excerpt (re : Regex) (src file_path : string)
    (pats : list (string * string)) (kv : string * CodeEntity) :
  In kv (List.flat_map
           (fun pat => map (regex_assignment src file_path (snd pat))
                           (finditer re (fst pat) src)) pats) ->
  String.length (content (snd kv)) <= 300.
Proof.
  intros H. apply in_flat_map in H. destruct H as [pat [_ H]].
  apply in_map_iff in H. destruct H as [m [<- _]].
  cbn [regex_assignment snd content]. apply length_slice_300'.
Qed.

(** Both strategies cut the excerpt of a definition at 300 characters. *)
Lemma select_parser_excerpt (ts : TreeSitter) (re : Regex) (src file_path : string)
    (d : PyDict.t CodeEntity) (kv : string * CodeEntity) :
  parse_file (select_parser ts re) src file_path = Ok d ->
  In kv (PyDict.items d) ->
  String.length (content (snd kv)) <= 300.
Proof.
  unfold select_parser.
  destruct (TREE_SITTER_AVAILABLE ts || TREE_SITTER_BASIC ts).
  - unfold TreeSitterParser_as_Parser. cbn [parse_file].
    unfold TreeSitterParser_parse_file.
    destruct (parser_language (TreeSitterParser_init ts) file_path) as [lang_name |];
      [| intros [= <-] []].
    destruct (ts_parse ts lang_name src) as [root_node | e]; [| discriminate].
    cbv zeta.
    destruct (PyDict.get lang_name LANGUAGE_QUERIES_definitions) as [q |];
      [| apply _walk_tree_excerpt].
    destruct (PyStr.mem lang_name (languages (TreeSitterParser_init ts)));
      [| apply _walk_tree_excerpt].
    destruct (ts_captures ts lang_name q root_node) as [captures | e];
      [| apply _walk_tree_excerpt].
    intros [= <-] H. destruct kv as [k e].
    apply PyDictFacts.In_of_assignments in H.
    apply list_elem_of_In, list_elem_of_omap in H. destruct H as [c [_ Hc]].
    unfold capture_assignment in Hc.
    destruct (PyStr.endswith (capture_name q c) ".name"); [| discriminate].
    destruct (cap_parent c) as [parent |]; [| discriminate].
    injection Hc as _ <-. cbn [snd content]. apply length_slice_300.
  - unfold RegexFallbackParser_as_Parser, RegexFallbackParser_parse_file.
    cbn [parse_file]. intros [= <-] H. destruct kv as [k e].
    apply PyDictFacts.In_of_assignments in H.
    exact (regex_assignments_excerpt re src file_path definition_patterns (k, e) H).
Qed.

Section Excerpts.

Variable env : Env.
Variable root_path : Path.

Lemma excerpt__index_file (ts : TreeSitter) (re : Regex) (f : Path)
    (self : CodebaseIndex) :
  entities_all (fun _ e => excerpt_bounded e) self ->
  entities_all (fun _ e => excerpt_bounded e)
    (_index_file env (select_parser ts re) root_path f self).
Proof.
  apply (_index_file_keeps env (select_parser ts re) root_path
           (entities_all (fun _ e => excerpt_bounded e))).
  - intros e s H. exact H.
  - intros src rel s _ _ H k e Hin. unfold with_file_entity in Hin.
    cbn [entities] in Hin.
    apply PyDictFacts.In_set in Hin. destruct Hin as [Heq | Hin].
    + pose proof (f_equal snd Heq) as He. cbn [snd] in He. rewrite He.
      unfold excerpt_bounded. cbn [type content]. apply length_take.
    + exact (H k e Hin).
  - intros src rel _ _. apply parse_and_link_blocks.
    + intros parsed kv s Hparse Hkv H k e Hin. unfold with_definition in Hin.
      cbn [entities] in Hin.
      apply PyDictFacts.In_set in Hin. destruct Hin as [Heq | Hin].
      * pose proof (f_equal snd Heq) as He. cbn [snd] in He. rewrite He.
        unfold excerpt_bounded.
        pose proof (select_parser_excerpt ts re src rel parsed kv Hparse Hkv).
        destruct (String.eqb (type (snd kv)) "file"); lia.
      * exact (H k e Hin).
    + intros target s H. exact H.
Qed.

(** X7.  After a build of a fresh index, with either strategy, the
    excerpt of every stored entity is bounded: at most 500 characters for
    a file entity, at most 300 for any other entity. *)
Theorem build_index_excerpts (ts : TreeSitter) (re : Regex)
    (extensions : option (list string)) (k : string) (e : CodeEntity) :
  PyDict.get k
    (entities (snd (build_index env (select_parser ts re) root_path extensions
                      CodebaseIndex_init))) = Some e ->
  if String.eqb (type e) "file" then String.length (content e) <= 500
  else String.length (content e) <= 300.
Proof.
  intros Hget. apply PyDictFacts.get_In in Hget. revert k e Hget.
  apply (build_index_keeps env (select_parser ts re) root_path
           (entities_all (fun _ e => excerpt_bounded e))).
  - intros f s. apply excerpt__index_file.
  - intros k e [].
Qed.

End Excerpts.

(** The theorem at work on the helper function of the scenario. *)
Lemma build_index_excerpts_witness :
  String.length (content Examples.helper_entity) <= 300.
Proof.
  apply (build_index_excerpts (Fixture.env_of Examples.scenario_tree)
           Examples.proj Fixture.no_tree_sitter Examples.scenario_regex None
           "utils.py::helper" Examples.helper_entity).
  vm_compute. reflexivity.
Defined.

(* ================================================================== *)
(** * What indexing one file leaves behind *)
(* ================================================================== *)

Lemma append_neq (s t : string) (c : ascii) : s +:+ String c t <> s.
Proof.
  induction s as [|a s IH]; simpl; [discriminate |].
  intros H. injection H as H. now apply IH.
Qed.

Lemma eqb_append_false (s t : string) (c : ascii) :
  String.eqb s (s +:+ String c t) = false.
Proof.
  destruct (String.eqb s (s +:+ String c t)) eqn:E; [| reflexivity].
  apply String.eqb_eq in E. symmetry in E. now apply append_neq in E.
Qed.

Section OneFile.

Variable env : Env.
Variable root_path : Path.

(** X8.  Once a file is read and its entity stored, parsing the same
    file cannot displace it: with either strategy, after [_index_file]
    the entity under the relative path of the file is the file entity
    (name of the file, first 500 characters, digest of the whole text),
    also when a later step of the same file raises. *)
Theorem index_file_entity_stored (ts : TreeSitter) (re : Regex)
    (file_path : Path) (self : CodebaseIndex) (src relative_path : string) :
  fs_read_text env file_path = Ok src ->
  relative_to file_path root_path = Ok relative_path ->
  bloom_accepts env (bloom_filter self) relative_path = true ->
  get_entity (_index_file env (select_parser ts re) root_path file_path self)
    relative_path
  = Some (file_entity_of env file_path src relative_path).
Proof.
  intros Hread Hrel Hbloom. unfold _index_file, get_entity.
  rewrite _index_file_try_unfold, Hread, Hrel, Hbloom.
  assert (preserves
            (fun s => PyDict.get relative_path (entities s)
                      = Some (file_entity_of env file_path src relative_path))
            (parse_and_link env (select_parser ts re) root_path file_path src
               relative_path)) as Hp.
  { apply parse_and_link_blocks.
    - intros parsed kv s Hparse Hkv H. unfold with_definition. cbn [entities].
      rewrite PyDictFacts.get_set.
      destruct (select_parser_keys_ok ts re src relative_path parsed kv Hparse Hkv)
        as (_ & _ & ->).
      change ("::" +:+ name (snd kv)) with (String ":" (":" +:+ name (snd kv))).
      now rewrite eqb_append_false.
    - intros target s H. exact H. }
  specialize (Hp (with_file_entity env file_path src relative_path self)).
  unfold with_file_entity at 1 in Hp. cbn [entities] in Hp.
  rewrite PyDictFacts.get_set_same in Hp. specialize (Hp eq_refl).
  destruct (parse_and_link env (select_parser ts re) root_path file_path src
              relative_path (with_file_entity env file_path src relative_path self))
    as [[[] | e] self']; exact Hp.
Qed.




End OneFile.

(** The theorem at work on utils.py of the scenario. *)
Lemma index_file_entity_stored_witness :
  get_entity
    (_index_file (Fixture.env_of Examples.scenario_tree)
       (select_parser Fixture.no_tree_sitter Examples.scenario_regex)
       Examples.proj (Examples.proj ++ ["utils.py"]) CodebaseIndex_init)
    "utils.py"
  = Some (file_entity_of (Fixture.env_of Examples.scenario_tree)
            (Examples.proj ++ ["utils.py"]) "def helper(): pass" "utils.py").
Proof.
  apply (index_file_entity_stored (Fixture.env_of Examples.scenario_tree)
           Examples.proj Fixture.no_tree_sitter Examples.scenario_regex
           (Examples.proj ++ ["utils.py"]) CodebaseIndex_init
           "def helper(): pass" "utils.py"); reflexivity.
Defined.


(* ================================================================== *)
(** * A file whose indexing fails *)
(* ================================================================== *)

Section FailedFile.

Variable env : Env.
Variable root_path : Path.








End FailedFile.


(* ================================================================== *)
(** * What a build covers and counts *)
(* ================================================================== *)

Section Coverage.

Variable env : Env.
Variable parser : Parser.
Variable root_path : Path.




End Coverage.


Section Counters.

Variable env : Env.
Variable parser : Parser.
Variable root_path : Path.

Lemma count_loop (extensions : list string) (files : list Path) (count : nat) :
  fold_left
    (fun count file_path =>
       if fs_is_file env file_path
          && PyStr.mem (PurePath.suffix file_path) extensions
       then if negb (should_skip_path file_path None) then S count else count
       else count)
    files count
  = count
    + length (List.filter
                (fun f => is_candidate env extensions f
                          && negb (should_skip_path f None)) files).
Proof.
  revert count. induction files as [|f files IH]; intros count; cbn [fold_left].
  - simpl. lia.
  - rewrite IH. cbn [List.filter]. unfold is_candidate at 2.
    destruct (fs_is_file env f && PyStr.mem (PurePath.suffix f) extensions);
      [destruct (should_skip_path f None) |]; simpl; lia.
Qed.

Lemma build_step_counts (extensions : list string)
    (st : nat * nat * CodebaseIndex) (f : Path) :
  fst (fst (build_step env parser root_path extensions st f))
  = fst (fst st)
    + (if is_candidate env extensions f && negb (should_skip_path f None)
       then 1 else 0)
  /\ snd (fst (build_step env parser root_path extensions st f))
     = snd (fst st)
       + (if is_candidate env extensions f && should_skip_path f None
          then 1 else 0).
Proof.
  destruct st as [[file_count skipped_count] self].
  unfold build_step, is_candidate.
  destruct (fs_is_file env f && PyStr.mem (PurePath.suffix f) extensions);
    [destruct (should_skip_path f None) |]; simpl; lia.
Qed.

Lemma build_loop_counts (extensions : list string) (files : list Path)
    (st : nat * nat * CodebaseIndex) :
  fst (fst (fold_left (build_step env parser root_path extensions) files st))
  = fst (fst st)
    + length (List.filter
                (fun f => is_candidate env extensions f
                          && negb (should_skip_path f None)) files)
  /\ snd (fst (fold_left (build_step env parser root_path extensions) files st))
     = snd (fst st)
       + length (List.filter
                   (fun f => is_candidate env extensions f
                             && should_skip_path f None) files).
Proof.
  revert st. induction files as [|f files IH]; intros st; cbn [fold_left].
  - simpl. lia.
  - destruct (IH (build_step env parser root_path extensions st f)) as [-> ->].
    destruct (build_step_counts extensions st f) as [-> ->].
    cbn [List.filter].
    destruct (is_candidate env extensions f && negb (should_skip_path f None)),
             (is_candidate env extensions f && should_skip_path f None);
      simpl; lia.
Qed.

(** X11.  The counters of a build: [file_count] is what
    [count_files_to_index] announces for the same extensions, so it counts
    every candidate file that is not skipped, whether indexing it failed
    or not; [skipped_count] is the number of skipped candidates; together
    they account for every candidate file. *)
Theorem build_index_counts (extensions : option (list string))
    (self : CodebaseIndex) :
  let exts := match extensions with
              | Some exts => exts
              | None => PyDict.keys EXTENSION_TO_LANGUAGE
              end in
  let st := build_index env parser root_path extensions self in
  fst (fst st) = count_files_to_index env root_path exts
  /\ snd (fst st)
     = length (List.filter
                 (fun f => is_candidate env exts f && should_skip_path f None)
                 (rglob env root_path))
  /\ fst (fst st) + snd (fst st)
     = length (List.filter (is_candidate env exts) (rglob env root_path)).
Proof.
  cbv zeta. unfold build_index, count_files_to_index. rewrite count_loop.
  assert (forall exts,
             length (List.filter (is_candidate env exts) (rglob env root_path))
             = length (List.filter
                         (fun f => is_candidate env exts f
                                   && negb (should_skip_path f None))
                         (rglob env root_path))
               + length (List.filter
                           (fun f => is_candidate env exts f
                                     && should_skip_path f None)
                           (rglob env root_path))) as Hsplit.
  { intros exts. induction (rglob env root_path) as [|f files IH]; [reflexivity |].
    cbn [List.filter].
    destruct (is_candidate env exts f), (should_skip_path f None);
      cbn [andb negb length]; lia. }
  destruct extensions as [exts |].
  - destruct (build_loop_counts exts (rglob env root_path) (0, 0, self)) as [-> ->].
    rewrite (Hsplit exts). simpl. lia.
  - destruct (build_loop_counts (PyDict.keys EXTENSION_TO_LANGUAGE)
                (rglob env root_path) (0, 0, self)) as [-> ->].
    rewrite (Hsplit (PyDict.keys EXTENSION_TO_LANGUAGE)). simpl. lia.
Qed.

End Counters.

Section ErrorLog.

Variable env : Env.
Variable parser : Parser.
Variable root_path : Path.

(** Indexing one file prints at most one line, for that file. *)
Lemma _index_file_log (file_path : Path) (self : CodebaseIndex) :
  error_log (_index_file env parser root_path file_path self) = error_log self
  \/ exists e,
       error_log (_index_file env parser root_path file_path self)
       = error_log self ++ [(file_path, e)].
Proof.
  unfold _index_file. rewrite _index_file_try_unfold.
  destruct (fs_read_text env file_path) as [src | e]; [| right; now exists e].
  destruct (relative_to file_path root_path) as [rel | e]; [| right; now exists e].
  destruct (bloom_accepts env (bloom_filter self) rel);
    [| right; now exists "IndexError"].
  assert (preserves (fun s => error_log s = error_log self)
            (parse_and_link env parser root_path file_path src rel)) as Hp.
  { apply parse_and_link_blocks.
    - intros parsed kv s _ _ H. exact H.
    - intros target s H. exact H. }
  specialize (Hp (with_file_entity env file_path src rel self) eq_refl).
  destruct (parse_and_link env parser root_path file_path src rel
              (with_file_entity env file_path src rel self))
    as [[[] | e] self']; cbn [snd] in Hp.
  - now left.
  - right. exists e. cbn [log_error error_log]. now rewrite Hp.
Qed.

Lemma build_loop_log (extensions : list string) (P : Path -> Prop)
    (files : list Path) (st : nat * nat * CodebaseIndex) :
  (forall f, In f files -> is_candidate env extensions f = true ->
             should_skip_path f None = false -> P f) ->
  length (error_log (snd st)) <= fst (fst st)
  /\ (forall f e, In (f, e) (error_log (snd st)) -> P f) ->
  let st' := fold_left (build_step env parser root_path extensions) files st in
  length (error_log (snd st')) <= fst (fst st')
  /\ (forall f e, In (f, e) (error_log (snd st')) -> P f).
Proof.
  cbv zeta. revert st.
  induction files as [|f files IH]; intros st HP Hst; cbn [fold_left]; [exact Hst |].
  apply IH; [intros g Hg; apply HP; now right |].
  destruct st as [[file_count skipped_count] self]. destruct Hst as [Hlen Hall].
  unfold build_step.
  destruct (fs_is_file env f && PyStr.mem (PurePath.suffix f) extensions) eqn:Hc;
    [| now split].
  destruct (should_skip_path f None) eqn:Hs; [now split |].
  cbn [fst snd] in *.
  destruct (_index_file_log f self) as [-> | [e ->]].
  - split; [lia | exact Hall].
  - split.
    + rewrite length_app. simpl. lia.
    + intros g e' Hin. apply in_app_or in Hin.
      destruct Hin as [Hin | [[= <- <-] | []]]; [now apply (Hall g e') |].
      apply HP; [now left | exact Hc | exact Hs].
Qed.

(** X12.  After a build of a fresh index the log has at most one line
    per counted file, and every logged path is a traversed candidate file
    that the policy did not skip: skipped and foreign files never appear
    in it. *)
Theorem build_index_error_log (extensions : option (list string)) :
  let exts := match extensions with
              | Some exts => exts
              | None => PyDict.keys EXTENSION_TO_LANGUAGE
              end in
  let st := build_index env parser root_path extensions CodebaseIndex_init in
  length (error_log (snd st)) <= fst (fst st)
  /\ (forall f e,
         In (f, e) (error_log (snd st)) ->
         In f (rglob env root_path)
         /\ is_candidate env exts f = true
         /\ should_skip_path f None = false).
Proof.
  cbv zeta. unfold build_index.
  destruct extensions as [exts |];
    (apply (build_loop_log _
              (fun f => In f (rglob env root_path)
                        /\ is_candidate env _ f = true
                        /\ should_skip_path f None = false));
     [ intros f Hf Hc Hs; now repeat split
     | split; [simpl; lia | intros f e []] ]).
Qed.

End ErrorLog.

(** The theorem at work on the faulty tree: the logged a.py is a
    candidate that was not skipped. *)
Lemma build_index_error_log_witness :
  In (Examples.proj ++ ["a.py"])
     (rglob (Fixture.env_of Examples.faulty_tree) Examples.proj)
  /\ is_candidate (Fixture.env_of Examples.faulty_tree)
       (PyDict.keys EXTENSION_TO_LANGUAGE) (Examples.proj ++ ["a.py"]) = true
  /\ should_skip_path (Examples.proj ++ ["a.py"]) None = false.
Proof.
  apply (proj2 (build_index_error_log (Fixture.env_of Examples.faulty_tree)
                  (select_parser Examples.failing_tree_sitter (Fixture.regex_of []))
                  Examples.proj None)
           (Examples.proj ++ ["a.py"]) "ValueError").
  vm_compute. tauto.
Defined.

(* ================================================================== *)
(** * More on the two strategies *)
(* ================================================================== *)

Lemma get_update_other {V : Type} (k : string) (d kvs : PyDict.t V) :
  (forall kv, In kv kvs -> fst kv <> k) ->
  PyDict.get k (PyDict.update d kvs) = PyDict.get k d.
Proof.
  unfold PyDict.update. revert d.
  induction kvs as [|[k0 v0] kvs IH]; intros d H; cbn [fold_left]; [reflexivity |].
  rewrite IH by (intros kv Hkv; apply H; now right).
  cbn [fst snd]. rewrite PyDictFacts.get_set.
  destruct (String.eqb k k0) eqn:E; [| reflexivity].
  apply String.eqb_eq in E. exfalso. apply (H (k0, v0)); [now left | now symmetry].
Qed.

(** A dictionary built by assignments holds, under each key, the value
    of the last assignment to it. *)
Lemma get_of_assignments_last {V : Type} (k : string) (v : V)
    (before after : list (string * V)) :
  (forall kv, In kv after -> fst kv <> k) ->
  PyDict.get k (PyDict.of_assignments (before ++ (k, v) :: after)) = Some v.
Proof.
  intros H. unfold PyDict.of_assignments, PyDict.update.
  rewrite fold_left_app. cbn [fold_left fst snd].
  fold (PyDict.update
          (PyDict.set k v (fold_left (fun acc kv => PyDict.set (fst kv) (snd kv) acc)
                             before PyDict.empty)) after).
  rewrite get_update_other by exact H. apply PyDictFacts.get_set_same.
Qed.

(** X13.  The fallback strategy keeps one entity per matched name, the
    one of the last match in the order of the loops (patterns in list
    order, matches of a pattern in text order); a key that no match
    produces is absent. *)
Theorem regex_parse_last_match (re : Regex) (src file_path : string) :
  (forall before after kind m,
      regex_assignments re src file_path
      = before ++ regex_assignment src file_path kind m :: after ->
      (forall kv, In kv after -> fst kv <> file_path +:+ "::" +:+ snd m) ->
      exists d,
        parse_file (RegexFallbackParser_as_Parser re) src file_path = Ok d
        /\ PyDict.get (file_path +:+ "::" +:+ snd m) d
           = Some (snd (regex_assignment src file_path kind m)))
  /\ (forall k,
         (forall kv, In kv (regex_assignments re src file_path) -> fst kv <> k) ->
         exists d,
           parse_file (RegexFallbackParser_as_Parser re) src file_path = Ok d
           /\ PyDict.get k d = None).
Proof.
  split.
  - intros before after kind m Heq Hafter. eexists. split; [reflexivity |].
    fold (regex_assignments re src file_path). rewrite Heq.
    change (regex_assignment src file_path kind m)
      with (file_path +:+ "::" +:+ snd m, snd (regex_assignment src file_path kind m)).
    now apply get_of_assignments_last.
  - intros k Hk. eexists. split; [reflexivity |].
    fold (regex_assignments re src file_path).
    unfold PyDict.of_assignments. now rewrite get_update_other.
Qed.

(** The theorem at work: the name Foo is matched as a class and then as
    a struct; the struct stays. *)
Lemma regex_parse_last_match_witness :
  exists d,
    parse_file (RegexFallbackParser_as_Parser MoreExamples.twice_regex)
      MoreExamples.twice_src "a.c" = Ok d
    /\ PyDict.get ("a.c" +:+ "::" +:+ "Foo") d
       = Some (snd (regex_assignment MoreExamples.twice_src "a.c" "struct" (10, "Foo"))).
Proof.
  apply (proj1 (regex_parse_last_match MoreExamples.twice_regex
                  MoreExamples.twice_src "a.c")
           [regex_assignment MoreExamples.twice_src "a.c" "class" (0, "Foo")]
           [] "struct" (10, "Foo")).
  - reflexivity.
  - intros kv [].
Defined.

Lemma walk_tree_assignments_no_table (src file_path lang_name : string) (node : Node) :
  walk_tree_assignments src file_path lang_name PyDict.empty node = [].
Proof.
  induction node as [node IH] using Node_tree_ind.
  destruct node as [ty fld sb eb sl el ch]. cbn [walk_tree_assignments children] in *.
  unfold walk_assignment. cbn [PyDict.get PyDict.empty app].
  induction ch as [|c ch IHch]; [reflexivity |].
  cbn [List.flat_map]. inversion IH as [|? ? Hc Hch]; subst.
  rewrite Hc. now apply IHch.
Qed.

(** A language without a definitions query has no entity table either. *)
Lemma no_query_no_table (lang_name : string) :
  PyDict.get lang_name LANGUAGE_QUERIES_definitions = None ->
  PyDict.get lang_name ENTITY_TYPES = None.
Proof.
  intros Hq. destruct (PyDict.get lang_name ENTITY_TYPES) as [tbl |] eqn:Et;
    [| reflexivity].
  apply PyDictFacts.get_In in Et. simpl in Et.
  repeat (destruct Et as [Et | Et]; [injection Et as <- _; discriminate Hq |]).
  destruct Et.
Qed.

Lemma parser_language_is (self : TreeSitterParser) (file_path lang_name l : string) :
  PyDict.get (PurePath.suffix (PurePath.of_string file_path)) EXTENSION_TO_LANGUAGE
  = Some lang_name ->
  parser_language self file_path = Some l -> l = lang_name.
Proof.
  intros Hext. unfold parser_language. rewrite Hext.
  destruct (PyStr.truthy lang_name && PyStr.mem lang_name (parsers self));
    [now intros [= <-] | discriminate].
Qed.

Lemma EXTENSION_TO_LANGUAGE_truthy (ext lang_name : string) :
  PyDict.get ext EXTENSION_TO_LANGUAGE = Some lang_name ->
  PyStr.truthy lang_name = true.
Proof.
  intros H. apply PyDictFacts.get_In in H. simpl in H.
  repeat (destruct H as [H | H]; [injection H as _ <-; reflexivity |]).
  destruct H.
Qed.

(** With an empty entity-type table the walk makes no call but its
    own. *)
Lemma walk_frames_no_table (node : Node) :
  walk_frames (fun n => PyDict.mem (node_type n) (@PyDict.empty string)) node
  = walk_frames (fun _ => false) node.
Proof. reflexivity. Qed.

(** X14.  The precise strategy finds no definition in a file of a
    language without a definitions query (C, C#, Ruby, PHP, Swift, Kotlin,
    Scala, R, Objective-C).  With the grammar loaded, [parse_file] passes
    on the exception of the grammar parser, raises [RecursionError] when
    the syntax tree has more levels than the interpreter allows nested
    calls to the walk, and returns the empty dictionary otherwise; with no
    grammar loaded it returns the empty dictionary. *)
Theorem precise_no_definitions (ts : TreeSitter) (src file_path lang_name : string) :
  PyDict.get (PurePath.suffix (PurePath.of_string file_path)) EXTENSION_TO_LANGUAGE
  = Some lang_name ->
  PyDict.get lang_name LANGUAGE_QUERIES_definitions = None ->
  parse_file (TreeSitterParser_as_Parser ts) src file_path
  = if PyStr.mem lang_name (parsers (TreeSitterParser_init ts))
    then match ts_parse ts lang_name src with
         | Raise e => Raise e
         | Ok root_node =>
             if walk_frames (fun _ => false) root_node <=? recursion_budget ts
             then Ok PyDict.empty
             else Raise "RecursionError"
         end
    else Ok PyDict.empty.
Proof.
  intros Hext Hq. unfold TreeSitterParser_as_Parser. cbn [parse_file].
  unfold TreeSitterParser_parse_file, parser_language.
  rewrite Hext, (EXTENSION_TO_LANGUAGE_truthy _ _ Hext). cbn [andb].
  destruct (PyStr.mem lang_name (parsers (TreeSitterParser_init ts)));
    [| reflexivity].
  destruct (ts_parse ts lang_name src) as [root_node | e]; [| reflexivity].
  cbv zeta. rewrite Hq. unfold _walk_tree. rewrite (no_query_no_table _ Hq).
  rewrite walk_frames_no_table, walk_tree_assignments_no_table.
  now destruct (walk_frames (fun _ => false) root_node <=? recursion_budget ts).
Qed.

(** The theorem at work on two Ruby files: one with a flat tree, one
    with a tree of 1001 levels. *)
Lemma precise_no_definitions_witness :
  parse_file (TreeSitterParser_as_Parser Examples.scenario_tree_sitter)
    "class Foo; end" "lib/foo.rb" = Ok PyDict.empty
  /\ parse_file (TreeSitterParser_as_Parser MoreExamples.deep_tree_sitter)
       "class Foo; end" "lib/foo.rb" = Raise "RecursionError".
Proof.
  split.
  - rewrite (precise_no_definitions Examples.scenario_tree_sitter
               "class Foo; end" "lib/foo.rb" "ruby" eq_refl eq_refl).
    vm_compute. reflexivity.
  - rewrite (precise_no_definitions MoreExamples.deep_tree_sitter
               "class Foo; end" "lib/foo.rb" "ruby" eq_refl eq_refl).
    vm_compute. reflexivity.
Defined.

Lemma mem_false (x : string) (xs : list string) :
  ~ In x xs -> PyStr.mem x xs = false.
Proof.
  intros H. destruct (PyStr.mem x xs) eqn:E; [| reflexivity].
  apply mem_In in E. contradiction.
Qed.

Lemma eqb_false (x y : string) : x <> y -> String.eqb x y = false.
Proof.
  intros H. destruct (String.eqb x y) eqn:E; [| reflexivity].
  apply String.eqb_eq in E. contradiction.
Qed.

(** X15.  The precise strategy extracts imports for Python, JavaScript,
    TypeScript, Java, Go and Rust only: for a file of any other language
    of the extension table (C and C++ includes among them)
    [extract_imports] returns the empty list, unless the grammar parser
    itself raises. *)
Theorem precise_no_imports (ts : TreeSitter) (src file_path lang_name : string) :
  PyDict.get (PurePath.suffix (PurePath.of_string file_path)) EXTENSION_TO_LANGUAGE
  = Some lang_name ->
  ~ In lang_name import_languages ->
  extract_imports (TreeSitterParser_as_Parser ts) src file_path = Ok []
  \/ exists e,
       ts_parse ts lang_name src = Raise e
       /\ extract_imports (TreeSitterParser_as_Parser ts) src file_path = Raise e.
Proof.
  intros Hext Hnot. unfold TreeSitterParser_as_Parser. cbn [extract_imports].
  unfold TreeSitterParser_extract_imports.
  destruct (parser_language (TreeSitterParser_init ts) file_path) as [l |] eqn:Hl;
    [| now left].
  apply (parser_language_is _ _ lang_name) in Hl; [| exact Hext]. subst l.
  destruct (ts_parse ts lang_name src) as [root_node | e]; [| right; now exists e].
  left. unfold import_languages in Hnot.
  rewrite (eqb_false lang_name "python") by (intros ->; apply Hnot; simpl; tauto).
  rewrite (mem_false lang_name ["javascript"; "typescript"])
    by (intros [<- | [<- | []]]; apply Hnot; simpl; tauto).
  rewrite (eqb_false lang_name "java") by (intros ->; apply Hnot; simpl; tauto).
  rewrite (eqb_false lang_name "go") by (intros ->; apply Hnot; simpl; tauto).
  rewrite (eqb_false lang_name "rust") by (intros ->; apply Hnot; simpl; tauto).
  reflexivity.
Qed.

(** The theorem at work on a C++ file. *)
Lemma precise_no_imports_witness :
  extract_imports (TreeSitterParser_as_Parser Examples.scenario_tree_sitter)
    "#include <vector>" "src/main.cpp" = Ok []
  \/ exists e,
       ts_parse Examples.scenario_tree_sitter "cpp" "#include <vector>" = Raise e
       /\ extract_imports (TreeSitterParser_as_Parser Examples.scenario_tree_sitter)
            "#include <vector>" "src/main.cpp" = Raise e.
Proof.
  apply (precise_no_imports Examples.scenario_tree_sitter
           "#include <vector>" "src/main.cpp" "cpp").
  - reflexivity.
  - simpl. intros H. repeat (destruct H as [H | H]; [discriminate H |]). exact H.
Defined.

(** X16.  The Python-specific branch of [_find_name_node] never
    contributes: for every node and language the result is the first
    child whose type is identifier, type_identifier, property_identifier,
    field_identifier or name, and [None] when there is no such child. *)
Theorem _find_name_node_first_child (node : Node) (lang_name : string) :
  _find_name_node node lang_name
  = List.find (fun child => PyStr.mem (node_type child) name_node_types
                            || String.eqb (node_type child) "name")
      (children node).
Proof.
  unfold _find_name_node.
  destruct (List.find _ (children node)) as [child |] eqn:E; [reflexivity |].
  destruct (String.eqb lang_name "python"
            && (String.eqb (node_type node) "class_definition"
                || String.eqb (node_type node) "function_definition"));
    [| reflexivity].
  destruct (List.find (fun child => String.eqb (node_type child) "identifier")
              (children node)) as [child |] eqn:E2; [| reflexivity].
  apply find_some in E2. destruct E2 as [Hin Hid].
  pose proof (find_none _ _ E child Hin) as Hno. cbv beta in Hno.
  apply String.eqb_eq in Hid. rewrite Hid in Hno. discriminate.
Qed.

(* ================================================================== *)
(** * Search, once more *)
(* ================================================================== *)

Lemma append_assoc (a b c : string) : (a +:+ b) +:+ c = a +:+ (b +:+ c).
Proof.
  induction a as [|x a IH]; [reflexivity |].
  change (String x ((a +:+ b) +:+ c) = String x (a +:+ (b +:+ c))). now f_equal.
Qed.

Lemma is_substring_trans (a b c : string) :
  is_substring a b -> is_substring b c -> is_substring a c.
Proof.
  intros (p1 & s1 & ->) (p2 & s2 & ->).
  exists (p2 +:+ p1), (s1 +:+ s2). now rewrite !append_assoc.
Qed.

Lemma contains_trans (a b c : string) :
  is_substring a b -> PyStr.contains b c = true -> PyStr.contains a c = true.
Proof.
  intros Hab Hbc. apply contains_spec. apply contains_spec in Hbc.
  exact (is_substring_trans a b c Hab Hbc).
Qed.

Lemma filter_sublist_pointwise {A : Type} (f g : A -> bool) (l : list A) :
  (forall x, f x = true -> g x = true) ->
  sublist (List.filter f l) (List.filter g l).
Proof.
  intros H. induction l as [|x l IH]; simpl; [constructor |].
  destruct (f x) eqn:Ef.
  - rewrite (H x Ef). now constructor.
  - destruct (g x); [now constructor | exact IH].
Qed.

(** X17.  A longer query narrows the search: when the lowercased query
    [q1] occurs in the lowercased query [q2], the result for [q2] is a
    subsequence of the result for [q1] under the same kind filter. *)
Theorem search_entities_narrowing (self : CodebaseIndex) (q1 q2 : string)
    (entity_type : option string) :
  is_substring (PyStr.lower q1) (PyStr.lower q2) ->
  sublist (search_entities self q2 entity_type) (search_entities self q1 entity_type).
Proof.
  intros Hsub. rewrite !search_entities_filter.
  apply filter_sublist_pointwise. intros e. unfold search_match.
  destruct (match entity_type with
            | Some t => PyStr.truthy t && negb (String.eqb (type e) t)
            | None => false
            end); [discriminate |].
  rewrite !orb_true_iff. intros [H | H]; [left | right];
    exact (contains_trans _ _ _ Hsub H).
Qed.

(** The theorem at work: every hit for MAIN is a hit for ma. *)
Lemma search_entities_narrowing_witness :
  sublist (search_entities Examples.scenario_index "MAIN" None)
          (search_entities Examples.scenario_index "ma" None).
Proof.
  apply (search_entities_narrowing Examples.scenario_index "ma" "MAIN" None).
  exists EmptyString, "in". reflexivity.
Defined.

(* ================================================================== *)
(** * Project detection and the memory estimate *)
(* ================================================================== *)

Lemma has_indicator_spec (env : Env) (root_path : Path) (files : list string) :
  has_indicator env root_path files = true
  <-> exists file, In file files
                   /\ fs_exists env (PurePath.joinpath root_path file) = true.
Proof.
  induction files as [|f files IH]; cbn [has_indicator].
  - split; [discriminate | intros (file & [] & _)].
  - destruct (fs_exists env (PurePath.joinpath root_path f)) eqn:E.
    + split; [intros _; exists f; split; [now left | exact E] | reflexivity].
    + rewrite IH. split.
      * intros (file & Hin & Hex). exists file. split; [now right | exact Hex].
      * intros (file & [<- | Hin] & Hex); [congruence | now exists file].
Qed.

Lemma detected_in_spec (env : Env) (root_path : Path) (tbl : PyDict.t (list string))
    (lang : string) :
  In lang (detected_in env root_path tbl)
  <-> exists files, In (lang, files) tbl /\ has_indicator env root_path files = true.
Proof.
  unfold detected_in, PyDict.items. rewrite in_flat_map. split.
  - intros ([l files] & Hin & Hl). cbn [fst snd] in Hl.
    destruct (has_indicator env root_path files) eqn:E; [| destruct Hl].
    destruct Hl as [<- | []]. now exists files.
  - intros (files & Hin & Hhas). exists (lang, files). split; [exact Hin |].
    cbn [fst snd]. rewrite Hhas. now left.
Qed.

Lemma detected_in_nil (env : Env) (root_path : Path) (tbl : PyDict.t (list string)) :
  detected_in env root_path tbl = []
  <-> forall lang files, In (lang, files) tbl ->
                         has_indicator env root_path files = false.
Proof.
  split.
  - intros Hnil lang files Hin.
    destruct (has_indicator env root_path files) eqn:E; [| reflexivity].
    assert (In lang (detected_in env root_path tbl)) as H
        by (apply detected_in_spec; now exists files).
    rewrite Hnil in H. destruct H.
  - intros H. destruct (detected_in env root_path tbl) as [|l rest] eqn:E;
      [reflexivity |].
    assert (In l (detected_in env root_path tbl)) as Hl by (rewrite E; now left).
    apply detected_in_spec in Hl. destruct Hl as (files & Hin & Hhas).
    rewrite (H l files Hin) in Hhas. discriminate.
Qed.

Lemma detected_in_single (env : Env) (root_path : Path)
    (tbl : PyDict.t (list string)) (lang : string) :
  List.NoDup (map fst tbl) ->
  (forall l files, In (l, files) tbl ->
                   has_indicator env root_path files = true -> l = lang) ->
  (exists files, In (lang, files) tbl /\ has_indicator env root_path files = true) ->
  detected_in env root_path tbl = [lang].
Proof.
  induction tbl as [|[l0 f0] tbl IH]; intros Hnd Honly (files & Hin & Hhas).
  - destruct Hin.
  - inversion Hnd as [|? ? Hnotin Hnd']; subst.
    change (detected_in env root_path ((l0, f0) :: tbl))
      with ((if has_indicator env root_path f0 then [l0] else [])
            ++ detected_in env root_path tbl).
    destruct (has_indicator env root_path f0) eqn:E0.
    + assert (l0 = lang) as -> by (apply (Honly l0 f0); [now left | exact E0]).
      assert (detected_in env root_path tbl = []) as ->; [| reflexivity].
      apply detected_in_nil. intros l fs Hl.
      destruct (has_indicator env root_path fs) eqn:E; [| reflexivity].
      assert (l = lang) as -> by (apply (Honly l fs); [now right | exact E]).
      exfalso. apply Hnotin. apply (in_map fst) in Hl. exact Hl.
    + cbn [app]. apply IH.
      * exact Hnd'.
      * intros l fs Hl. apply Honly. now right.
      * destruct Hin as [[= <- <-] | Hin]; [congruence | now exists files].
Qed.

Lemma indicators_keys_distinct : List.NoDup (map fst indicators).
Proof.
  repeat (constructor;
          [simpl; intros H;
           repeat (destruct H as [H | H]; [discriminate H |]); exact H |]).
  constructor.
Qed.

(** X18.  [get_project_type] answers unknown exactly when none of the
    indicator files of its table exists directly under the root. *)
Theorem get_project_type_unknown (env : Env) (root_path : Path) :
  get_project_type env root_path = "unknown"
  <-> forall lang files file,
        In (lang, files) indicators -> In file files ->
        fs_exists env (PurePath.joinpath root_path file) = false.
Proof.
  split.
  - intros Hres.
    assert (detected_in env root_path indicators = []) as Hnil.
    { unfold get_project_type in Hres.
      destruct (detected_in env root_path indicators) as [|l [|l2 rest]] eqn:E.
      - reflexivity.
      - subst l.
        assert (In "unknown" (detected_in env root_path indicators)) as H
            by (rewrite E; now left).
        apply detected_in_spec in H. destruct H as (files & Hin & _).
        simpl in Hin.
        repeat (destruct Hin as [Hin | Hin]; [discriminate Hin |]). destruct Hin.
      - discriminate Hres. }
    intros lang files file Hin Hfile.
    destruct (fs_exists env (PurePath.joinpath root_path file)) eqn:E; [| reflexivity].
    rewrite detected_in_nil in Hnil. specialize (Hnil lang files Hin).
    assert (has_indicator env root_path files = true) as Hhas
        by (apply has_indicator_spec; now exists file).
    congruence.
  - intros Hnone. unfold get_project_type.
    assert (detected_in env root_path indicators = []) as ->; [| reflexivity].
    apply detected_in_nil. intros lang files Hin.
    destruct (has_indicator env root_path files) eqn:E; [| reflexivity].
    apply has_indicator_spec in E. destruct E as (file & Hfile & Hex).
    rewrite (Hnone lang files file Hin Hfile) in Hex. discriminate.
Qed.

(** X19.  [get_project_type] answers with a language of its table when
    an indicator file of that language exists under the root and every
    existing indicator file belongs to that language. *)
Theorem get_project_type_single (env : Env) (root_path : Path) (lang : string) :
  (exists files file,
      In (lang, files) indicators /\ In file files
      /\ fs_exists env (PurePath.joinpath root_path file) = true) ->
  (forall lang' files file,
      In (lang', files) indicators -> In file files ->
      fs_exists env (PurePath.joinpath root_path file) = true -> lang' = lang) ->
  get_project_type env root_path = lang.
Proof.
  intros (files & file & Hin & Hfile & Hex) Honly. unfold get_project_type.
  rewrite (detected_in_single env root_path indicators lang).
  - reflexivity.
  - exact indicators_keys_distinct.
  - intros l fs Hl Hhas. apply has_indicator_spec in Hhas.
    destruct Hhas as (f & Hf & Hfex). exact (Honly l fs f Hl Hf Hfex).
  - exists files. split; [exact Hin |]. apply has_indicator_spec. now exists file.
Qed.

(** The theorem at work on a tree whose only manifest is Cargo.toml. *)
Lemma get_project_type_single_witness :
  get_project_type (Fixture.env_of MoreExamples.cargo_tree) Examples.proj = "rust".
Proof.
  apply (get_project_type_single (Fixture.env_of MoreExamples.cargo_tree)
           Examples.proj "rust").
  - exists ["Cargo.toml"], "Cargo.toml". split; [| split].
    + simpl. tauto.
    + now left.
    + vm_compute. reflexivity.
  - intros lang' files file Hin Hfile.
    simpl in Hin.
    repeat (destruct Hin as [Hin | Hin];
            [injection Hin as <- <-;
             simpl in Hfile;
             repeat (destruct Hfile as [Hfile | Hfile];
                     [subst file; vm_compute; first [discriminate | reflexivity] |]);
             destruct Hfile |]).
    destruct Hin.
Defined.

(** X20.  The unit of the memory estimate printed by build, with the
    default average file size (10100 bytes are counted per file): bytes
    only for a count of zero or less, KB for 1 to 103 files, MB for 104 to
    106311 files, GB from 106312 files on. *)
Theorem estimate_memory_usage_units (F : Formats) (file_count : Z) :
  ((file_count <= 0)%Z ->
   estimate_memory_usage F file_count None
   = str_int F (file_count * 10100)%Z +:+ " B")
  /\ ((1 <= file_count <= 103)%Z ->
      estimate_memory_usage F file_count None
      = fmt_1f F (file_count * 10100)%Z 1024%Z +:+ " KB")
  /\ ((104 <= file_count <= 106311)%Z ->
      estimate_memory_usage F file_count None
      = fmt_1f F (file_count * 10100)%Z (1024 * 1024)%Z +:+ " MB")
  /\ ((106312 <= file_count)%Z ->
      estimate_memory_usage F file_count None
      = fmt_1f F (file_count * 10100)%Z (1024 * 1024 * 1024)%Z +:+ " GB").
Proof.
  unfold estimate_memory_usage.
  change (5000 + 100 + 500 * 10)%Z with 10100%Z.
  change (1024 * 1024 * 1024)%Z with 1073741824%Z.
  change (1024 * 1024)%Z with 1048576%Z.
  repeat split; intros H;
    destruct (Z.ltb_spec (file_count * 10100) 1024);
    destruct (Z.ltb_spec (file_count * 10100) 1048576);
    destruct (Z.ltb_spec (file_count * 10100) 1073741824);
    try reflexivity; lia.
Qed.

(** The theorem at work: fifty files are estimated in KB. *)
Lemma estimate_memory_usage_units_witness :
  estimate_memory_usage Formatting.truncating_formats 50 None
  = fmt_1f Formatting.truncating_formats (50 * 10100)%Z 1024%Z +:+ " KB".
Proof.
  apply (proj1 (proj2 (estimate_memory_usage_units
                         Formatting.truncating_formats 50))). lia.
Defined.

(* ================================================================== *)
(** * Grammar loading *)
(* ================================================================== *)

(** [__init__] stores a parser only after it has stored the language. *)
Lemma init_parsers_languages (ts : TreeSitter) (lang_name : string) :
  PyStr.mem lang_name (parsers (TreeSitterParser_init ts)) = true ->
  PyStr.mem lang_name (languages (TreeSitterParser_init ts)) = true.
Proof.
  rewrite !mem_In. unfold TreeSitterParser_init.
  destruct (TREE_SITTER_AVAILABLE ts); cbn [parsers languages]; [| intros []].
  rewrite !List.filter_In. intros [Hin Hb].
  apply andb_true_iff in Hb. now split.
Qed.

Lemma parser_language_loaded (self : TreeSitterParser) (file_path lang_name : string) :
  parser_language self file_path = Some lang_name ->
  PyStr.mem lang_name (parsers self) = true.
Proof.
  unfold parser_language.
  destruct (PyDict.get _ EXTENSION_TO_LANGUAGE) as [l |]; [| discriminate].
  destruct (PyStr.truthy l && PyStr.mem l (parsers self)) eqn:E; [| discriminate].
  intros [= <-]. now apply andb_true_iff in E.
Qed.

(** X21.  For a parser set up by [__init__], the test on the loaded
    languages in [parse_file] never fails: for a file of a language with a
    definitions query whose text parses, the entities are those of the
    query captures, and the tree is walked by hand only when the query
    raises; the result is then that of the walk, its [RecursionError]
    included. *)
Theorem precise_query_or_walk (ts : TreeSitter) (src file_path lang_name q : string)
    (root_node : Node) :
  parser_language (TreeSitterParser_init ts) file_path = Some lang_name ->
  PyDict.get lang_name LANGUAGE_QUERIES_definitions = Some q ->
  ts_parse ts lang_name src = Ok root_node ->
  parse_file (TreeSitterParser_as_Parser ts) src file_path
  = match ts_captures ts lang_name q root_node with
    | Ok captures =>
        Ok (PyDict.of_assignments (omap (capture_assignment src file_path q) captures))
    | Raise _ =>
        match _walk_tree (recursion_budget ts) root_node src file_path lang_name with
        | Ok walked => Ok (PyDict.update PyDict.empty walked)
        | Raise e => Raise e
        end
    end.
Proof.
  intros Hl Hq Hparse. unfold TreeSitterParser_as_Parser. cbn [parse_file].
  unfold TreeSitterParser_parse_file. rewrite Hl, Hparse, Hq.
  now rewrite (init_parsers_languages ts lang_name (parser_language_loaded _ _ _ Hl)).
Qed.

(** The theorem at work on utils.py of the scenario. *)
Lemma precise_query_or_walk_witness :
  exists q,
    PyDict.get "python" LANGUAGE_QUERIES_definitions = Some q
    /\ parse_file (TreeSitterParser_as_Parser Examples.scenario_tree_sitter)
         "def helper(): pass" "utils.py"
       = match ts_captures Examples.scenario_tree_sitter "python" q
                 Examples.helper_module_node with
         | Ok captures =>
             Ok (PyDict.of_assignments
                   (omap (capture_assignment "def helper(): pass" "utils.py" q) captures))
         | Raise _ =>
             match _walk_tree (recursion_budget Examples.scenario_tree_sitter)
                     Examples.helper_module_node "def helper(): pass"
                     "utils.py" "python" with
             | Ok walked => Ok (PyDict.update PyDict.empty walked)
             | Raise e => Raise e
             end
         end.
Proof.
  destruct (PyDict.get "python" LANGUAGE_QUERIES_definitions) as [q |] eqn:Hq;
    [| discriminate Hq].
  exists q. split; [reflexivity |].
  apply (precise_query_or_walk Examples.scenario_tree_sitter
           "def helper(): pass" "utils.py" "python" q Examples.helper_module_node).
  - reflexivity.
  - exact Hq.
  - reflexivity.
Defined.

Section BasicBinding.

Variable env : Env.
Variable ts : TreeSitter.
Variable re : Regex.
Variable root_path : Path.

Hypothesis Hnot_available : TREE_SITTER_AVAILABLE ts = false.
Hypothesis Hbasic : TREE_SITTER_BASIC ts = true.

Lemma basic_select_parser : select_parser ts re = TreeSitterParser_as_Parser ts.
Proof. unfold select_parser. now rewrite Hnot_available, Hbasic. Qed.

Lemma basic_no_grammar (file_path : string) :
  parser_language (TreeSitterParser_init ts) file_path = None.
Proof.
  unfold parser_language, TreeSitterParser_init. rewrite Hnot_available.
  cbn [parsers]. destruct (PyDict.get _ EXTENSION_TO_LANGUAGE) as [l |]; [| reflexivity].
  cbn [PyStr.mem existsb]. now rewrite andb_false_r.
Qed.

Lemma files_only__index_file (file_path : Path) (self : CodebaseIndex) :
  files_only self ->
  files_only (_index_file env (TreeSitterParser_as_Parser ts) root_path file_path self).
Proof.
  apply _index_file_keeps.
  - intros e s H. exact H.
  - intros src rel s _ _ [Hty Hedges]. split.
    + intros k e Hin. cbn [with_file_entity entities] in Hin.
      apply PyDictFacts.In_set in Hin. destruct Hin as [[= -> ->] | Hin];
        [reflexivity | now apply (Hty k)].
    + exact Hedges.
  - intros src rel _ _ s H.
    now rewrite (parse_and_link_no_grammar env ts root_path file_path src rel s
                   (basic_no_grammar rel)).
Qed.

(** X22.  When only the bare tree-sitter binding is installed the
    precise strategy is chosen but no grammar is loaded, and the regular
    expressions are not used either: nothing is parsed, so a build of a
    fresh index stores file entities only and records no edge. *)
Theorem basic_binding_files_only (extensions : option (list string)) :
  (forall src file_path,
      parse_file (select_parser ts re) src file_path = Ok PyDict.empty
      /\ extract_imports (select_parser ts re) src file_path = Ok [])
  /\ files_only (snd (build_index env (select_parser ts re) root_path extensions
                        CodebaseIndex_init)).
Proof.
  rewrite basic_select_parser. split.
  - intros src file_path. unfold TreeSitterParser_as_Parser.
    cbn [parse_file extract_imports].
    unfold TreeSitterParser_parse_file, TreeSitterParser_extract_imports.
    now rewrite basic_no_grammar.
  - apply build_index_keeps.
    + intros f self. apply files_only__index_file.
    + split; [intros k e [] | reflexivity].
Qed.

End BasicBinding.

(** The theorem at work: the scenario indexed with the bare binding. *)
Lemma basic_binding_files_only_witness :
  files_only
    (snd (build_index (Fixture.env_of Examples.scenario_tree)
            (select_parser MoreExamples.basic_tree_sitter Examples.scenario_regex)
            Examples.proj None CodebaseIndex_init)).
Proof.
  apply (basic_binding_files_only (Fixture.env_of Examples.scenario_tree)
           MoreExamples.basic_tree_sitter Examples.scenario_regex Examples.proj
           eq_refl eq_refl None).
Defined.

(* ================================================================== *)
(** * The rules of the resolver *)
(* ================================================================== *)





(** X24.  The rule for relative imports: an import made of [k] leading
    dot-dot-slash segments and a rest is searched from the [k]-th parent of
    the directory of the importing file, under the rest stripped of its
    leading dots and slashes.  [exists()] is asked about the candidates in
    turn, extensions in table order and three candidates each: its
    exception is passed on, the first candidate that exists is returned
    relative to the root, and the result is [None] when none exists.  When
    [exists()] answers for every candidate, that is the first existing
    candidate of the list. *)
Theorem resolve_import_relative_rule (env : Env) (root_path : Path) (k : nat)
    (rest : string) (from_file : Path) :
  PyStr.strip quote_chars (dotdots k rest) = dotdots k rest ->
  PyStr.startswith (dotdots k rest) "." = true ->
  PyStr.startswith rest "../" = false ->
  let cands :=
    List.flat_map
      (candidates (climb k (PurePath.parent from_file)) (PyStr.lstrip "./" rest))
      (PyDict.keys EXTENSION_TO_LANGUAGE) in
  _resolve_import env root_path (dotdots k rest) from_file
  = match first_existing env cands with
    | Raise e => Raise e
    | Ok (Some candidate) =>
        match relative_to candidate root_path with
        | Ok s => Ok (Some s)
        | Raise e => Raise e
        end
    | Ok None => Ok None
    end
  /\ ((forall c, In c cands -> fs_exists_error env c = None) ->
      first_existing env cands = Ok (List.find (fs_exists env) cands)).
Proof.
  intros Hq Hdot Hrest cands. split.
  - now rewrite (_resolve_import_relative env root_path k rest from_file Hq Hdot Hrest).
  - apply first_existing_answers.
Qed.

(** The theorem at work: dot-dot-slash-d from a/b/c.py finds a/d.py. *)
Lemma resolve_import_relative_rule_witness :
  _resolve_import (Fixture.env_of Examples.dotted_tree) Examples.proj
    (dotdots 1 "d") (Examples.proj ++ ["a"; "b"; "c.py"])
  = Ok (Some "a/d.py").
Proof.
  rewrite (proj1 (resolve_import_relative_rule (Fixture.env_of Examples.dotted_tree)
                    Examples.proj 1 "d" (Examples.proj ++ ["a"; "b"; "c.py"])
                    eq_refl eq_refl eq_refl)).
  vm_compute. reflexivity.
Defined.

(** X25.  The rule for the other imports, when the slash-separated form
    of the import does not start with a slash: the candidates lie under
    the root and the importing file plays no part.  [exists()] is asked
    about them in turn: its exception is passed on, and the caller then
    records no edge for the import; otherwise the first candidate that
    exists is returned as its root-relative path, [relative_to] never
    raising, and the caller records the edge to it, or to the external
    node of the raw import when none exists. *)
Theorem resolve_import_root_rule (env : Env) (root_path : Path) (imp : string)
    (from_file : Path) (relative_path : string) (self : CodebaseIndex) :
  PyStr.startswith (PyStr.strip quote_chars imp) "." = false ->
  PurePath.leading_slashes (slashed (PyStr.strip quote_chars imp)) = 0 ->
  let searched :=
    first_existing_under env root_path
      (List.flat_map (relative_candidates (slashed (PyStr.strip quote_chars imp)))
         (PyDict.keys EXTENSION_TO_LANGUAGE)) in
  _resolve_import env root_path imp from_file
  = match searched with
    | Raise e => Raise e
    | Ok found => Ok (option_map PurePath.to_string found)
    end
  /\ add_import_edge env root_path from_file relative_path imp self
     = match searched with
       | Raise e => (Raise e, self)
       | Ok found =>
           (Ok tt,
            with_edge relative_path
              (match found with
               | Some rel => PurePath.to_string rel
               | None => "external:" +:+ imp
               end) self)
       end.
Proof.
  intros Hdot Hslash searched. split.
  - exact (_resolve_import_under_root env root_path imp from_file Hdot Hslash).
  - rewrite (add_import_edge_under_root env root_path from_file relative_path imp self
               Hdot Hslash).
    fold searched. now destruct searched.
Qed.

(** The theorem at work: main.py of the scenario imports utils, and an
    import of 300 characters leaves no edge. *)
Lemma resolve_import_root_rule_witness :
  _resolve_import (Fixture.env_of Examples.scenario_tree) Examples.proj "utils"
    (Examples.proj ++ ["main.py"])
  = Ok (Some "utils.py")
  /\ add_import_edge (Fixture.env_of Examples.scenario_tree) Examples.proj
       (Examples.proj ++ ["main.py"]) "main.py" MoreExamples.long_name
       CodebaseIndex_init
     = (Raise "OSError", CodebaseIndex_init).
Proof.
  split.
  - rewrite (proj1 (resolve_import_root_rule (Fixture.env_of Examples.scenario_tree)
                      Examples.proj "utils" (Examples.proj ++ ["main.py"]) "main.py"
                      CodebaseIndex_init eq_refl eq_refl)).
    vm_compute. reflexivity.
  - rewrite (proj2 (resolve_import_root_rule (Fixture.env_of Examples.scenario_tree)
                      Examples.proj MoreExamples.long_name
                      (Examples.proj ++ ["main.py"]) "main.py"
                      CodebaseIndex_init eq_refl eq_refl)).
    vm_compute. reflexivity.
Defined.

(* ================================================================== *)
(** * The entities of a file *)
(* ================================================================== *)

Lemma char_in_cons_false (c a : ascii) (s : string) :
  PyStr.char_in c (String a s) = false -> c <> a /\ PyStr.char_in c s = false.
Proof.
  cbn [PyStr.char_in]. intros H. apply orb_false_iff in H. destruct H as [Hc Hs].
  split; [| exact Hs]. intros ->. now rewrite Ascii.eqb_refl in Hc.
Qed.

(** A path without colon that, followed by two colons, starts a key made
    of a path without colon, two colons and a name, is that path. *)
Lemma prefix_colons_path (f p n : string) :
  PyStr.char_in ":" f = false -> PyStr.char_in ":" p = false ->
  String.prefix (f +:+ "::") (p +:+ "::" +:+ n) = true -> p = f.
Proof.
  revert p. induction f as [|a f IH]; intros [|c p] Hf Hp.
  - reflexivity.
  - apply char_in_cons_false in Hp. destruct Hp as [Hc _].
    change (String.prefix ("" +:+ "::") (String c p +:+ "::" +:+ n))
      with (if ascii_dec ":" c then String.prefix ":" (p +:+ "::" +:+ n) else false).
    destruct (ascii_dec ":" c); [contradiction | discriminate].
  - apply char_in_cons_false in Hf. destruct Hf as [Ha _].
    change (String.prefix (String a f +:+ "::") ("" +:+ "::" +:+ n))
      with (if ascii_dec a ":" then String.prefix (f +:+ "::") (":" +:+ n) else false).
    destruct (ascii_dec a ":"); [now subst | discriminate].
  - apply char_in_cons_false in Hf. destruct Hf as [_ Hf].
    apply char_in_cons_false in Hp. destruct Hp as [_ Hp].
    change (String.prefix (String a f +:+ "::") (String c p +:+ "::" +:+ n))
      with (if ascii_dec a c
            then String.prefix (f +:+ "::") (p +:+ "::" +:+ n) else false).
    destruct (ascii_dec a c) as [-> |]; [| discriminate].
    intros H. now rewrite (IH p Hf Hp H).
Qed.

(** No path without colon starts with something followed by two
    colons. *)
Lemma prefix_colons_none (f p : string) :
  PyStr.char_in ":" p = false -> String.prefix (f +:+ "::") p = true -> False.
Proof.
  revert p. induction f as [|a f IH]; intros [|c p] Hp.
  - discriminate.
  - apply char_in_cons_false in Hp. destruct Hp as [Hc _].
    change (String.prefix ("" +:+ "::") (String c p))
      with (if ascii_dec ":" c then String.prefix ":" p else false).
    destruct (ascii_dec ":" c); [contradiction | discriminate].
  - discriminate.
  - apply char_in_cons_false in Hp. destruct Hp as [_ Hp].
    change (String.prefix (String a f +:+ "::") (String c p))
      with (if ascii_dec a c then String.prefix (f +:+ "::") p else false).
    destruct (ascii_dec a c); [| discriminate]. now apply IH.
Qed.

Lemma get_file_entities_key_inv (self : CodebaseIndex) (file_path : string) :
  key_inv self ->
  PyStr.char_in ":" file_path = false ->
  (forall k e, In (k, e) (PyDict.items (entities self)) ->
               PyStr.char_in ":" (path e) = false) ->
  get_file_entities self file_path
  = List.filter (fun e => String.eqb (path e) file_path)
      (PyDict.values (entities self)).
Proof.
  unfold key_inv, get_file_entities, PyDict.values, PyDict.items.
  intros Hkey Hf. induction (entities self) as [|[k e] d IH]; intros Hpaths;
    [reflexivity |].
  assert (String.eqb (path e) file_path
          || PyStr.startswith k (file_path +:+ "::")
          = String.eqb (path e) file_path) as Hsame.
  { destruct (String.eqb (path e) file_path) eqn:E; [reflexivity |].
    cbn [orb]. unfold PyStr.startswith.
    destruct (String.prefix (file_path +:+ "::") k) eqn:Hpre; [| reflexivity].
    exfalso. pose proof (Hpaths k e (or_introl eq_refl)) as Hp.
    destruct (Hkey k e (or_introl eq_refl)) as [[_ ->] | [_ ->]].
    - exact (prefix_colons_none _ _ Hp Hpre).
    - apply prefix_colons_path in Hpre; [| exact Hf | exact Hp].
      rewrite Hpre, String.eqb_refl in E. discriminate. }
  cbn [List.filter map fst snd]. rewrite Hsame.
  rewrite <- IH.
  - now destruct (String.eqb (path e) file_path).
  - intros k' e' Hin. apply (Hkey k' e'). now right.
  - intros k' e' Hin. apply (Hpaths k' e'). now right.
Qed.

(** X26.  After a build of a fresh index, with either strategy,
    [get_file_entities] returns exactly the stored entities whose path is
    the given one, in map order, provided neither that path nor the path
    of a stored entity holds a colon: the test on the key then adds
    nothing to the test on the path. *)
Theorem get_file_entities_by_path (env : Env) (ts : TreeSitter) (re : Regex)
    (root_path : Path) (extensions : option (list string)) (file_path : string) :
  let self :=
    snd (build_index env (select_parser ts re) root_path extensions
           CodebaseIndex_init) in
  PyStr.char_in ":" file_path = false ->
  (forall k e, In (k, e) (PyDict.items (entities self)) ->
               PyStr.char_in ":" (path e) = false) ->
  get_file_entities self file_path
  = List.filter (fun e => String.eqb (path e) file_path)
      (PyDict.values (entities self)).
Proof.
  intros self Hf Hpaths. apply get_file_entities_key_inv; [| exact Hf | exact Hpaths].
  exact (key_inv_build_index env (select_parser ts re) root_path
           (select_parser_keys_ok ts re) extensions).
Qed.

(** The theorem at work: the entities of utils.py in the scenario. *)
Lemma get_file_entities_by_path_witness :
  get_file_entities Examples.scenario_index "utils.py"
  = List.filter (fun e => String.eqb (path e) "utils.py")
      (PyDict.values (entities Examples.scenario_index)).
Proof.
  apply (get_file_entities_by_path (Fixture.env_of Examples.scenario_tree)
           Fixture.no_tree_sitter Examples.scenario_regex Examples.proj None
           "utils.py").
  - reflexivity.
  - intros k e H. vm_compute in H.
    repeat (destruct H as [H | H]; [injection H as <- <-; reflexivity |]).
    destruct H.
Defined.
